(** * TeamsFx: environment state reconciliation and project-settings migration

    A shallow embedding of the parts of fx-core that decide which
    subscription, resource group and tenant a provisioning run targets,
    of the consent dialog, of the provisioning pipeline, of the
    environment loader and of the V2/V3 migration of project settings and
    environment state, together with the properties proved about them.

    JavaScript objects used as dictionaries are finite maps ([gmap] keyed
    by [string]); arrays are lists; [Result<T, FxError>] is [Result];
    collaborators the code only calls (token providers, the resource
    manager client, the user-interaction surface, plugins) are section
    variables, so every theorem holds for all of them. *)

From stdpp Require Import gmap strings list fin_maps.
From Stdlib Require Import ZArith.

Open Scope string_scope.

(** ** JSON values and JavaScript truthiness *)

#[local] Unset Elimination Schemes.
Inductive Json : Type :=
| JNull
| JBool (b : bool)
| JNum (n : Z)
| JStr (s : string)
| JArr (items : list Json)
| JObj (fields : list (string * Json)).
#[local] Set Elimination Schemes.

(** [!!s] for a string: every string but the empty one is truthy. *)
Definition truthy (s : string) : bool := negb (String.eqb s "").

(** [!!x] for [x : string | undefined]. *)
Definition truthyOpt (o : option string) : bool :=
  match o with
  | Some s => truthy s
  | None => false
  end.

(** [a || b] on [string | undefined] operands. *)
Definition orElse (a b : option string) : option string :=
  if truthyOpt a then a else b.

(** Truthiness of an arbitrary JSON value. *)
Definition truthyJson (j : Json) : bool :=
  match j with
  | JNull => false
  | JBool b => b
  | JNum n => negb (n =? 0)%Z
  | JStr s => truthy s
  | JArr _ => true
  | JObj _ => true
  end.

(** A string-valued field read: [o.f] when it holds a string. *)
Definition asString (j : option Json) : option string :=
  match j with
  | Some (JStr s) => Some s
  | _ => None
  end.

(** [!!x] for an object [x | undefined]. *)
Definition isSome {A : Type} (o : option A) : bool :=
  match o with
  | Some _ => true
  | None => false
  end.

(** [Object.keys(o)] of an object used as a dictionary. *)
Definition Object_keys {V : Type} (o : gmap string V) : list string :=
  (map_to_list o).*1.

(** ** [Result<T, FxError>] *)

Inductive ErrorKind : Type := UserErrorKind | SystemErrorKind.

Record FxError : Type := mkFxError {
  errKind : ErrorKind;
  errSource : string;
  errName : string;
  errMessage : string;
}.

Definition UserError (source name message : string) : FxError :=
  mkFxError UserErrorKind source name message.

Definition SystemError (source name message : string) : FxError :=
  mkFxError SystemErrorKind source name message.

Inductive Result (T : Type) : Type :=
| ok (value : T)
| err (error : FxError).

Arguments ok {T} value.
Arguments err {T} error.

Definition isOk {T : Type} (r : Result T) : bool :=
  match r with
  | ok _ => true
  | err _ => false
  end.

Definition isErr {T : Type} (r : Result T) : bool := negb (isOk r).

(** ** component/constants.ts *)

(** Modelled from the spec: the table [ComponentNames] of
    component/constants.ts, which the sources at hand import but do not
    contain; one name per component of the "components graph" of the
    project settings, spelled as migrate.ts and the tests spell them
    where they write them as literals ("teams-tab", "teams-bot", "spfx",
    "azure-storage", "azure-web-app", "azure-function", "aad-app",
    "apim"). *)
Module ComponentNames.
Definition TeamsTab := "teams-tab".
Definition TeamsBot := "teams-bot".
Definition TeamsApi := "teams-api".
Definition AppManifest := "app-manifest".
Definition AadApp := "aad-app".
Definition AzureWebApp := "azure-web-app".
Definition AzureStorage := "azure-storage".
Definition BotService := "bot-service".
Definition SPFx := "spfx".
Definition Identity := "identity".
Definition APIM := "apim".
Definition KeyVault := "key-vault".
Definition AzureSQL := "azure-sql".
Definition Function := "azure-function".
Definition SimpleAuth := "simple-auth".
End ComponentNames.

(** Modelled from the spec: the table [V1PluginNames] of
    component/constants.ts (absent as well); the plugin names are the
    keys of the [EnvStateV2] interface of migrate.ts. *)
Module V1PluginNames.
Definition frontend := "fx-resource-frontend-hosting".
Definition identity := "fx-resource-identity".
Definition function := "fx-resource-function".
Definition bot := "fx-resource-bot".
Definition keyVault := "fx-resource-key-vault".
Definition apim := "fx-resource-apim".
Definition aad := "fx-resource-aad-app-for-teams".
Definition appStudio := "fx-resource-appstudio".
Definition simpleAuth := "fx-resource-simple-auth".
Definition sql := "fx-resource-azure-sql".
End V1PluginNames.

(** ** component/migrate.ts: environment state *)

Module EnvStateMigration.

Definition EnvStateMigrationComponentNames : list (string * string) :=
  [ ("solution", "solution");
    ("fx-resource-appstudio", ComponentNames.AppManifest);
    ("fx-resource-identity", ComponentNames.Identity);
    ("fx-resource-azure-sql", ComponentNames.AzureSQL);
    ("fx-resource-aad-app-for-teams", ComponentNames.AadApp);
    ("fx-resource-function", ComponentNames.TeamsApi);
    ("fx-resource-apim", ComponentNames.APIM);
    ("fx-resource-key-vault", ComponentNames.KeyVault);
    ("fx-resource-bot", ComponentNames.TeamsBot);
    ("fx-resource-frontend-hosting", ComponentNames.TeamsTab) ].

(** [new Map(); EnvStateMigrationComponentNames.forEach(e => map.set(e[0], e[1]))] *)
Definition plugin2component : gmap string string :=
  foldl (fun m e => <[e.1 := e.2]> m) ∅ EnvStateMigrationComponentNames.

(** [new Map(); EnvStateMigrationComponentNames.forEach(e => map.set(e[1], e[0]))] *)
Definition component2plugin : gmap string string :=
  foldl (fun m e => <[e.2 := e.1]> m) ∅ EnvStateMigrationComponentNames.

Definition pluginName2ComponentName (pluginName : string) : string :=
  match plugin2component !! pluginName with
  | Some c => if truthy c then c else pluginName
  | None => pluginName
  end.

Definition ComponentName2pluginName (componentName : string) : string :=
  match component2plugin !! componentName with
  | Some p => if truthy p then p else componentName
  | None => componentName
  end.

Section Convert.
Context {V : Type}.

(** One turn of the [for ... of Object.keys(src)] loop: the entry is
    copied under its new name when the renaming map knows the key
    (and the new name is truthy), and skipped otherwise. *)
Definition copyRenamed (renaming : gmap string string) (src : gmap string V)
    (out : gmap string V) (key : string) : gmap string V :=
  match renaming !! key with
  | Some newName =>
      if truthy newName then
        match src !! key with
        | Some v => <[newName := v]> out
        | None => out
        end
      else out
  | None => out
  end.

Definition convertEnvStateV3ToV2 (envStateV3 : gmap string V) : gmap string V :=
  foldl (copyRenamed component2plugin envStateV3) ∅ (Object_keys envStateV3).

Definition convertEnvStateV2ToV3 (envStateV2 : gmap string V) : gmap string V :=
  foldl (copyRenamed plugin2component envStateV2) ∅ (Object_keys envStateV2).
End Convert.

End EnvStateMigration.


(** ** component/provision.ts: subscription, resource group and suffix *)

(** The state of an environment, [envInfo.state]: an object keyed by
    plugin or component name (and by ["solution"]), each entry an object
    of output values. *)
Abbreviation ResourceStates := (gmap string (gmap string Json)).

Record SubscriptionInfo : Type := mkSubscriptionInfo {
  subscriptionName : string;
  subscriptionId : string;
  tenantId : string;
}.

(** [config.azure] of the environment config file. *)
Record AzureConfig : Type := mkAzureConfig {
  cfgSubscriptionId : option string;
  cfgSubscriptionName : option string;
  cfgResourceGroupName : option string;
  cfgResourceNameSuffix : option string;
}.

Record EnvInfoV3 : Type := mkEnvInfo {
  envName : string;
  azure : option AzureConfig;
  state : ResourceStates;
}.

Definition withState (envInfo : EnvInfoV3) (st : ResourceStates) : EnvInfoV3 :=
  mkEnvInfo (envName envInfo) (azure envInfo) st.

Record ResourceGroupInfo : Type := mkResourceGroupInfo {
  createNewResourceGroup : bool;
  name : string;
  location : string;
}.

Inductive Platform : Type := VSCode | CLI | VS | CLI_HELP.

Record Inputs : Type := mkInputs {
  platform : Platform;
  projectPath : option string;
  env : option string;
  inputsEnvName : string;
  targetResourceGroupName : option string;
  targetResourceLocationName : option string;
  isForUT : bool;
}.

Record TokenCredential : Type := mkTokenCredential {
  username : option string;
}.

(** [new ResourceManagementClient(azureToken, subscriptionId)] *)
Record ResourceManagementClient : Type := mkRmClient {
  credential : TokenCredential;
  clientSubscriptionId : option string;
}.

(** The answers of the Azure account provider during one run. *)
Record AzureAccountProvider : Type := mkAzureAccountProvider {
  getSelectedSubscription : option SubscriptionInfo;
  getAccountCredentialAsync : option TokenCredential;
  listSubscriptions : list SubscriptionInfo;
}.

(** [TelemetryProperty.CustomizeResourceGroupType] *)
Inductive CustomizeResourceGroupType : Type :=
| CommandLine
| EnvConfig
| EnvState
| InteractiveCreateDefault
| InteractiveCreateCustomized
| InteractiveUseExisting.

(** What a run does to the outside, in order. *)
Inductive Event : Type :=
| CheckSubscriptionStart
| CheckSubscription (hasSwitchedSubscription : bool)
| CheckResourceGroupStart
| CheckResourceGroup (type : option CustomizeResourceGroupType)
| ShowMessage (level message : string) (modal : bool) (items : list string)
| ConfirmProvision (confirmRes : option string)
| OpenUrl (url : string)
| CreateNewResourceGroup (rg : string)
| HandleConfigFilesWhenSwitchAccount
| SetProvisionSucceeded (value : bool)
| PluginProvision (plugin : string)
| DeployArmTemplates
| SetApplicationInContext
| PluginConfigure (plugin : string).

Module Solution.
Definition GLOBAL_CONFIG := "solution".

(** [envInfo.state.solution]; [v3.EnvInfoV3] types it as always
    present, and provisionResourceImpl creates it before it hands the
    environment on. *)
Definition get (st : ResourceStates) : gmap string Json :=
  default ∅ (st !! GLOBAL_CONFIG).

(** [envInfo.state.solution.f] *)
Definition field (st : ResourceStates) (f : string) : option Json := get st !! f.

(** [envInfo.state.solution.f] for a field declared [f?: string]. *)
Definition str (st : ResourceStates) (f : string) : option string :=
  asString (field st f).

(** [envInfo.state.solution.f = v] *)
Definition set (f : string) (v : Json) (st : ResourceStates) : ResourceStates :=
  <[GLOBAL_CONFIG := <[f := v]> (get st)]> st.
End Solution.

Module ProvisionUtils.

Record ProvisionSubscriptionCheckResult : Type := mkCheckResult {
  hasSwitchedSubscription : bool;
}.

Definition updateEnvInfoSubscription (st : ResourceStates) (subscriptionInfo : SubscriptionInfo)
    : ResourceStates :=
  Solution.set "tenantId" (JStr (tenantId subscriptionInfo))
    (Solution.set "subscriptionName" (JStr (subscriptionName subscriptionInfo))
       (Solution.set "subscriptionId" (JStr (subscriptionId subscriptionInfo)) st)).

Definition keysToClear : list string :=
  [ V1PluginNames.bot;
    V1PluginNames.frontend;
    V1PluginNames.function;
    V1PluginNames.identity;
    V1PluginNames.keyVault;
    V1PluginNames.sql;
    V1PluginNames.simpleAuth;
    ComponentNames.TeamsBot;
    ComponentNames.TeamsTab;
    ComponentNames.TeamsApi;
    ComponentNames.Identity;
    ComponentNames.KeyVault;
    ComponentNames.AzureSQL ].

Definition keysToModify : list string := [V1PluginNames.apim; ComponentNames.APIM].

(** The body of [for (const key of keys)]: [delete envInfo.state[key]]
    for a key to clear, [delete envInfo.state[key]["serviceResourceId"]]
    for a key to modify (the two lists share no key, so the entry read
    by the second is there). *)
Definition clearKey (st : ResourceStates) (key : string) : ResourceStates :=
  let st1 := if bool_decide (key ∈ keysToClear) then delete key st else st in
  if bool_decide (key ∈ keysToModify)
  then alter (delete "serviceResourceId") key st1
  else st1.

Definition clearEnvInfoStateResource (st : ResourceStates) : ResourceStates :=
  let st1 := Solution.set "resourceGroupName" (JStr "") st in
  let st2 := Solution.set "resourceNameSuffix" (JStr "") st1 in
  let keys := Object_keys st2 in
  foldl clearKey st2 keys.

Definition compareWithStateSubscription (st : ResourceStates)
    (targetSubscriptionInfo : SubscriptionInfo)
    (subscriptionInStateId : option string)
    : ResourceStates * Result ProvisionSubscriptionCheckResult :=
  let hasSwitchedSubscription :=
    truthyOpt subscriptionInStateId &&
    negb (bool_decide (Some (subscriptionId targetSubscriptionInfo) = subscriptionInStateId)) in
  if hasSwitchedSubscription then
    let st1 := updateEnvInfoSubscription st targetSubscriptionInfo in
    let st2 := clearEnvInfoStateResource st1 in
    (st2, ok (mkCheckResult true))
  else
    let st1 := updateEnvInfoSubscription st targetSubscriptionInfo in
    (st1, ok (mkCheckResult false)).

Section WithCollaborators.
(** [EnvConfigFileNameTemplate.replace(EnvNamePlaceholder, envName)] *)
Variable envConfigFileName : string -> string.
Variable azureAccountProvider : AzureAccountProvider.
(** [resourceGroupHelper], from utils/ResourceGroupHelper. *)
Variable getResourceGroupInfo :
  string -> ResourceManagementClient -> Result (option ResourceGroupInfo).
Variable checkResourceGroupExistence :
  string -> ResourceManagementClient -> Result bool.
Variable askResourceGroupInfo :
  Inputs -> ResourceManagementClient -> string -> Result ResourceGroupInfo.
(** [`${snakeCase(convertToAlphanumericOnly(appName))}`] *)
Variable snakeCaseAppName : string.
(** The value [uuidv4()] returns in this run. *)
Variable uuidv4 : string.

Definition findSubscription (subscriptions : list SubscriptionInfo)
    (id : option string) : option SubscriptionInfo :=
  List.find (fun item => bool_decide (Some (subscriptionId item) = id)) subscriptions.

Definition checkProvisionSubscriptionWhenSwitchAccountEnabled (envInfo : EnvInfoV3)
    : ResourceStates * Result ProvisionSubscriptionCheckResult :=
  let st := state envInfo in
  let subscriptionIdInConfig := azure envInfo ≫= cfgSubscriptionId in
  let subscriptionNameInConfig :=
    orElse (azure envInfo ≫= cfgSubscriptionName) subscriptionIdInConfig in
  let subscriptionIdInState := Solution.str st "subscriptionId" in
  let subscriptionNameInState :=
    orElse (Solution.str st "subscriptionName") subscriptionIdInState in
  let subscriptionInAccount := getSelectedSubscription azureAccountProvider in
  if negb (truthyOpt subscriptionIdInState) && negb (truthyOpt subscriptionIdInConfig) then
    match subscriptionInAccount with
    | None => (st, err (UserError "core" "SubscriptionNotFound" "Failed to select subscription"))
    | Some sub => (updateEnvInfoSubscription st sub, ok (mkCheckResult false))
    end
  else
    let subscriptions := listSubscriptions azureAccountProvider in
    if truthyOpt subscriptionIdInConfig then
      match findSubscription subscriptions subscriptionIdInConfig with
      | None =>
          (st, err (UserError "core" "SubscriptionNotFound"
             ("The subscription '" ++ default "undefined" subscriptionIdInConfig
              ++ "'(" ++ default "undefined" subscriptionNameInConfig
              ++ ") for '" ++ envName envInfo
              ++ "' environment is not found in the current account, please use the right Azure account or check the '"
              ++ envConfigFileName (envName envInfo) ++ "' file.")))
      | Some targetConfigSubInfo =>
          compareWithStateSubscription st targetConfigSubInfo subscriptionIdInState
      end
    else
      let targetStateSubInfo := findSubscription subscriptions subscriptionIdInState in
      match subscriptionInAccount with
      | None =>
          match targetStateSubInfo with
          | Some sub => (updateEnvInfoSubscription st sub, ok (mkCheckResult false))
          | None =>
              (st, err (UserError "core" "SubscriptionNotFound"
                 ("The subscription '" ++ default "undefined" subscriptionIdInState
                  ++ "'(" ++ default "undefined" subscriptionNameInState
                  ++ ") for '" ++ envName envInfo
                  ++ "' environment is not found in the current account, please use the right Azure account.")))
          end
      | Some sub => compareWithStateSubscription st sub subscriptionIdInState
      end.

Record FillInAzureConfigsResult : Type := mkFillResult {
  fillHasSwitchedSubscription : bool;
}.

(** Lines 261-349 of fillInAzureConfigs: the resource group and the
    [CustomizeResourceGroupType] telemetry property it is reported
    under. *)
Definition resolveResourceGroup (inputs : Inputs) (envInfo : EnvInfoV3)
    (st : ResourceStates) (rmClient : ResourceManagementClient)
    : Result (ResourceGroupInfo * option CustomizeResourceGroupType) :=
  let resourceGroupNameFromEnvConfig := azure envInfo ≫= cfgResourceGroupName in
  let resourceGroupNameFromState := Solution.str st "resourceGroupName" in
  let resourceGroupLocationFromState := Solution.str st "location" in
  let defaultResourceGroupName := snakeCaseAppName ++ "-" ++ envName envInfo ++ "-rg" in
  if truthyOpt (targetResourceGroupName inputs) then
    let target := default "" (targetResourceGroupName inputs) in
    match getResourceGroupInfo target rmClient with
    | err e =>
        match platform inputs, truthyOpt (targetResourceLocationName inputs) with
        | VS, true =>
            ok (mkResourceGroupInfo true target
                  (default "" (targetResourceLocationName inputs)), None)
        | _, _ => err e
        end
    | ok None =>
        err (UserError "core" "ResourceGroupNotFound"
               ("Resource group '" ++ target
                ++ "' does not exist, please specify an existing resource group."))
    | ok (Some info) => ok (info, Some CommandLine)
    end
  else if truthyOpt resourceGroupNameFromEnvConfig then
    let resourceGroupName := default "" resourceGroupNameFromEnvConfig in
    match getResourceGroupInfo resourceGroupName rmClient with
    | err e => err e
    | ok None =>
        let envFile := envConfigFileName (inputsEnvName inputs) in
        err (UserError "core" "ResourceGroupNotFound"
               ("Resource group '" ++ resourceGroupName
                ++ "' does not exist, please check your '" ++ envFile ++ "' file."))
    | ok (Some info) => ok (info, Some EnvConfig)
    end
  else if truthyOpt resourceGroupNameFromState && truthyOpt resourceGroupLocationFromState then
    let rgName := default "" resourceGroupNameFromState in
    match checkResourceGroupExistence rgName rmClient with
    | err e => err e
    | ok exists_ =>
        ok (mkResourceGroupInfo (negb exists_) rgName
              (default "" resourceGroupLocationFromState), Some EnvState)
    end
  else
    match askResourceGroupInfo inputs rmClient defaultResourceGroupName with
    | err e => err e
    | ok info =>
        ok (info,
            Some (if createNewResourceGroup info then
                    if bool_decide (name info = defaultResourceGroupName)
                    then InteractiveCreateDefault
                    else InteractiveCreateCustomized
                  else InteractiveUseExisting))
    end.

Definition fillInAzureConfigs (inputs : Inputs) (envInfo : EnvInfoV3)
    : ResourceStates * list Event * Result FillInAzureConfigsResult :=
  let '(st1, subscriptionResult) :=
    checkProvisionSubscriptionWhenSwitchAccountEnabled envInfo in
  match subscriptionResult with
  | err e => (st1, [CheckSubscriptionStart], err e)
  | ok sub =>
      let ev1 := [CheckSubscriptionStart; CheckSubscription (hasSwitchedSubscription sub)] in
      match getAccountCredentialAsync azureAccountProvider with
      | None =>
          (st1, ev1, err (UserError "core" "NotLoginToAzure"
                            "Login to Azure using the Azure Account extension"))
      | Some azureToken =>
          let ev2 := (ev1 ++ [CheckResourceGroupStart])%list in
          let rmClient := mkRmClient azureToken (Solution.str st1 "subscriptionId") in
          match resolveResourceGroup inputs envInfo st1 rmClient with
          | err e => (st1, ev2, err e)
          | ok (resourceGroupInfo, telemetryType) =>
              let ev3 := (ev2 ++ [CheckResourceGroup telemetryType])%list in
              let st2 := Solution.set "needCreateResourceGroup"
                           (JBool (createNewResourceGroup resourceGroupInfo)) st1 in
              let st3 := Solution.set "resourceGroupName" (JStr (name resourceGroupInfo)) st2 in
              let st4 := Solution.set "location" (JStr (location resourceGroupInfo)) st3 in
              let resourceNameSuffix :=
                default (String.substring 0 6 uuidv4)
                  (orElse (azure envInfo ≫= cfgResourceNameSuffix)
                     (orElse (Solution.str st4 "resourceNameSuffix") None)) in
              let st5 := Solution.set "resourceNameSuffix" (JStr resourceNameSuffix) st4 in
              (st5, ev3, ok (mkFillResult (hasSwitchedSubscription sub)))
          end
      end
  end.
End WithCollaborators.

End ProvisionUtils.


(** ** component/migrate.ts: project settings *)

Module ProjectSettingsMigration.
Local Open Scope list_scope.

(** [solutionSettings] of the legacy shape ([AzureSolutionSettings]). *)
Record AzureSolutionSettings : Type := mkSolutionSettings {
  solutionName : string;
  version : option string;
  hostType : string;
  azureResources : list string;
  capabilities : list string;
  activeResourcePlugins : list string;
}.

(** An entry of [pluginSettings]: the two fields migrate.ts reads and
    writes, and whatever else the entry holds. *)
Record PluginSetting : Type := mkPluginSetting {
  host_type : option string;
  pluginCapabilities : option (list string);
  otherSettings : gmap string Json;
}.

(** A node of the component graph. *)
Record Component : Type := mkComponent {
  componentName : string;
  hosting : option string;
  provision : option bool;
  build : option bool;
  folder : option string;
  artifactFolder : option string;
  sso : option bool;
  componentCapabilities : option (list string);
  connections : option (list string);
  scenario : option string;
  functionNames : option (list string);
}.

(** [{ name: n }] *)
Definition component (n : string) : Component :=
  mkComponent n None None None None None None None None None None.

(** [ProjectSettings], in either shape: [ProjectSettingsV3] is the same
    object with [components]. *)
Record ProjectSettings : Type := mkProjectSettings {
  appName : string;
  projectId : string;
  programmingLanguage : option string;
  defaultFunctionName : option string;
  solutionSettings : option AzureSolutionSettings;
  pluginSettings : option (gmap string PluginSetting);
  components : option (list Component);
}.

Definition withComponents (s : ProjectSettings) (cs : list Component) : ProjectSettings :=
  mkProjectSettings (appName s) (projectId s) (programmingLanguage s)
    (defaultFunctionName s) (solutionSettings s) (pluginSettings s) (Some cs).

(** [xs.includes(x)] *)
Definition includes (xs : list string) (x : string) : bool := bool_decide (x ∈ xs).

(** [xs?.includes(x)], [undefined] read as a condition. *)
Definition includesOpt (xs : option (list string)) (x : string) : bool :=
  match xs with
  | Some l => includes l x
  | None => false
  end.

(** Modelled from the spec: [getComponent] of component/workflow.ts,
    which is not among the sources: the component of the graph that
    bears the name, the first one when several do. *)
Definition getComponent (cs : option (list Component)) (resourceType : string)
    : option Component :=
  cs ≫= List.find (fun c => bool_decide (componentName c = resourceType)).

(** [c.connections = c.connections || []; c.connections.push(child)] *)
Definition pushConnection (child : string) (c : Component) : Component :=
  mkComponent (componentName c) (hosting c) (provision c) (build c) (folder c)
    (artifactFolder c) (sso c) (componentCapabilities c)
    (Some (default [] (connections c) ++ [child])%list)
    (scenario c) (functionNames c).

(** The same update made in place on the component [getComponent] finds. *)
Fixpoint pushConnectionAt (resourceType child : string) (cs : list Component)
    : list Component :=
  match cs with
  | [] => []
  | c :: rest =>
      if bool_decide (componentName c = resourceType)
      then pushConnection child c :: rest
      else c :: pushConnectionAt resourceType child rest
  end.

(** [const hostingConfig = getComponent(settingsV3, hostingComponent);
     if (hostingConfig) { ... push(child) } else { components.push(fresh) }] *)
Definition connectHosting (hostingComponent child : string) (fresh : Component)
    (cs : list Component) : list Component :=
  match getComponent (Some cs) hostingComponent with
  | Some _ => pushConnectionAt hostingComponent child cs
  | None => (cs ++ [fresh])%list
  end.

Section WithHelpers.
(** [isVSProject] of common/projectSettingsHelper. *)
Variable isVSProject : ProjectSettings -> bool.
(** [hasAzureResourceV3] of common/projectSettingsHelperV3. *)
Variable hasAzureResourceV3 : ProjectSettings -> bool.
(** [MessageExtensionNewUIItem.id] of the solution's questions. *)
Variable MessageExtensionNewUIItem_id : string.
(** [ensureComponentConnections] of component/utils: the components
    it leaves in the settings it is given. *)
Variable ensureComponentConnections : ProjectSettings -> list Component.

Definition vsArtifactFolder : string := "bin\Release\net6.0\win-x86\publish".

(** Lines 171-318: the components pushed for the active plugins. *)
Definition buildComponents (settingsV2 : ProjectSettings)
    (solutionSettings : AzureSolutionSettings) : list Component :=
  let plugins := activeResourcePlugins solutionSettings in
  let isVS := isVSProject settingsV2 in
  let cs := [] in
  let cs :=
    if includes plugins "fx-resource-aad-app-for-teams"
    then cs ++ [mkComponent ComponentNames.AadApp None (Some true)
                  None None None None None None None None]
    else cs in
  let cs :=
    if includes plugins "fx-resource-frontend-hosting" then
      let hostingComponent :=
        if isVS then ComponentNames.AzureWebApp else ComponentNames.AzureStorage in
      let teamsTab :=
        if isVS then
          mkComponent "teams-tab" (Some hostingComponent) (Some false) (Some true)
            (Some "") (Some vsArtifactFolder)
            (Some (includes (capabilities solutionSettings) "TabSSO"))
            None None None None
        else
          mkComponent "teams-tab" (Some hostingComponent) (Some true) (Some true)
            (Some "tabs") None
            (Some (includes (capabilities solutionSettings) "TabSSO"))
            None None None None in
      connectHosting hostingComponent "teams-tab"
        (mkComponent hostingComponent None (Some true) None None None None None
           (Some ["teams-tab"]) None None)
        (cs ++ [teamsTab])
    else cs in
  let cs :=
    if includes plugins "fx-resource-spfx" then
      cs ++ [mkComponent "teams-tab" (Some "spfx") (Some true) (Some true)
               (Some "SPFx") None None None None None None;
             mkComponent "spfx" None (Some true) None None None None None None None None]
    else cs in
  let cs :=
    if includes plugins "fx-resource-bot" then
      let botSetting := pluginSettings settingsV2 ≫= (.!! "fx-resource-bot") in
      let hostType := botSetting ≫= host_type in
      let botCapabilities := botSetting ≫= pluginCapabilities in
      let botCapabilities :=
        if includes (capabilities solutionSettings) MessageExtensionNewUIItem_id
           && negb (includesOpt botCapabilities "message-extension")
        then Some (default [] botCapabilities ++ ["message-extension"])
        else botCapabilities in
      let isHostingFunction := bool_decide (hostType = Some "azure-functions") in
      let hostingComponent :=
        if isHostingFunction then ComponentNames.Function
        else ComponentNames.AzureWebApp in
      let teamsBot :=
        if isVS then
          mkComponent "teams-bot" (Some hostingComponent) None (Some true)
            (Some "") (Some vsArtifactFolder)
            (Some (includes (capabilities solutionSettings) "BotSSO"))
            botCapabilities None None None
        else
          mkComponent "teams-bot" (Some hostingComponent) (Some true) (Some true)
            (Some "bot") None
            (Some (includes (capabilities solutionSettings) "BotSSO"))
            botCapabilities None None None in
      connectHosting hostingComponent "teams-bot"
        (mkComponent hostingComponent None (Some true) None None None None None
           (Some ["teams-bot"]) (Some "Bot") None)
        (cs ++ [teamsBot])
      ++ [mkComponent ComponentNames.BotService None (Some true)
            None None None None None None None None]
    else cs in
  let cs :=
    if includes plugins "fx-resource-identity"
    then cs ++ [component ComponentNames.Identity] else cs in
  let cs :=
    if includes plugins "fx-resource-key-vault"
    then cs ++ [component ComponentNames.KeyVault] else cs in
  let cs :=
    if includes plugins "fx-resource-azure-sql"
    then cs ++ [mkComponent ComponentNames.AzureSQL None (Some true)
                  None None None None None None None None]
    else cs in
  let cs :=
    if includes plugins "fx-resource-apim"
    then cs ++ [mkComponent ComponentNames.APIM None (Some true)
                  None None None None None None None None]
    else cs in
  let cs :=
    if includes plugins "fx-resource-function" then
      cs ++ [mkComponent ComponentNames.TeamsApi (Some ComponentNames.Function)
               None (Some true) (Some "api") None None None None None
               (Some [default "getUserProfile"
                        (orElse (defaultFunctionName settingsV2) None)]);
             mkComponent ComponentNames.Function None None None None None None None
               None (Some "Api") None]
    else cs in
  cs.

(** [botCapabilities.push("message-extension")] at line 238 pushes onto
    the array of the caller's own [pluginSettings] when there is one
    (and onto a fresh array otherwise). *)
Definition pushesOntoArgument (settingsV2 : ProjectSettings)
    (solutionSettings : AzureSolutionSettings) : bool :=
  let botCapabilities :=
    (pluginSettings settingsV2 ≫= (.!! "fx-resource-bot")) ≫= pluginCapabilities in
  includes (activeResourcePlugins solutionSettings) "fx-resource-bot"
  && includes (capabilities solutionSettings) MessageExtensionNewUIItem_id
  && negb (includesOpt botCapabilities "message-extension")
  && isSome botCapabilities.

(** [settingsV2] as the call leaves it. *)
Definition argumentAfterUpgrade (settingsV2 : ProjectSettings) : ProjectSettings :=
  match solutionSettings settingsV2 with
  | Some solutionSettings =>
      match components settingsV2 with
      | Some (_ :: _) => settingsV2
      | _ =>
          if pushesOntoArgument settingsV2 solutionSettings then
            mkProjectSettings (appName settingsV2) (projectId settingsV2)
              (programmingLanguage settingsV2) (defaultFunctionName settingsV2)
              (Some solutionSettings)
              (alter (fun bot =>
                        mkPluginSetting (host_type bot)
                          (Some (default [] (pluginCapabilities bot)
                                 ++ ["message-extension"]))
                          (otherSettings bot))
                 "fx-resource-bot" <$> pluginSettings settingsV2)
              (components settingsV2)
          else settingsV2
      end
  | None => settingsV2
  end.

(** The settings the call returns. [settingsV3] is a deep clone made
    before anything else: what the call pushes onto the caller's array
    ([argumentAfterUpgrade]) shows in the capabilities of the
    "teams-bot" component, which is that array, and not in the
    [pluginSettings] of the result. *)
Definition convertProjectSettingsV2ToV3 (settingsV2 : ProjectSettings)
    : ProjectSettings :=
  let settingsV3 := settingsV2 in
  match solutionSettings settingsV2 with
  | Some solutionSettings =>
      match components settingsV3 with
      | Some (_ :: _) => settingsV3
      | _ =>
          let pushed := withComponents settingsV3
                          (buildComponents settingsV2 solutionSettings) in
          withComponents pushed (ensureComponentConnections pushed)
      end
  | None => settingsV3
  end.

(** [xs.push(x)] when [b]. *)
Definition pushIf (b : bool) (x : string) (xs : list string) : list string :=
  if b then xs ++ [x] else xs.

Definition convertProjectSettingsV3ToV2 (settingsV3 : ProjectSettings)
    : ProjectSettings :=
  let settingsV2 := settingsV3 in
  match components settingsV3 with
  | Some (_ :: _) =>
      let get := getComponent (components settingsV3) in
      let hostType := if hasAzureResourceV3 settingsV3 then "Azure" else "SPFx" in
      let plugins :=
        ["fx-resource-local-debug"; "fx-resource-appstudio"; "fx-resource-cicd"] in
      let caps : list string := [] in
      let resources : list string := [] in
      let plugins := pushIf (bool_decide (hostType = "Azure"))
                       "fx-resource-api-connector" plugins in
      let plugins := pushIf (isSome (get ComponentNames.AadApp))
                       "fx-resource-aad-app-for-teams" plugins in
      let '(caps, plugins) :=
        match get ComponentNames.TeamsTab with
        | Some teamsTab =>
            let caps := caps ++ ["Tab"] in
            let caps := pushIf (default false (sso teamsTab)) "TabSSO" caps in
            (caps,
             if bool_decide (hosting teamsTab = Some "spfx")
             then plugins ++ ["fx-resource-spfx"]
             else plugins ++ ["fx-resource-frontend-hosting"])
        | None => (caps, plugins)
        end in
      let '(caps, plugins, pluginSettingsV2) :=
        match get ComponentNames.TeamsBot with
        | Some teamsBot =>
            let botCapabilities := componentCapabilities teamsBot in
            let caps :=
              if includesOpt botCapabilities "bot"
                 || includesOpt botCapabilities "notification"
                 || includesOpt botCapabilities "command-response"
              then pushIf (default false (sso teamsBot)) "BotSSO" (caps ++ ["Bot"])
              else caps in
            let caps :=
              pushIf (includesOpt botCapabilities "message-extension"
                      && negb (includes caps MessageExtensionNewUIItem_id))
                MessageExtensionNewUIItem_id caps in
            let hostType :=
              if bool_decide (hosting teamsBot = Some ComponentNames.AzureWebApp)
              then "app-service" else "azure-function" in
            (caps, plugins ++ ["fx-resource-bot"],
             Some ({[ "fx-resource-bot" :=
                        mkPluginSetting (Some hostType) botCapabilities ∅ ]}
                   : gmap string PluginSetting))
        | None => (caps, plugins, pluginSettings settingsV2)
        end in
      let plugins := pushIf (isSome (get ComponentNames.Identity))
                       "fx-resource-identity" plugins in
      let hasKeyVault := isSome (get ComponentNames.KeyVault) in
      let plugins := pushIf hasKeyVault "fx-resource-key-vault" plugins in
      let resources := pushIf hasKeyVault "keyvault" resources in
      let hasSql := isSome (get ComponentNames.AzureSQL) in
      let plugins := pushIf hasSql "fx-resource-azure-sql" plugins in
      let resources := pushIf hasSql "sql" resources in
      let hasApim := isSome (get ComponentNames.APIM) in
      let plugins := pushIf hasApim "fx-resource-apim" plugins in
      let resources := pushIf hasApim "apim" resources in
      let '(plugins, resources, defaultFunctionNameV2) :=
        match get ComponentNames.TeamsApi with
        | Some teamsApi =>
            (plugins ++ ["fx-resource-function"], resources ++ ["function"],
             Some (match functionNames teamsApi with
                   | Some (f :: _) => f
                   | _ => "getUserProfile"
                   end))
        | None => (plugins, resources, defaultFunctionName settingsV2)
        end in
      mkProjectSettings (appName settingsV2) (projectId settingsV2)
        (programmingLanguage settingsV2) defaultFunctionNameV2
        (Some (mkSolutionSettings "fx-solution-azure" (Some "1.0.0") hostType
                 resources caps plugins))
        pluginSettingsV2 (components settingsV2)
  | _ => settingsV2
  end.
End WithHelpers.

End ProjectSettingsMigration.


(** ** getM365TenantId (component/provision.ts) *)

Record M365TokenProvider : Type := mkM365TokenProvider {
  getAccessToken : Result string;
  getJsonObject : Result (gmap string Json);
}.

Record M365TenantRes : Type := mkM365TenantRes {
  tenantIdInToken : string;
  tenantUserName : option string;
}.

Module Localize.
Section WithStrings.
(** [getDefaultString] and [getLocalizedString] of common/localizeUtils. *)
Variable getDefaultString : string -> string.
Variable getLocalizedString : string -> list string -> string.

Definition getM365TenantId (m365TokenProvider : M365TokenProvider)
    : Result M365TenantRes :=
  match getAccessToken m365TokenProvider with
  | err e => err e
  | ok _ =>
      match getJsonObject m365TokenProvider with
      | err _ =>
          err (mkFxError SystemErrorKind "core" "NoAppStudioToken"
                 (getDefaultString "error.NoAppStudioToken"))
      | ok appStudioTokenJson =>
          match appStudioTokenJson !! "tid" with
          | Some (JStr tid) =>
              if truthy tid
              then ok (mkM365TenantRes tid (asString (appStudioTokenJson !! "upn")))
              else err (mkFxError SystemErrorKind "core" "NoTeamsAppTenantId"
                          (getDefaultString "error.NoTeamsAppTenantId"))
          | _ =>
              err (mkFxError SystemErrorKind "core" "NoTeamsAppTenantId"
                     (getDefaultString "error.NoTeamsAppTenantId"))
          end
      end
  end.
End WithStrings.
End Localize.

(** ** plugins/solution/fx-solution/v2/provision.ts *)

Module Provision.
Import ProvisionUtils.

(** How a call ends: with a value, with an exception nobody catches, or
    not at all as long as the operator leaves the dialog unanswered. *)
Inductive Outcome (A : Type) : Type :=
| Done (a : A)
| Throws (what : string)
| Waits.
Arguments Done {A} a.
Arguments Throws {A} what.
Arguments Waits {A}.

(** What a run works on: the state of the environment, what it did to
    the outside so far, and the answers the operator will give to the
    dialogs, in order ([None]: the dialog was dismissed or failed). *)
Record World : Type := mkWorld {
  wState : ResourceStates;
  wEvents : list Event;
  wResponses : list (option string);
}.

Definition M (A : Type) : Type := World -> Outcome A * World.

Definition ret {A : Type} (a : A) : M A := fun w => (Done a, w).

Definition bind {A B : Type} (m : M A) (k : A -> M B) : M B :=
  fun w =>
    match m w with
    | (Done a, w') => k a w'
    | (Throws what, w') => (Throws what, w')
    | (Waits, w') => (Waits, w')
    end.

Notation "'do' x <- m ; k" := (bind m (fun x => k))
  (at level 10, x name, m at level 100, k at level 200).
Notation "m >> k" := (bind m (fun _ => k))
  (at level 100, k at level 200, right associativity).

(** [const x = await m; if (x.isErr()) return err(x.error); k(x.value)] *)
Definition bindOk {A B : Type} (m : M (Result A)) (k : A -> M (Result B))
    : M (Result B) :=
  do r <- m;
  match r with
  | ok a => k a
  | err e => ret (err e)
  end.

Notation "'try' x <- m ; k" := (bindOk m (fun x => k))
  (at level 10, x name, m at level 100, k at level 200).

Definition emit (e : Event) : M unit :=
  fun w => (Done tt, mkWorld (wState w) (wEvents w ++ [e]) (wResponses w)).

Definition getState : M ResourceStates := fun w => (Done (wState w), w).

Definition modifyState (f : ResourceStates -> ResourceStates) : M unit :=
  fun w => (Done tt, mkWorld (f (wState w)) (wEvents w) (wResponses w)).

Definition throw {A : Type} (what : string) : M A := fun w => (Throws what, w).

Definition when (b : bool) (m : M unit) : M unit := if b then m else ret tt.

(** [if (!envInfo.state[key]) envInfo.state[key] = {}] *)
Definition ensureEntry (key : string) (st : ResourceStates) : ResourceStates :=
  match st !! key with
  | Some _ => st
  | None => <[key := ∅]> st
  end.

(** [envInfo.state[key].f = v] *)
Definition setField (key f : string) (v : Json) (st : ResourceStates) : ResourceStates :=
  <[key := <[f := v]> (default ∅ (st !! key))]> st.

Definition newline : string := String (Ascii.ascii_of_nat 10) EmptyString.

(** [parts.join("\n")] *)
Fixpoint joinLines (parts : list string) : string :=
  match parts with
  | [] => ""
  | [p] => p
  | p :: rest => p ++ newline ++ joinLines rest
  end.

Definition provisionDocUrl : string :=
  "https://docs.microsoft.com/en-us/microsoftteams/platform/toolkit/provision".

(** A plugin of the solution, with the lifecycle phases it implements;
    a phase works on the state of the environment and returns a result. *)
Record ResourcePlugin : Type := mkPlugin {
  pluginName : string;
  provisionResource : option (ResourceStates -> ResourceStates * Result unit);
  configureResource : option (ResourceStates -> ResourceStates * Result unit);
  executeUserTask : option (ResourceStates -> ResourceStates * Result unit);
}.

(** [ctx]: the project settings as the helpers of
    common/projectSettingsHelper and ./utils read them. *)
Record Context : Type := mkContext {
  projectAppName : string;
  isAzureProject : bool;
  hasAzureResource : bool;
  hasAAD : bool;
  isExistingTabApp : bool;
  getSelectedPlugins : list ResourcePlugin;
}.

(** The three kinds of result of ./executor. *)
Inductive ExecutionResult : Type :=
| success
| partialSuccess (error : FxError)
| failure (error : FxError).

(** Modelled from the spec: [executeConcurrently] of ./executor, which is
    not among the sources. Every thunk runs (none is cancelled when a
    sibling fails) and all results are collected; the aggregate is
    "failure" when every thunk failed, "partialSuccess" for a mix and
    "success" otherwise, and it carries the first failure met. Thunks
    are taken in the order of the list: plugins own disjoint entries of
    the state, which is what the spec lets them share. *)
Fixpoint runThunks (phase : string -> Event)
    (thunks : list (string * (ResourceStates -> ResourceStates * Result unit)))
    : M (list (Result unit)) :=
  match thunks with
  | [] => ret []
  | (name, thunk) :: rest =>
      emit (phase name) >>
      do st <- getState;
      let '(st', r) := thunk st in
      modifyState (fun _ => st') >>
      do rs <- runThunks phase rest;
      ret (r :: rs)
  end.

Definition firstError (results : list (Result unit)) : option FxError :=
  List.find (fun r => isErr r) results ≫= fun r =>
    match r with err e => Some e | ok _ => None end.

Definition aggregate (results : list (Result unit)) : ExecutionResult :=
  match firstError results with
  | None => success
  | Some e => if forallb isErr results then failure e else partialSuccess e
  end.

Definition executeConcurrently (phase : string -> Event)
    (thunks : list (string * (ResourceStates -> ResourceStates * Result unit)))
    : M ExecutionResult :=
  do results <- runThunks phase thunks;
  ret (aggregate results).

Section WithCollaborators.
Variable getDefaultString : string -> string.
Variable getLocalizedString : string -> list string -> string.
(** [SolutionSource], [SolutionError.InternelError],
    [SolutionError.TeamsAppTenantIdNotRight] and [ARM_TEMPLATE_OUTPUT]
    of ../constants. *)
Variable SolutionSource : string.
Variable InternelError : string.
Variable TeamsAppTenantIdNotRight : string.
Variable ARM_TEMPLATE_OUTPUT : string.
(** [doesAllowSwitchAccount()] of core. *)
Variable doesAllowSwitchAccount : bool.
Variable m365TokenProvider : M365TokenProvider.
Variable ctx : Context.
(** [Container.get(ResourcePluginsV2.AppStudioPlugin)] and [.AadPlugin] *)
Variable appStudioPlugin : ResourcePlugin.
Variable aadPlugin : ResourcePlugin.
Variable ensurePermissionRequest : Result unit.
(** [resetEnvInfoWhenSwitchM365] of component/utils. *)
Variable resetEnvInfoWhenSwitchM365 : ResourceStates -> ResourceStates.
(** [resourceGroupHelper.createNewResourceGroup] on the group the
    state names. *)
Variable createNewResourceGroup : ResourceStates -> Result unit.
(** [handleConfigFilesWhenSwitchAccount] of ../utils/util, with the
    three flags it is given. *)
Variable handleConfigFilesWhenSwitchAccount :
  ResourceStates -> bool -> bool -> bool -> Result unit.
Variable hasBotServiceCreated : ResourceStates -> bool.
(** [deployArmTemplates] of ../arm: on success, the state the context
    adaptor hands back ([contextAdaptor.getEnvStateJson()]). *)
Variable deployArmTemplates : ResourceStates -> Result ResourceStates.
(** [getResourceGroupInPortal] of common/tools, on the subscription,
    tenant and resource group of [extractSolutionInputs(state.solution)]. *)
Variable getResourceGroupInPortal : ResourceStates -> option string.
(** The collaborators of fillInAzureConfigs. *)
Variable envConfigFileName : string -> string.
Variable azureAccountProvider : AzureAccountProvider.
Variable getResourceGroupInfo :
  string -> ResourceManagementClient -> Result (option ResourceGroupInfo).
Variable checkResourceGroupExistence :
  string -> ResourceManagementClient -> Result bool.
Variable askResourceGroupInfo :
  Inputs -> ResourceManagementClient -> string -> Result ResourceGroupInfo.
Variable snakeCaseAppName : string.
Variable uuidv4 : string.

Definition provisionText : string := getLocalizedString "core.provision.provision" [].
Definition learnMoreText : string := getLocalizedString "core.provision.learnMore" [].

(** The [do ... while (confirm === learnMoreText)] loop of
    askForProvisionConsentNew, one turn per answer of the operator. *)
Fixpoint confirmLoop (message : string) (items : list string)
    (telemetry : bool) (responses : list (option string)) (events : list Event)
    : Outcome (Result unit) * list Event * list (option string) :=
  match responses with
  | [] => (Waits, events, [])
  | confirm :: rest =>
      let confirmRes :=
        if negb (truthyOpt confirm) then "Error"
        else if bool_decide (confirm = Some learnMoreText) then "Learn more"
        else if bool_decide (confirm = Some provisionText) then "Provision"
        else "" in
      let events :=
        (events ++ [ShowMessage "warn" message true items;
                    ConfirmProvision (if telemetry then Some confirmRes else None)])%list in
      if negb (bool_decide (confirm = Some provisionText)) then
        if bool_decide (confirm = Some learnMoreText) then
          confirmLoop message items telemetry rest (events ++ [OpenUrl provisionDocUrl])%list
        else
          (Done (err (UserError SolutionSource "CancelProvision" "CancelProvision")),
           events, rest)
      else if bool_decide (confirm = Some learnMoreText) then
        confirmLoop message items telemetry rest events
      else (Done (ok tt), events, rest)
  end.

(** Lines 458-476: the notice about the accounts that changed. *)
Definition switchedNotice (st : ResourceStates)
    (hasSwitchedM365Tenant hasSwitchedSubscription : bool) : string :=
  if hasSwitchedM365Tenant && hasSwitchedSubscription then
    getLocalizedString "core.provision.switchedM365AccountAndAzureSubscriptionNotice" []
  else if hasSwitchedM365Tenant && negb hasSwitchedSubscription then
    getLocalizedString "core.provision.switchedM365AccountNotice" []
  else if negb hasSwitchedM365Tenant && hasSwitchedSubscription then
    let botResource :=
      match st !! V1PluginNames.bot with
      | Some r => Some r
      | None => st !! ComponentNames.TeamsBot
      end in
    let newBotNotice :=
      match botResource ≫= (.!! "resourceId") with
      | Some j =>
          if truthyJson j
          then getLocalizedString "core.provision.createNewAzureBotNotice" []
          else ""
      | None => ""
      end in
    getLocalizedString "core.provision.switchedAzureSubscriptionNotice" [] ++ newBotNotice
  else "".

Definition askForProvisionConsentNew (envInfoName : string)
    (hasSwitchedM365Tenant hasSwitchedSubscription : bool)
    (m365AccountName : option string) (hasAzureResource : bool)
    : M (Result unit) :=
  match getAccountCredentialAsync azureAccountProvider with
  | None => throw "TypeError: Cannot read properties of undefined (reading 'username')"
  | Some azureToken =>
      do st <- getState;
      let username := default "" (orElse (username azureToken) None) in
      let subscriptionId := default "" (orElse (Solution.str st "subscriptionId") None) in
      let subscriptionName :=
        default "" (orElse (Solution.str st "subscriptionName") None) in
      let m365TenantId :=
        default "" (orElse (Solution.str st "teamsAppTenantId") None) in
      let notice := switchedNotice st hasSwitchedM365Tenant hasSwitchedSubscription in
      let azureAccountInfo := getLocalizedString "core.provision.azureAccount" [username] in
      let azureSubscriptionInfo :=
        getLocalizedString "core.provision.azureSubscription"
          [if truthy subscriptionName then subscriptionName else subscriptionId] in
      let m365AccountInfo :=
        getLocalizedString "core.provision.m365Account"
          [if truthyOpt m365AccountName then default "" m365AccountName
           else m365TenantId] in
      if negb (truthy notice) && negb hasAzureResource then ret (ok tt)
      else
        let accountsInfo :=
          if negb (truthy notice) && hasAzureResource then
            joinLines [azureAccountInfo; azureSubscriptionInfo; m365AccountInfo]
          else if hasAzureResource then
            joinLines [notice; azureAccountInfo; azureSubscriptionInfo; m365AccountInfo]
          else joinLines [notice; m365AccountInfo] in
        let confirmMsg :=
          if hasAzureResource then
            getLocalizedString "core.provision.confirmEnvAndCostNotice" [envInfoName]
          else if hasSwitchedM365Tenant then
            getLocalizedString "core.provision.confirmEnvOnlyNotice" [envInfoName]
          else "" in
        let items :=
          if hasSwitchedM365Tenant || hasSwitchedSubscription
          then [provisionText; learnMoreText]
          else [provisionText] in
        fun w =>
          let '(o, events, responses) :=
            confirmLoop (accountsInfo ++ newline ++ newline ++ confirmMsg) items
              (truthy envInfoName) (wResponses w) (wEvents w) in
          (o, mkWorld (wState w) events responses)
  end.

(** fillInAzureConfigs, on the world of the run. *)
Definition runFillInAzureConfigs (inputs : Inputs) (envInfo : EnvInfoV3)
    : M (Result FillInAzureConfigsResult) :=
  fun w =>
    let '(st, events, r) :=
      fillInAzureConfigs envConfigFileName azureAccountProvider getResourceGroupInfo
        checkResourceGroupExistence askResourceGroupInfo snakeCaseAppName uuidv4
        inputs (withState envInfo (wState w)) in
    (Done r, mkWorld st (wEvents w ++ events)%list (wResponses w)).

Definition thunksOf (phase : ResourcePlugin -> option (ResourceStates -> ResourceStates * Result unit))
    (prepare : bool) (plugins : list ResourcePlugin)
    : list (string * (ResourceStates -> ResourceStates * Result unit)) :=
  omap (fun plugin =>
          match phase plugin with
          | Some run =>
              Some (pluginName plugin,
                    fun st => run (if prepare then ensureEntry (pluginName plugin) st
                                   else st))
          | None => None
          end) plugins.

(** Lines 276-438: the plugins' phases. *)
Definition runPhases (inputs : Inputs) : M (Result unit) :=
  let plugins := getSelectedPlugins ctx in
  let plugins :=
    if isExistingTabApp ctx
       && negb (existsb (fun p => bool_decide (pluginName p = pluginName appStudioPlugin))
                  plugins)
    then (plugins ++ [appStudioPlugin])%list
    else plugins in
  modifyState (Solution.set "provisionSucceeded" (JBool false)) >>
  emit (SetProvisionSucceeded false) >>
  do solutionInputs <- getState;
  do provisionResult <-
    executeConcurrently PluginProvision (thunksOf provisionResource true plugins);
  match provisionResult with
  | failure e | partialSuccess e => ret (err e)
  | success =>
      do st <- getState;
      match st !! V1PluginNames.appStudio with
      | None => throw "TypeError: Cannot read properties of undefined"
      | Some _ =>
          try _ <-
            (if isAzureProject ctx && negb (isForUT inputs) && hasAzureResource ctx then
               emit DeployArmTemplates >>
               do st <- getState;
               match deployArmTemplates st with
               | err e => ret (err e)
               | ok update => modifyState (fun st => update ∪ st) >> ret (ok tt)
               end
             else ret (ok tt));
          try _ <-
            (match executeUserTask aadPlugin with
             | Some task =>
                 if existsb (fun p => bool_decide (pluginName p = pluginName aadPlugin))
                      plugins
                 then
                   emit SetApplicationInContext >>
                   do st <- getState;
                   let '(st', r) := task st in
                   modifyState (fun _ => st') >> ret r
                 else ret (ok tt)
             | None => ret (ok tt)
             end);
          modifyState (fun st =>
            foldl (fun st p => ensureEntry (pluginName p) st) st
              (List.filter (fun p => isSome (configureResource p)) plugins)) >>
          do configureResourceResult <-
            executeConcurrently PluginConfigure (thunksOf configureResource false plugins);
          match configureResourceResult with
          | failure e | partialSuccess e => ret (err e)
          | success =>
              modifyState (fun st =>
                <[Solution.GLOBAL_CONFIG := delete ARM_TEMPLATE_OUTPUT (Solution.get st)]> st) >>
              let msg :=
                getLocalizedString "core.provision.successNotice" [projectAppName ctx] in
              emit (match (if isExistingTabApp ctx then None
                           else getResourceGroupInPortal solutionInputs) with
                    | Some url =>
                        match platform inputs with
                        | CLI =>
                            ShowMessage "info"
                              (msg ++ " View provisioned resources in Azure Portal: " ++ url)
                              false []
                        | _ => ShowMessage "info" msg false ["View Provisioned Resources"]
                        end
                    | None => ShowMessage "info" msg false []
                    end) >>
              modifyState (Solution.set "provisionSucceeded" (JBool true)) >>
              emit (SetProvisionSucceeded true) >>
              ret (ok tt)
          end
      end
  end.

(** Lines 124-274: the accounts the run works under, up to the consent
    of the operator. *)
Definition reconcileAccounts (inputs : Inputs) (envInfo : EnvInfoV3)
    : M (Result unit) :=
  match projectPath inputs with
  | None => ret (err (SystemError SolutionSource InternelError "projectPath is undefined"))
  | Some projectPath =>
      try _ <- ret (getAccessToken m365TokenProvider);
      do st0 <- getState;
      let hasBotServiceCreatedBefore := hasBotServiceCreated st0 in
      modifyState (ensureEntry V1PluginNames.appStudio) >>
      do st1 <- getState;
      let teamsAppResource := default ∅ (st1 !! V1PluginNames.appStudio) in
      modifyState (ensureEntry Solution.GLOBAL_CONFIG) >>
      let tenantIdInConfig := asString (teamsAppResource !! "tenantId") in
      try tenantIdInTokenRes <-
        ret (Localize.getM365TenantId getDefaultString m365TokenProvider);
      let tenantIdInToken := tenantIdInToken tenantIdInTokenRes in
      let isSwitchAccountEnabled := doesAllowSwitchAccount in
      let isSwitchingM365Tenant :=
        truthyOpt tenantIdInConfig && truthy tenantIdInToken
        && negb (bool_decide (Some tenantIdInToken = tenantIdInConfig)) in
      if isSwitchingM365Tenant && negb isSwitchAccountEnabled then
        ret (err (UserError "Solution" TeamsAppTenantIdNotRight
                    (getLocalizedString "error.M365AccountNotMatch" [envName envInfo])))
      else
        let hasSwitchedM365Tenant := isSwitchingM365Tenant && isSwitchAccountEnabled in
        when hasSwitchedM365Tenant (modifyState resetEnvInfoWhenSwitchM365) >>
        modifyState (ensureEntry V1PluginNames.appStudio) >>
        modifyState (setField V1PluginNames.appStudio "tenantId" (JStr tenantIdInToken)) >>
        modifyState (Solution.set "teamsAppTenantId" (JStr tenantIdInToken)) >>
        if isAzureProject ctx && hasAzureResource ctx then
          try _ <- ret (if hasAAD ctx then ensurePermissionRequest else ok tt);
          try solutionConfigRes <- runFillInAzureConfigs inputs envInfo;
          let switchedSubscription := fillHasSwitchedSubscription solutionConfigRes in
          try _ <-
            askForProvisionConsentNew (envName envInfo) hasSwitchedM365Tenant
              switchedSubscription (tenantUserName tenantIdInTokenRes) true;
          do st <- getState;
          try _ <-
            (match Solution.field st "needCreateResourceGroup" with
             | Some j =>
                 if truthyJson j then
                   emit (CreateNewResourceGroup
                           (default "" (Solution.str st "resourceGroupName"))) >>
                   ret (createNewResourceGroup st)
                 else ret (ok tt)
             | None => ret (ok tt)
             end);
          if switchedSubscription || hasSwitchedM365Tenant then
            emit HandleConfigFilesWhenSwitchAccount >>
            do st <- getState;
            ret (handleConfigFilesWhenSwitchAccount st hasSwitchedM365Tenant
                   switchedSubscription hasBotServiceCreatedBefore)
          else ret (ok tt)
        else if hasSwitchedM365Tenant then
          try _ <-
            askForProvisionConsentNew (envName envInfo) hasSwitchedM365Tenant false
              (tenantUserName tenantIdInTokenRes) false;
          emit HandleConfigFilesWhenSwitchAccount >>
          do st <- getState;
          ret (handleConfigFilesWhenSwitchAccount st hasSwitchedM365Tenant false false)
        else ret (ok tt)
  end.

Definition provisionResourceImpl (inputs : Inputs) (envInfo : EnvInfoV3)
    : M (Result unit) :=
  try _ <- reconcileAccounts inputs envInfo;
  runPhases inputs.
End WithCollaborators.

End Provision.


(** ** core/middleware/envInfoLoader.ts *)

Module EnvInfoLoader.

Section WithEnvironmentManager.
(** The project folder as [environmentManager] (core/environment) sees it. *)
Variable Project : Type.
Variable checkEnvExist : Project -> string -> string -> Result bool.
Variable createLocalEnv : Project -> string -> Project.
Variable getLocalEnvName : string.
(** [ProjectEnvNotExistError] of core/error. *)
Variable ProjectEnvNotExistError : string -> FxError.

Definition useUserSetEnv (project : Project) (projectPath env : string)
    : Project * Result string :=
  match checkEnvExist project projectPath env with
  | err e => (project, err e)
  | ok envExists =>
      if negb envExists then
        if bool_decide (env = getLocalEnvName) then
          let project := createLocalEnv project projectPath in
          match checkEnvExist project projectPath env with
          | err e => (project, err e)
          | ok envExists =>
              if negb envExists
              then (project, err (ProjectEnvNotExistError env))
              else (project, ok env)
          end
        else (project, err (ProjectEnvNotExistError env))
      else (project, ok env)
  end.
End WithEnvironmentManager.

End EnvInfoLoader.


(** * The vocabulary of the properties *)

Import EnvStateMigration ProjectSettingsMigration ProvisionUtils Provision EnvInfoLoader.

(** ** The purge on a switch of subscription *)

(** What the purge leaves of the entry stored under [key]. *)
Definition purgedEntry (key : string) (entry : option (gmap string Json))
    : option (gmap string Json) :=
  if bool_decide (key ∈ keysToClear) then None
  else if bool_decide (key ∈ keysToModify) then delete "serviceResourceId" <$> entry
  else entry.

(** The fields of [state.solution] that a switch of subscription rewrites:
    the three updateEnvInfoSubscription sets, the two
    clearEnvInfoStateResource blanks. *)
Definition rewrittenSolutionFields : list string :=
  ["subscriptionId"; "subscriptionName"; "tenantId";
   "resourceGroupName"; "resourceNameSuffix"].

(** ** The resource group and the suffix of a run *)

(** The run ended well, reported the resource group under [type] and
    stored [info] as the target resource group. *)
Definition resourceGroupChosen
    (out : ResourceStates * list Event * Result FillInAzureConfigsResult)
    (info : ResourceGroupInfo) (type : option CustomizeResourceGroupType) : Prop :=
  isOk out.2 = true /\
  CheckResourceGroup type ∈ out.1.2 /\
  Solution.field out.1.1 "resourceGroupName" = Some (JStr (name info)) /\
  Solution.field out.1.1 "location" = Some (JStr (location info)) /\
  Solution.field out.1.1 "needCreateResourceGroup"
    = Some (JBool (createNewResourceGroup info)).

(** The suffix a run that ends well stores: the one of the config file,
    else the one of the state unless the subscription switched, else the
    first six characters of a fresh UUID. *)
Definition expectedResourceNameSuffix (fromConfig fromState : option string)
    (switched : bool) (uuid : string) : string :=
  if truthyOpt fromConfig then default "" fromConfig
  else if negb switched && truthyOpt fromState then default "" fromState
  else String.substring 0 6 uuid.

(** ** Project settings *)

(** [isVSProject] does not look at the components of the settings. *)
Definition ignoresComponents (isVSProject : ProjectSettings -> bool) : Prop :=
  forall s cs, isVSProject (withComponents s cs) = isVSProject s.

(** ** The consent dialog *)

(** [ctx.userInteraction.openUrl(url)] was called. *)
Definition opensUrl (url : string) (e : Event) : bool :=
  match e with
  | OpenUrl u => bool_decide (u = url)
  | _ => false
  end.

Definition showsMessage (e : Event) : bool :=
  match e with
  | ShowMessage _ _ _ _ => true
  | _ => false
  end.

Definition countEvents (p : Event -> bool) (events : list Event) : nat :=
  length (List.filter p events).

Definition CancelProvision (SolutionSource : string) : FxError :=
  UserError SolutionSource "CancelProvision" "CancelProvision".

(** What the dialog returns on an answer that is not "Learn more". *)
Definition verdict (getLocalizedString : string -> list string -> string)
    (SolutionSource : string) (answer : option string) : Result unit :=
  if bool_decide (answer = Some (provisionText getLocalizedString))
  then ok tt
  else err (CancelProvision SolutionSource).

(** The names of the other errors the reconciliation builds by itself. *)
Definition otherErrorNames : list string :=
  ["SubscriptionNotFound"; "NotLoginToAzure"; "ResourceGroupNotFound";
   "UserCancel"; "NoAppStudioToken"; "NoTeamsAppTenantId"].

(** ** The flag [state.solution.provisionSucceeded] *)

Definition provisionSucceeded (st : ResourceStates) : option Json :=
  Solution.field st "provisionSucceeded".

(** A phase of a plugin that leaves the flag as it finds it. *)
Definition keepsFlag (run : ResourceStates -> ResourceStates * Result unit) : Prop :=
  forall st, provisionSucceeded (run st).1 = provisionSucceeded st.

Definition pluginKeepsFlag (p : ResourcePlugin) : Prop :=
  (forall run, provisionResource p = Some run -> keepsFlag run) /\
  (forall run, configureResource p = Some run -> keepsFlag run) /\
  (forall run, executeUserTask p = Some run -> keepsFlag run).

(** Merging what the template deployment hands back leaves the flag as it is. *)
Definition armKeepsFlag (deployArmTemplates : ResourceStates -> Result ResourceStates) : Prop :=
  forall st update,
    deployArmTemplates st = ok update ->
    provisionSucceeded (update ∪ st) = provisionSucceeded st.

(** Events that do not belong to the phases of the plugins. *)
Definition isPreludeEvent (e : Event) : bool :=
  match e with
  | PluginProvision _ | SetProvisionSucceeded _ => false
  | _ => true
  end.

Definition setsFlag (e : Event) : bool :=
  match e with
  | SetProvisionSucceeded _ => true
  | _ => false
  end.

Definition quietEvent (e : Event) : bool := negb (setsFlag e).

(** A computation that only adds events [accept] accepts, whatever its
    outcome. *)
Definition addsOnly {A : Type} (accept : Event -> bool) (m : M A) : Prop :=
  forall w, exists added,
    wEvents (m w).2 = (wEvents w ++ added)%list /\ forallb accept added = true.

(** A computation under which the flag stays false and is not assigned. *)
Definition steady {A : Type} (m : M A) : Prop :=
  forall w,
    provisionSucceeded (wState w) = Some (JBool false) ->
    provisionSucceeded (wState (m w).2) = Some (JBool false) /\
    exists added,
      wEvents (m w).2 = (wEvents w ++ added)%list /\ forallb quietEvent added = true.

(** A computation that, started with the flag false, either ends well,
    having raised the flag as its last act, or ends otherwise with the
    flag still false and never assigned. *)
Definition raisesFlagAtEnd (m : M (Result unit)) : Prop :=
  forall w,
    provisionSucceeded (wState w) = Some (JBool false) ->
    exists mid,
      forallb quietEvent mid = true /\
      (((m w).1 = Done (ok tt) /\
        wEvents (m w).2 = (wEvents w ++ mid ++ [SetProvisionSucceeded true])%list /\
        provisionSucceeded (wState (m w).2) = Some (JBool true))
       \/
       ((m w).1 ≠ Done (ok tt) /\
        wEvents (m w).2 = (wEvents w ++ mid)%list /\
        provisionSucceeded (wState (m w).2) = Some (JBool false))).

(** * Sample projects and environments *)

(** ** The environment "dev", provisioned once *)

Definition devState : ResourceStates :=
  {[ "solution" :=
       {[ "teamsAppTenantId" := JStr "T1";
          "subscriptionId" := JStr "S1";
          "subscriptionName" := JStr "first";
          "tenantId" := JStr "T1";
          "resourceGroupName" := JStr "app-dev-rg";
          "location" := JStr "East US";
          "resourceNameSuffix" := JStr "a1b2c3";
          "provisionSucceeded" := JBool true ]};
     "fx-resource-appstudio" := {[ "tenantId" := JStr "T1"; "teamsAppId" := JStr "app" ]};
     "fx-resource-bot" := {[ "botId" := JStr "bot"; "resourceId" := JStr "/bot" ]};
     "fx-resource-apim" :=
       {[ "serviceResourceId" := JStr "/apim"; "productResourceId" := JStr "/product" ]};
     "fx-resource-aad-app-for-teams" := {[ "clientId" := JStr "client" ]} ]}.

(** [devState] without the location of its resource group. *)
Definition devStateNoLocation : ResourceStates :=
  <["solution" := delete "location" (Solution.get devState)]> devState.

Definition firstSubscription : SubscriptionInfo :=
  mkSubscriptionInfo "first" "S1" "T1".

Definition secondSubscription : SubscriptionInfo :=
  mkSubscriptionInfo "second" "S2" "T1".

Definition configFileOf (envName : string) : string :=
  "config." ++ envName ++ ".json".

Definition signedInAccount (selected : SubscriptionInfo) : AzureAccountProvider :=
  mkAzureAccountProvider (Some selected)
    (Some (mkTokenCredential (Some "dev@contoso.com")))
    [firstSubscription; secondSubscription].

(** The resource groups that exist, with their locations. *)
Definition existingGroups : list (string * string) :=
  [("app-dev-rg", "East US"); ("shared-rg", "West US")].

Definition lookupGroup (rg : string) (_ : ResourceManagementClient)
    : Result (option ResourceGroupInfo) :=
  ok (mkResourceGroupInfo false rg <$> (list_to_map existingGroups : gmap string string) !! rg).

Definition groupExists (rg : string) (_ : ResourceManagementClient) : Result bool :=
  ok (bool_decide (rg ∈ existingGroups.*1)).

(** The operator picks the existing group "shared-rg" when asked. *)
Definition pickShared (_ : Inputs) (_ : ResourceManagementClient) (_ : string)
    : Result ResourceGroupInfo :=
  ok (mkResourceGroupInfo false "shared-rg" "West US").

Definition plainInputs : Inputs :=
  mkInputs VSCode (Some "./") (Some "dev") "dev" None None false.

Definition devEnv (st : ResourceStates) : EnvInfoV3 := mkEnvInfo "dev" None st.

Definition sampleUuid : string := "3f2504e0-4f89-41d3-9a0c-0305e82c3301".

Definition runFill (selected : SubscriptionInfo) (envInfo : EnvInfoV3) :=
  fillInAzureConfigs configFileOf (signedInAccount selected) lookupGroup groupExists
    pickShared "app" sampleUuid plainInputs envInfo.

(** ** A tab project of the legacy generation *)

Definition csharpProject (s : ProjectSettings) : bool :=
  bool_decide (programmingLanguage s = Some "csharp").

(** Some component stands for an Azure resource. *)
Definition hasAzureComponent (s : ProjectSettings) : bool :=
  bool_decide (Exists (fun c => componentName c ∈
                 [ComponentNames.APIM; ComponentNames.AzureWebApp;
                  ComponentNames.Function; ComponentNames.Identity;
                  ComponentNames.KeyVault; ComponentNames.AzureSQL;
                  ComponentNames.AzureStorage; ComponentNames.AadApp])
               (default [] (components s))).

Definition keepComponents (s : ProjectSettings) : list Component :=
  default [] (components s).

Definition tabProject : ProjectSettings :=
  mkProjectSettings "my app" "6f3a7c2e" (Some "typescript") None
    (Some (mkSolutionSettings "fx-solution-azure" (Some "1.0.0") "Azure" []
             ["Tab"]
             ["fx-resource-frontend-hosting"; "fx-resource-identity";
              "fx-resource-aad-app-for-teams"; "fx-resource-local-debug";
              "fx-resource-appstudio"; "fx-resource-simple-auth"]))
    None None.

Definition upgradeTab : ProjectSettings -> ProjectSettings :=
  convertProjectSettingsV2ToV3 csharpProject "MessagingExtension" keepComponents.

Definition downgradeTab : ProjectSettings -> ProjectSettings :=
  convertProjectSettingsV3ToV2 hasAzureComponent "MessagingExtension".

(** ** A run of the pipeline on "dev" *)

Definition localized (key : string) (args : list string) : string :=
  String.concat " " (key :: args).

Definition m365Account (tenant : string) : M365TokenProvider :=
  mkM365TokenProvider (ok "token")
    (ok {[ "tid" := JStr tenant; "upn" := JStr "dev@contoso.com" ]}).

(** The app registration plugin: it records the app it registered. *)
Definition appStudio : ResourcePlugin :=
  mkPlugin "fx-resource-appstudio"
    (Some (fun st => (setField "fx-resource-appstudio" "teamsAppId" (JStr "app") st, ok tt)))
    None None.

Definition botFailure : FxError :=
  UserError "fx-resource-bot" "MessageEndpointUpdatingError" "endpoint".

(** The bot plugin: it provisions, and fails to configure. *)
Definition bot : ResourcePlugin :=
  mkPlugin "fx-resource-bot"
    (Some (fun st => (setField "fx-resource-bot" "botId" (JStr "bot") st, ok tt)))
    (Some (fun st => (st, err botFailure)))
    None.

Definition aad : ResourcePlugin := mkPlugin "fx-resource-aad-app-for-teams" None None None.

Definition botProject : Context := mkContext "app" false false false false [appStudio; bot].

Definition runProvision (allowSwitch : bool) (tenant : string) (w : World) :=
  provisionResourceImpl id localized "Solution" "InternelError" "TeamsAppTenantIdNotRight"
    "armTemplateOutput" allowSwitch (m365Account tenant) botProject appStudio aad
    (ok tt) (fun st => st) (fun _ => ok tt) (fun _ _ _ _ => ok tt) (fun _ => false)
    (fun st => ok st) (fun _ => None)
    configFileOf (signedInAccount firstSubscription) lookupGroup groupExists pickShared
    "app" sampleUuid plainInputs (devEnv devState) w.

Definition devWorld (responses : list (option string)) : World :=
  mkWorld devState [] responses.

(** ** A project folder: the names of the environments it holds *)

Definition envExistsIn (project : list string) (_ env : string) : Result bool :=
  ok (bool_decide (env ∈ project)).

Definition addLocalEnv (project : list string) (_ : string) : list string :=
  "local" :: project.

Definition envNotExist (env : string) : FxError :=
  UserError "Core" "ProjectEnvNotExistError" env.

(** ** The plugins' phases of a run, one at a time *)

(** The stretches of lines 276-438 of provisionResourceImpl, each as a
    computation of its own, so that a property can name the world in
    which a phase begins and the result it gives. *)
Section Phases.
Variable ctx : Context.
Variable appStudioPlugin : ResourcePlugin.
Variable aadPlugin : ResourcePlugin.
Variable deployArmTemplates : ResourceStates -> Result ResourceStates.

(** Lines 276-283: the plugins of the run. *)
Definition pluginsOfRun : list ResourcePlugin :=
  let plugins := getSelectedPlugins ctx in
  if isExistingTabApp ctx
     && negb (existsb (fun p => bool_decide (pluginName p = pluginName appStudioPlugin))
                plugins)
  then (plugins ++ [appStudioPlugin])%list
  else plugins.

(** Line 285: the world once the flag has been set to false. *)
Definition flagCleared (w : World) : World :=
  mkWorld (Solution.set "provisionSucceeded" (JBool false) (wState w))
    (wEvents w ++ [SetProvisionSucceeded false])%list (wResponses w).

(** Lines 287-311: the provision phase, with the result of every plugin. *)
Definition provisionPhase : M (list (Result unit)) :=
  runThunks PluginProvision (thunksOf provisionResource true pluginsOfRun).

(** Lines 324-338: the deployment of the ARM templates. *)
Definition deployment (inputs : Inputs) : M (Result unit) :=
  if isAzureProject ctx && negb (isForUT inputs) && hasAzureResource ctx then
    emit DeployArmTemplates >>
    do st <- getState;
    match deployArmTemplates st with
    | err e => ret (err e)
    | ok update => modifyState (fun st => update ∪ st) >> ret (ok tt)
    end
  else ret (ok tt).

(** Lines 340-358: [aad.setApplicationInContext]. *)
Definition aadUserTask : M (Result unit) :=
  match executeUserTask aadPlugin with
  | Some task =>
      if existsb (fun p => bool_decide (pluginName p = pluginName aadPlugin))
           pluginsOfRun
      then
        emit SetApplicationInContext >>
        do st <- getState;
        let '(st', r) := task st in
        modifyState (fun _ => st') >> ret r
      else ret (ok tt)
  | None => ret (ok tt)
  end.

(** Lines 360-383: the configure phase, with the result of every plugin. *)
Definition configurePhase : M (list (Result unit)) :=
  modifyState (fun st =>
    foldl (fun st p => ensureEntry (pluginName p) st) st
      (List.filter (fun p => isSome (configureResource p)) pluginsOfRun)) >>
  runThunks PluginConfigure (thunksOf configureResource false pluginsOfRun).
End Phases.

(** Some plugin of the phase returned an error; none did. *)
Definition someFailed (results : list (Result unit)) : Prop :=
  Exists (fun r => isErr r = true) results.

Definition allSucceeded (results : list (Result unit)) : Prop :=
  Forall (fun r => isOk r = true) results.

(** * More of the code: the older dialogs, the target environment, legacy settings *)

(** ** component/provision.ts: askForDeployConsent and askForProvisionConsent *)

Module Consent.
Import ProvisionUtils Provision.
Local Open Scope list_scope.

(** [await ctx.userInteraction.showMessage(level, message, modal, ...items)]:
    the dialog is shown and the operator's next answer comes back (as
    in the loop of askForProvisionConsentNew, a dialog nobody answers
    is a call that waits). *)
Definition showMessage (level message : string) (modal : bool) (items : list string)
    : M (option string) :=
  fun w =>
    match wResponses w with
    | [] => (Waits, w)
    | answer :: rest =>
        (Done answer,
         mkWorld (wState w) (wEvents w ++ [ShowMessage level message modal items]) rest)
    end.

Definition pricingCalculatorUrl : string :=
  "https://azure.microsoft.com/en-us/pricing/calculator/".

Section WithCollaborators.
Variable getLocalizedString : string -> list string -> string.
Variable azureAccountProvider : AzureAccountProvider.

Definition askForDeployConsent (envInfoName : string) : M (Result unit) :=
  match getAccountCredentialAsync azureAccountProvider with
  | None => throw "TypeError: Cannot read properties of undefined (reading 'username')"
  | Some azureToken =>
      do st <- getState;
      let username := default "" (orElse (username azureToken) None) in
      let subscriptionId := default "" (orElse (Solution.str st "subscriptionId") None) in
      let subscriptionName :=
        default "" (orElse (Solution.str st "subscriptionName") None) in
      let msg :=
        getLocalizedString "core.deploy.confirmEnvNotice"
          [envInfoName; username;
           if truthy subscriptionName then subscriptionName else subscriptionId] in
      let deployOption := "Deploy" in
      do choice <- showMessage "warn" msg true [deployOption];
      if bool_decide (choice = Some deployOption) then ret (ok tt)
      else ret (err (UserError "core" "UserCancel" "UserCancel"))
  end.

Definition askForProvisionConsent (envInfoName : string) : M (Result unit) :=
  match getAccountCredentialAsync azureAccountProvider with
  | None => throw "TypeError: Cannot read properties of undefined (reading 'username')"
  | Some azureToken =>
      do st <- getState;
      let username := default "" (orElse (username azureToken) None) in
      let subscriptionId := default "" (orElse (Solution.str st "subscriptionId") None) in
      let subscriptionName :=
        default "" (orElse (Solution.str st "subscriptionName") None) in
      let msgNew :=
        getLocalizedString "core.provision.confirmEnvNotice"
          [envInfoName; username;
           if truthy subscriptionName then subscriptionName else subscriptionId] in
      do confirm <- showMessage "warn" msgNew true ["Provision"];
      if negb (bool_decide (confirm = Some "Provision")) then
        when (bool_decide (confirm = Some "Pricing calculator"))
          (emit (OpenUrl pricingCalculatorUrl)) >>
        ret (err (UserError "core" "CancelProvision" "CancelProvision"))
      else ret (ok tt)
  end.
End WithCollaborators.
End Consent.

(** ** core/middleware/envInfoLoader.ts: the environment a command targets *)

Module TargetEnvironment.
Import EnvInfoLoader.
Local Open Scope list_scope.

Definition newTargetEnvNameOption : string := "+ new environment".
Definition lastUsedMark : string := " (last used)".

(** [xs.indexOf(x)], [None] for -1. *)
Fixpoint indexOf (xs : list string) (x : string) : option nat :=
  match xs with
  | [] => None
  | y :: rest => if bool_decide (y = x) then Some 0 else S <$> indexOf rest x
  end.

Definition reOrderEnvironments (environments : list string) (lastUsed : option string)
    : list string :=
  if negb (truthyOpt lastUsed) then environments
  else
    let lastUsed := default "" lastUsed in
    match indexOf environments lastUsed with
    | None => environments
    | Some index =>
        [(lastUsed ++ lastUsedMark)%string]
          ++ take index environments ++ drop (index + 1) environments
    end.

(** [s.endsWith(t)] *)
Definition endsWith (s t : string) : bool :=
  Nat.leb (String.length t) (String.length s)
  && bool_decide (String.substring (String.length s - String.length t)
                    (String.length t) s = t).

(** [if (name.endsWith(lastUsedMark)) name = name.slice(0, name.indexOf(lastUsedMark))],
    as askTargetEnvironment and askNewEnvironment both write it. The
    mark is ASCII, so cutting at its first occurrence gives the same
    text whether positions count bytes or UTF-16 units; [indexOf] finds
    the mark whenever [endsWith] holds (the other branch is
    [slice(0, -1)]). *)
Definition sliceBeforeMark (name : string) : string :=
  if endsWith name lastUsedMark then
    match String.index 0 lastUsedMark name with
    | Some i => String.substring 0 i name
    | None => String.substring 0 (String.length name - 1) name
    end
  else name.

Record CreateEnvCopyInput : Type := mkCreateEnvCopyInput {
  targetEnvName : option string;
  sourceEnvName : option string;
}.

Section WithQuestions.
(** The question tree of the api, and [UserCancelError]. *)
Variable QTreeNode : Type.
Variable UserCancelError : FxError.
(** [getQuestionsForTargetEnv(inputs, lastUsed)] and
    [getQuestionsForNewEnv(inputs, lastUsed)]. *)
Variable getQuestionsForTargetEnv : option string -> Result (option QTreeNode).
Variable getQuestionsForNewEnv : option string -> Result (option QTreeNode).
(** [traverse(node, inputs, ui)]: its result, with the answer it
    leaves in [inputs] (targetEnvName, or sourceEnvName and
    newTargetEnvName) when given the one [inputs] held. *)
Variable traverse : QTreeNode -> option string -> option string * Result unit.
Variable traverseNew :
  QTreeNode -> option string * option string
  -> (option string * option string) * Result unit.

(** The answer [inputs.targetEnvName] the call leaves, and its result. *)
Definition askTargetEnvironment (lastUsedEnv : option string)
    (inputsTargetEnvName : option string) : option string * Result string :=
  match getQuestionsForTargetEnv lastUsedEnv with
  | err e => (inputsTargetEnvName, err e)
  | ok node =>
      let '(inputsTargetEnvName, res) :=
        match node with
        | Some node => traverse node inputsTargetEnvName
        | None => (inputsTargetEnvName, ok tt)
        end in
      match res with
      | err e => (inputsTargetEnvName, err e)
      | ok _ =>
          if negb (truthyOpt inputsTargetEnvName)
          then (inputsTargetEnvName, err UserCancelError)
          else (inputsTargetEnvName,
                ok (sliceBeforeMark (default "" inputsTargetEnvName)))
      end
  end.

(** [ctx.result] when the call sets it, and what it returns
    ([None] for [undefined]); [inputs] holds
    [(sourceEnvName, newTargetEnvName)]. *)
Definition askNewEnvironment (lastUsedEnv : option string)
    (inputs : option string * option string)
    : option FxError * option CreateEnvCopyInput :=
  match getQuestionsForNewEnv lastUsedEnv with
  | err e => (Some e, None)
  | ok node =>
      let '(inputs, res) :=
        match node with
        | Some node => traverseNew node inputs
        | None => (inputs, ok tt)
        end in
      match res with
      | err e => (Some e, None)
      | ok _ =>
          let sourceEnvName := inputs.1 in
          let selectedEnvName := sliceBeforeMark <$> sourceEnvName in
          (None, Some (mkCreateEnvCopyInput inputs.2 selectedEnvName))
      end
  end.

(** The project folder as [environmentManager] sees it. *)
Variable Project : Type.
Variable checkEnvExist : Project -> string -> string -> Result bool.
Variable createLocalEnv : Project -> string -> Project.
Variable getLocalEnvName : string.
Variable getDefaultEnvName : string.
Variable ProjectEnvNotExistError : string -> FxError.

(** What getTargetEnvName works on besides its arguments: the
    project folder, the module variable [lastUsedEnv], the answer
    held by [inputs.targetEnvName] and [ctx.result]. *)
Record Session : Type := mkSession {
  project : Project;
  lastUsedEnv : option string;
  inputsTargetEnvName : option string;
  ctxResult : option FxError;
}.

Definition getTargetEnvName (skip ignoreEnvInfo : bool) (inputsEnv : option string)
    (projectPath : string) (s : Session) : Session * Result string :=
  if negb skip && negb ignoreEnvInfo then
    if truthyOpt inputsEnv then
      let '(project', result) :=
        useUserSetEnv Project checkEnvExist createLocalEnv getLocalEnvName
          ProjectEnvNotExistError (project s) projectPath (default "" inputsEnv) in
      match result with
      | err e =>
          (mkSession project' (lastUsedEnv s) (inputsTargetEnvName s) (Some e), err e)
      | ok targetEnvName =>
          (mkSession project' (lastUsedEnv s) (inputsTargetEnvName s) (ctxResult s),
           ok targetEnvName)
      end
    else
      let '(answer, result) :=
        askTargetEnvironment (lastUsedEnv s) (inputsTargetEnvName s) in
      match result with
      | err e => (mkSession (project s) (lastUsedEnv s) answer (Some e), err e)
      | ok targetEnvName =>
          (mkSession (project s) (Some targetEnvName) answer (ctxResult s),
           ok targetEnvName)
      end
  else (s, ok getDefaultEnvName).
End WithQuestions.
End TargetEnvironment.

(** ** core/middleware/envInfoLoader.ts: settings kept in the old env config *)

Module LegacySettings.

(** The [solutionConfig] argument: a [SolutionConfig] (a Map of Maps),
    or the [Json] of an environment state, whose fields may hold
    [undefined] ([None]). *)
Inductive SolutionConfigOrJson : Type :=
| AsMap (config : gmap string (gmap string Json))
| AsJson (json : gmap string (gmap string (option Json))).

(** Truthiness of a value that may be [undefined]. *)
Definition truthyValue (v : option Json) : bool :=
  match v with
  | Some j => truthyJson j
  | None => false
  end.

Section WithConstants.
(** [GLOBAL_CONFIG], [PROGRAMMING_LANGUAGE], [PluginNames.FUNC] and
    [DEFAULT_FUNC_NAME] of the solution's constants. *)
Variable GLOBAL_CONFIG : string.
Variable PROGRAMMING_LANGUAGE : string.
Variable FUNC : string.
Variable DEFAULT_FUNC_NAME : string.

(** The field [programmingLanguage] of the project settings as the
    call leaves it, with the config as it leaves it. [None]: the call
    throws ([solutionConfig.get] is there but is no function, the
    [Json] having an entry named "get"). *)
Definition upgradeProgrammingLanguage (solutionConfig : SolutionConfigOrJson)
    (programmingLanguageOfSettings : option Json)
    : option (SolutionConfigOrJson * option Json) :=
  match solutionConfig with
  | AsMap config =>
      let programmingLanguage := config !! GLOBAL_CONFIG ≫= (.!! PROGRAMMING_LANGUAGE) in
      if truthyValue programmingLanguage
      then Some (AsMap (alter (delete PROGRAMMING_LANGUAGE) GLOBAL_CONFIG config),
                 programmingLanguage)
      else Some (solutionConfig, programmingLanguageOfSettings)
  | AsJson json =>
      if isSome (json !! "get") then None
      else
        let programmingLanguage :=
          (json !! "solution" ≫= (.!! "programmingLanguage")) ≫= id in
        if truthyValue programmingLanguage
        then Some (AsJson (alter (<["programmingLanguage" := None]>) "solution" json),
                   programmingLanguage)
        else Some (solutionConfig, programmingLanguageOfSettings)
  end.

(** The same for [defaultFunctionName]: a Map is read at the entry of
    the function plugin, a [Json] at [.solution]. *)
Definition upgradeDefaultFunctionName (solutionConfig : SolutionConfigOrJson)
    (defaultFunctionNameOfSettings : option Json)
    : option (SolutionConfigOrJson * option Json) :=
  match solutionConfig with
  | AsMap config =>
      let defaultFunctionName := config !! FUNC ≫= (.!! DEFAULT_FUNC_NAME) in
      if truthyValue defaultFunctionName
      then Some (AsMap (alter (delete DEFAULT_FUNC_NAME) FUNC config),
                 defaultFunctionName)
      else Some (solutionConfig, defaultFunctionNameOfSettings)
  | AsJson json =>
      if isSome (json !! "get") then None
      else
        let defaultFunctionName :=
          (json !! "solution" ≫= (.!! "defaultFunctionName")) ≫= id in
        if truthyValue defaultFunctionName
        then Some (AsJson (alter (<["defaultFunctionName" := None]>) "solution" json),
                   defaultFunctionName)
        else Some (solutionConfig, defaultFunctionNameOfSettings)
  end.
End WithConstants.
End LegacySettings.

(** * More vocabulary *)

Definition blank : Ascii.ascii := Ascii.ascii_of_nat 32.

(** A name such as the environments of a project bear: not empty, and
    without a blank. *)
Definition environmentName (name : string) : Prop :=
  name ≠ "" /\ forall p, String.get p name ≠ Some blank.

(** * More samples *)

Definition sampleEnvironments : list string := ["dev"; "staging"].

(** A question tree reduced to the options it offers, and an operator
    who takes the first one. *)
Definition questionsFor (environments : list string) (lastUsed : option string)
    : Result (option (list string)) :=
  ok (Some (TargetEnvironment.reOrderEnvironments environments lastUsed)).

Definition takeFirstOption (options : list string) (_ : option string)
    : option string * Result unit :=
  (head options, ok tt).

Definition cancelled : FxError := UserError "API" "UserCancel" "UserCancel".

(** An environment config of the generation before project settings
    held the language. *)
Definition legacyConfig : gmap string (gmap string Json) :=
  {[ "solution" := {[ "programmingLanguage" := JStr "typescript";
                      "tenantId" := JStr "T1" ]};
     "fx-resource-function" := {[ "defaultFunctionName" := JStr "getUserProfile" ]} ]}.

Import Consent TargetEnvironment LegacySettings.


(** * Properties *)

(** ** Objects and [state.solution] *)

Lemma Object_keys_spec {V : Type} (o : gmap string V) (k : string) :
  k ∈ Object_keys o <-> is_Some (o !! k).
Proof.
  unfold Object_keys. rewrite list_elem_of_fmap. split.
  - intros [[k' v] [-> ?%elem_of_map_to_list]]. eauto.
  - intros [v Hv]. exists (k, v). by rewrite elem_of_map_to_list.
Qed.

Lemma truthy_ne (s : string) : s ≠ "" -> truthy s = true.
Proof. by destruct s. Qed.

Lemma truthyOpt_Some (s : string) : s ≠ "" -> truthyOpt (Some s) = true.
Proof. apply truthy_ne. Qed.

Lemma Solution_set_lookup_ne f v (st : ResourceStates) key :
  key ≠ Solution.GLOBAL_CONFIG -> Solution.set f v st !! key = st !! key.
Proof. intros. unfold Solution.set. by rewrite lookup_insert_ne. Qed.

Lemma Solution_get_set f v (st : ResourceStates) :
  Solution.get (Solution.set f v st) = <[f := v]> (Solution.get st).
Proof. unfold Solution.get at 1, Solution.set. by rewrite lookup_insert_eq. Qed.

Lemma Solution_field_set f g v (st : ResourceStates) :
  Solution.field (Solution.set f v st) g
  = if decide (f = g) then Some v else Solution.field st g.
Proof. unfold Solution.field. rewrite Solution_get_set. apply lookup_insert. Qed.

Lemma Solution_str_set_ne f g v (st : ResourceStates) :
  f ≠ g -> Solution.str (Solution.set f v st) g = Solution.str st g.
Proof.
  intros. unfold Solution.str. rewrite Solution_field_set. by case_decide.
Qed.

Lemma Solution_str_set_eq f s (st : ResourceStates) :
  Solution.str (Solution.set f (JStr s) st) f = Some s.
Proof.
  unfold Solution.str. rewrite Solution_field_set. by case_decide.
Qed.

Lemma ensureEntry_present key (st : ResourceStates) entry :
  st !! key = Some entry -> ensureEntry key st = st.
Proof. intros H. unfold ensureEntry. by rewrite H. Qed.

Lemma Solution_field_ensureEntry key (st : ResourceStates) f :
  Solution.field (ensureEntry key st) f = Solution.field st f.
Proof.
  unfold ensureEntry. destruct (st !! key) eqn:Hk; [done|].
  unfold Solution.field, Solution.get.
  destruct (decide (key = Solution.GLOBAL_CONFIG)) as [->|Hne].
  - by rewrite lookup_insert_eq, Hk.
  - by rewrite lookup_insert_ne.
Qed.

(** ** Migration of the environment state *)

Section RenamingFacts.
Context {V : Type}.
Implicit Types (r rinv : gmap string string) (src acc : gmap string V).

(** A [Map] filled by [forEach(e => map.set(...))] from pairs with
    distinct keys holds exactly these pairs. *)
Lemma foldl_set_list_to_map (l : list (string * string)) :
  foldl (fun m e => <[e.1 := e.2]> m) (∅ : gmap string string) l
  = list_to_map (reverse l).
Proof.
  induction l as [|x l IH] using rev_ind; [done|].
  rewrite foldl_app, reverse_app. simpl. rewrite IH. by destruct x.
Qed.

Lemma foldl_set_lookup (l : list (string * string)) p c :
  NoDup l.*1 ->
  foldl (fun m e => <[e.1 := e.2]> m) (∅ : gmap string string) l !! p = Some c
  <-> (p, c) ∈ l.
Proof.
  intros Hnd. rewrite foldl_set_list_to_map, <- elem_of_list_to_map.
  - by rewrite elem_of_reverse.
  - by rewrite fmap_reverse, reverse_Permutation.
Qed.

(** Keys the renaming does not send to [c] leave the entry [c] alone. *)
Lemma copyRenamed_skip r src acc l c :
  (forall k, k ∈ l -> r !! k ≠ Some c) ->
  foldl (copyRenamed r src) acc l !! c = acc !! c.
Proof.
  revert acc. induction l as [|k l IH]; intros acc Hl; [done|].
  simpl. rewrite IH by (intros; apply Hl; by right).
  unfold copyRenamed.
  destruct (r !! k) as [n|] eqn:Hk; [|done].
  destruct (truthy n); [|done].
  destruct (src !! k); [|done].
  apply lookup_insert_ne. intros ->. by apply (Hl k); [left|].
Qed.

Lemma copyRenamed_hit r src acc l p c v :
  (forall k, r !! k = Some c -> k = p) ->
  r !! p = Some c -> truthy c = true -> src !! p = Some v ->
  p ∈ l -> NoDup l ->
  foldl (copyRenamed r src) acc l !! c = Some v.
Proof.
  intros Hinj Hc Htr Hp. revert acc.
  induction l as [|k l IH]; intros acc Hin Hnd.
  { by apply elem_of_nil in Hin. }
  apply NoDup_cons in Hnd as [Hk Hnd]. simpl.
  apply elem_of_cons in Hin as [<-|Hin]; [|by apply IH].
  rewrite copyRenamed_skip.
  - unfold copyRenamed. rewrite Hc, Htr, Hp. apply lookup_insert_eq.
  - intros k Hkl Hk'. apply Hinj in Hk'. congruence.
Qed.

(** The loop over [Object.keys(src)], read through the inverse of the
    renaming. *)
Lemma copyRenamed_lookup r rinv src c :
  (forall p n, r !! p = Some n <-> rinv !! n = Some p) ->
  (forall p n, r !! p = Some n -> truthy n = true) ->
  foldl (copyRenamed r src) ∅ (Object_keys src) !! c
  = rinv !! c ≫= (src !!.).
Proof.
  intros Hinv Htr.
  destruct (rinv !! c) as [p|] eqn:Hc; simpl.
  - assert (Hinj : forall k, r !! k = Some c -> k = p).
    { intros k Hk. apply Hinv in Hk. congruence. }
    apply Hinv in Hc.
    destruct (src !! p) as [v|] eqn:Hp.
    + apply (copyRenamed_hit r src ∅ _ p); eauto.
      * apply Object_keys_spec; eauto.
      * apply NoDup_fst_map_to_list.
    + rewrite copyRenamed_skip; [done|].
      intros k Hk Hk'. apply Hinj in Hk' as ->.
      apply Object_keys_spec in Hk as [v Hv]. congruence.
  - rewrite copyRenamed_skip; [done|].
    intros k _ Hk. apply Hinv in Hk. congruence.
Qed.
End RenamingFacts.

Lemma EnvStateMigrationComponentNames_plugins_NoDup :
  NoDup EnvStateMigrationComponentNames.*1.
Proof. apply (bool_decide_unpack _). vm_compute. reflexivity. Qed.

Lemma EnvStateMigrationComponentNames_components_NoDup :
  NoDup EnvStateMigrationComponentNames.*2.
Proof. apply (bool_decide_unpack _). vm_compute. reflexivity. Qed.

Lemma plugin2component_lookup p c :
  plugin2component !! p = Some c <-> (p, c) ∈ EnvStateMigrationComponentNames.
Proof.
  apply foldl_set_lookup, EnvStateMigrationComponentNames_plugins_NoDup.
Qed.

Lemma component2plugin_lookup p c :
  component2plugin !! c = Some p <-> (p, c) ∈ EnvStateMigrationComponentNames.
Proof.
  unfold component2plugin.
  change (foldl (fun m e => <[e.2 := e.1]> m) ∅ EnvStateMigrationComponentNames)
    with (foldl (fun m e => <[e.1 := e.2]> m) (∅ : gmap string string)
            (prod_swap <$> EnvStateMigrationComponentNames)).
  rewrite foldl_set_lookup.
  - rewrite list_elem_of_fmap. split.
    + intros [[p' c'] [[= -> ->] ?]]. done.
    + intros ?. by exists (p, c).
  - rewrite <- list_fmap_compose.
    apply EnvStateMigrationComponentNames_components_NoDup.
Qed.

Lemma plugin_component_inverse p c :
  plugin2component !! p = Some c <-> component2plugin !! c = Some p.
Proof. by rewrite plugin2component_lookup, component2plugin_lookup. Qed.

Lemma EnvStateMigrationComponentNames_truthy p c :
  (p, c) ∈ EnvStateMigrationComponentNames -> truthy p = true /\ truthy c = true.
Proof.
  unfold EnvStateMigrationComponentNames.
  rewrite !elem_of_cons, elem_of_nil.
  intros H; decompose [or] H; simplify_eq; done.
Qed.

Section ConvertFacts.
Context {V : Type}.
Implicit Types st : gmap string V.

Lemma convertEnvStateV2ToV3_lookup st c :
  convertEnvStateV2ToV3 st !! c = component2plugin !! c ≫= (st !!.).
Proof.
  apply copyRenamed_lookup.
  - apply plugin_component_inverse.
  - intros p n H%plugin2component_lookup.
    by apply EnvStateMigrationComponentNames_truthy in H as [_ ?].
Qed.

Lemma convertEnvStateV3ToV2_lookup st p :
  convertEnvStateV3ToV2 st !! p = plugin2component !! p ≫= (st !!.).
Proof.
  apply copyRenamed_lookup.
  - intros c n. symmetry. apply plugin_component_inverse.
  - intros c n H%component2plugin_lookup.
    by apply EnvStateMigrationComponentNames_truthy in H as [? _].
Qed.

(** C10. convertEnvStateV2ToV3 and convertEnvStateV3ToV2 copy into their
    output the entries whose key is one of the ten pairs of
    EnvStateMigrationComponentNames, under the other name of the pair, and
    nothing else: the output has no entry under any other key, and an
    entry of the input under a key the mapping does not know is dropped
    without a trace (the output is the same with and without it). *)
Theorem convertEnvState_copies_only_mapped_entries st :
  length EnvStateMigrationComponentNames = 10 /\
  (forall p c, (p, c) ∈ EnvStateMigrationComponentNames ->
     convertEnvStateV2ToV3 st !! c = st !! p /\
     convertEnvStateV3ToV2 st !! p = st !! c) /\
  (forall k, k ∉ EnvStateMigrationComponentNames.*2 ->
     convertEnvStateV2ToV3 st !! k = None) /\
  (forall k, k ∉ EnvStateMigrationComponentNames.*1 ->
     convertEnvStateV3ToV2 st !! k = None) /\
  (forall k v, k ∉ EnvStateMigrationComponentNames.*1 ->
     convertEnvStateV2ToV3 (<[k := v]> st) = convertEnvStateV2ToV3 st) /\
  (forall k v, k ∉ EnvStateMigrationComponentNames.*2 ->
     convertEnvStateV3ToV2 (<[k := v]> st) = convertEnvStateV3ToV2 st).
Proof.
  assert (Hno1 : forall k, k ∉ EnvStateMigrationComponentNames.*1 ->
                   forall c, component2plugin !! c ≠ Some k).
  { intros k Hk c Hc%component2plugin_lookup. apply Hk.
    apply list_elem_of_fmap. by exists (k, c). }
  assert (Hno2 : forall k, k ∉ EnvStateMigrationComponentNames.*2 ->
                   forall p, plugin2component !! p ≠ Some k).
  { intros k Hk p Hp%plugin2component_lookup. apply Hk.
    apply list_elem_of_fmap. by exists (p, k). }
  split; [reflexivity|]. split; [|split; [|split; [|split]]].
  - intros p c Hpc. rewrite convertEnvStateV2ToV3_lookup, convertEnvStateV3ToV2_lookup.
    pose proof Hpc as Hpc'.
    apply component2plugin_lookup in Hpc as ->.
    apply plugin2component_lookup in Hpc' as ->. done.
  - intros k Hk. rewrite convertEnvStateV2ToV3_lookup.
    destruct (component2plugin !! k) as [p|] eqn:Hp; [|done].
    exfalso. apply Hk, list_elem_of_fmap. exists (p, k).
    by rewrite <- component2plugin_lookup.
  - intros k Hk. rewrite convertEnvStateV3ToV2_lookup.
    destruct (plugin2component !! k) as [c|] eqn:Hc; [|done].
    exfalso. apply Hk, list_elem_of_fmap. exists (k, c).
    by rewrite <- plugin2component_lookup.
  - intros k v Hk. apply map_eq; intros c.
    rewrite !convertEnvStateV2ToV3_lookup.
    destruct (component2plugin !! c) as [p|] eqn:Hp; [simpl|done].
    apply lookup_insert_ne. intros ->. by apply (Hno1 _ Hk c).
  - intros k v Hk. apply map_eq; intros p.
    rewrite !convertEnvStateV3ToV2_lookup.
    destruct (plugin2component !! p) as [c|] eqn:Hc; [simpl|done].
    apply lookup_insert_ne. intros ->. by apply (Hno2 _ Hk p).
Qed.
End ConvertFacts.

Example convertEnvStateV2ToV3_devState :
  convertEnvStateV2ToV3 (<["fx-resource-simple-auth" := {[ "endpoint" := JStr "e" ]}]> devState)
  = {[ "solution" := Solution.get devState;
       "app-manifest" := {[ "tenantId" := JStr "T1"; "teamsAppId" := JStr "app" ]};
       "teams-bot" := {[ "botId" := JStr "bot"; "resourceId" := JStr "/bot" ]};
       "apim" :=
         {[ "serviceResourceId" := JStr "/apim"; "productResourceId" := JStr "/product" ]};
       "aad-app" := {[ "clientId" := JStr "client" ]} ]}.
Proof. vm_compute. reflexivity. Qed.

Lemma convertEnvState_copies_only_mapped_entries_witness :
  convertEnvStateV2ToV3 devState !! "teams-bot" = devState !! "fx-resource-bot" /\
  convertEnvStateV2ToV3 devState !! "fx-resource-bot" = None /\
  convertEnvStateV2ToV3
    (<["fx-resource-simple-auth" := {[ "endpoint" := JStr "e" ]}]> devState)
    = convertEnvStateV2ToV3 devState /\
  convertEnvStateV3ToV2
    (<["simple-auth" := {[ "endpoint" := JStr "e" ]}]> (convertEnvStateV2ToV3 devState))
    = convertEnvStateV3ToV2 (convertEnvStateV2ToV3 devState).
Proof.
  destruct (convertEnvState_copies_only_mapped_entries devState)
    as (_ & Hcopy & Hnone & _ & Hdrop & _).
  destruct (convertEnvState_copies_only_mapped_entries (convertEnvStateV2ToV3 devState))
    as (_ & _ & _ & _ & _ & Hdrop').
  split; [|split; [|split]].
  - apply (Hcopy "fx-resource-bot" "teams-bot").
    apply (bool_decide_unpack _). vm_compute. reflexivity.
  - apply Hnone. apply (bool_decide_unpack _). vm_compute. reflexivity.
  - apply Hdrop. apply (bool_decide_unpack _). vm_compute. reflexivity.
  - apply Hdrop'. apply (bool_decide_unpack _). vm_compute. reflexivity.
Defined.


(** ** The purge on a switch of subscription *)

Lemma purgedEntry_idemp key entry :
  purgedEntry key (purgedEntry key entry) = purgedEntry key entry.
Proof.
  unfold purgedEntry. repeat case_bool_decide; try done.
  destruct entry as [o|]; [simpl|done]. by rewrite delete_delete_eq.
Qed.

Lemma purgedEntry_None key : purgedEntry key None = None.
Proof. unfold purgedEntry. by repeat case_bool_decide. Qed.

Lemma clearKey_lookup_eq (st : ResourceStates) key :
  clearKey st key !! key = purgedEntry key (st !! key).
Proof.
  unfold clearKey, purgedEntry.
  repeat case_bool_decide; rewrite ?lookup_alter_eq, ?lookup_delete_eq; done.
Qed.

Lemma clearKey_lookup_ne (st : ResourceStates) k key :
  k ≠ key -> clearKey st k !! key = st !! key.
Proof.
  intros Hne. unfold clearKey. repeat case_bool_decide;
    rewrite ?lookup_alter_ne, ?lookup_delete_ne by done; done.
Qed.

(** The loop touches the entries of the keys it visits, each as
    [purgedEntry] says, and no other. *)
Lemma foldl_clearKey_lookup (l : list string) (st : ResourceStates) key :
  foldl clearKey st l !! key
  = if bool_decide (key ∈ l) then purgedEntry key (st !! key) else st !! key.
Proof.
  revert st. induction l as [|k l IH]; intros st.
  { case_bool_decide as H; [by apply elem_of_nil in H|done]. }
  cbn [foldl]. rewrite IH. destruct (decide (k = key)) as [->|Hne].
  - rewrite clearKey_lookup_eq, purgedEntry_idemp.
    rewrite (bool_decide_eq_true_2 (key ∈ key :: l)) by left.
    by case_bool_decide.
  - rewrite clearKey_lookup_ne by done.
    case_bool_decide as H1; case_bool_decide as H2; try done.
    + exfalso. apply H2. by right.
    + apply elem_of_cons in H2 as [?|?]; congruence.
Qed.

Lemma clearEnvInfoStateResource_lookup (st : ResourceStates) key :
  key ≠ Solution.GLOBAL_CONFIG ->
  clearEnvInfoStateResource st !! key = purgedEntry key (st !! key).
Proof.
  intros Hne. unfold clearEnvInfoStateResource. cbv zeta.
  rewrite foldl_clearKey_lookup, !Solution_set_lookup_ne by done.
  case_bool_decide as Hk; [done|].
  rewrite Object_keys_spec, !Solution_set_lookup_ne in Hk by done.
  destruct (st !! key); [exfalso; eauto|]. by rewrite purgedEntry_None.
Qed.

Lemma clearEnvInfoStateResource_solution (st : ResourceStates) :
  Solution.get (clearEnvInfoStateResource st)
  = <["resourceNameSuffix" := JStr ""]>
      (<["resourceGroupName" := JStr ""]> (Solution.get st)).
Proof.
  unfold clearEnvInfoStateResource. cbv zeta.
  unfold Solution.get at 1. rewrite foldl_clearKey_lookup.
  assert (Hp : forall e, purgedEntry Solution.GLOBAL_CONFIG e = e).
  { intros e. unfold purgedEntry.
    rewrite !bool_decide_eq_false_2; [done| |];
      intros H; vm_compute in H; by repeat (apply elem_of_cons in H as [?|H]; [done|]);
      apply elem_of_nil in H. }
  rewrite Hp.
  match goal with |- context [bool_decide ?P] => destruct (bool_decide P) end.
  all: fold (Solution.get (Solution.set "resourceNameSuffix" (JStr "")
               (Solution.set "resourceGroupName" (JStr "") st))).
  all: by rewrite !Solution_get_set.
Qed.

Lemma updateEnvInfoSubscription_lookup_ne (st : ResourceStates) sub key :
  key ≠ Solution.GLOBAL_CONFIG -> updateEnvInfoSubscription st sub !! key = st !! key.
Proof. intros. unfold updateEnvInfoSubscription. by rewrite !Solution_set_lookup_ne. Qed.

Lemma updateEnvInfoSubscription_solution (st : ResourceStates) sub :
  Solution.get (updateEnvInfoSubscription st sub)
  = <["tenantId" := JStr (tenantId sub)]>
      (<["subscriptionName" := JStr (subscriptionName sub)]>
         (<["subscriptionId" := JStr (subscriptionId sub)]> (Solution.get st))).
Proof. unfold updateEnvInfoSubscription. by rewrite !Solution_get_set. Qed.

Example clearEnvInfoStateResource_devState :
  clearEnvInfoStateResource devState =
  {[ "solution" :=
       {[ "teamsAppTenantId" := JStr "T1";
          "subscriptionId" := JStr "S1";
          "subscriptionName" := JStr "first";
          "tenantId" := JStr "T1";
          "resourceGroupName" := JStr "";
          "location" := JStr "East US";
          "resourceNameSuffix" := JStr "";
          "provisionSucceeded" := JBool true ]};
     "fx-resource-appstudio" := {[ "tenantId" := JStr "T1"; "teamsAppId" := JStr "app" ]};
     "fx-resource-apim" := {[ "productResourceId" := JStr "/product" ]};
     "fx-resource-aad-app-for-teams" := {[ "clientId" := JStr "client" ]} ]}.
Proof. vm_compute. reflexivity. Qed.

(** C1, as amended. When the subscription a run resolves differs from a
    non-empty subscription id stored in [state.solution],
    compareWithStateSubscription reports [hasSwitchedSubscription = true];
    it removes the entries of the keys of [keysToClear] (bot, frontend or
    tab, function or api, identity, key vault, SQL, simple auth), removes
    [serviceResourceId] from the two APIM entries and leaves every other
    entry of the state as it is; in [state.solution] it blanks
    [resourceGroupName] and [resourceNameSuffix], sets [subscriptionId],
    [subscriptionName] and [tenantId] to those of the resolved
    subscription, and leaves every other field, [teamsAppTenantId] among
    them, unchanged. *)
Theorem compareWithStateSubscription_switched
    (st : ResourceStates) (target : SubscriptionInfo) (stored : option string) :
  truthyOpt stored = true ->
  Some (subscriptionId target) ≠ stored ->
  let st' := (compareWithStateSubscription st target stored).1 in
  (compareWithStateSubscription st target stored).2 = ok (mkCheckResult true) /\
  (forall key, key ≠ "solution" ->
     st' !! key =
       if bool_decide (key ∈ keysToClear) then None
       else if bool_decide (key ∈ keysToModify)
            then delete "serviceResourceId" <$> st !! key
            else st !! key) /\
  Solution.field st' "subscriptionId" = Some (JStr (subscriptionId target)) /\
  Solution.field st' "subscriptionName" = Some (JStr (subscriptionName target)) /\
  Solution.field st' "tenantId" = Some (JStr (tenantId target)) /\
  Solution.field st' "resourceGroupName" = Some (JStr "") /\
  Solution.field st' "resourceNameSuffix" = Some (JStr "") /\
  (forall f, f ∉ rewrittenSolutionFields ->
     Solution.field st' f = Solution.field st f) /\
  Solution.field st' "teamsAppTenantId" = Solution.field st "teamsAppTenantId".
Proof.
  intros Hstored Hdiff.
  unfold compareWithStateSubscription.
  rewrite Hstored, (bool_decide_eq_false_2 _ Hdiff). cbn [fst snd andb negb].
  assert (Hsol := clearEnvInfoStateResource_solution
                    (updateEnvInfoSubscription st target)).
  rewrite updateEnvInfoSubscription_solution in Hsol.
  assert (Hother : forall f, f ∉ rewrittenSolutionFields ->
            Solution.field (clearEnvInfoStateResource
                              (updateEnvInfoSubscription st target)) f
            = Solution.field st f).
  { intros f Hf. unfold Solution.field. rewrite Hsol.
    unfold rewrittenSolutionFields in Hf.
    rewrite !not_elem_of_cons in Hf. destruct Hf as (?&?&?&?&?&_).
    by rewrite !lookup_insert_ne. }
  split; [done|]. split.
  { intros key Hkey. rewrite clearEnvInfoStateResource_lookup by done.
    unfold purgedEntry. by rewrite updateEnvInfoSubscription_lookup_ne. }
  unfold Solution.field at 1 2 3 4 5. rewrite Hsol.
  repeat split; try (by simplify_map_eq); try done.
  apply Hother. unfold rewrittenSolutionFields.
  rewrite !not_elem_of_cons. repeat split; try done. apply not_elem_of_nil.
Qed.

Lemma compareWithStateSubscription_switched_witness :
  truthyOpt (Some "S1") = true /\
  Some (subscriptionId secondSubscription) ≠ Some "S1" /\
  (compareWithStateSubscription devState secondSubscription (Some "S1")).2
    = ok (mkCheckResult true) /\
  Solution.field (compareWithStateSubscription devState secondSubscription (Some "S1")).1
    "teamsAppTenantId" = Solution.field devState "teamsAppTenantId".
Proof.
  assert (H1 : truthyOpt (Some "S1") = true) by reflexivity.
  assert (H2 : Some (subscriptionId secondSubscription) ≠ Some "S1") by discriminate.
  pose proof (compareWithStateSubscription_switched devState secondSubscription
                (Some "S1") H1 H2) as H.
  split; [exact H1|]. split; [exact H2|]. split; [apply H|apply H].
Defined.

(** C1 as stated fails: on "dev", stored under subscription S1, a run
    that resolves S2 reports the switch and rewrites
    [state.solution.subscriptionId], a state key that is not among those
    the claim enumerates. *)
Lemma compareWithStateSubscription_rewrites_subscriptionId :
  let r := compareWithStateSubscription devState secondSubscription
             (Solution.str devState "subscriptionId") in
  r.2 = ok (mkCheckResult true) /\
  Solution.field devState "subscriptionId" = Some (JStr "S1") /\
  Solution.field r.1 "subscriptionId" = Some (JStr "S2") /\
  Solution.field r.1 "subscriptionId" ≠ Solution.field devState "subscriptionId".
Proof.
  vm_compute. repeat split; congruence.
Qed.


(** ** The resource group of a run *)

Section FillInAzureConfigsFacts.
Variable envConfigFileName : string -> string.
Variable azureAccountProvider : AzureAccountProvider.
Variable getResourceGroupInfo :
  string -> ResourceManagementClient -> Result (option ResourceGroupInfo).
Variable checkResourceGroupExistence :
  string -> ResourceManagementClient -> Result bool.
Variable askResourceGroupInfo :
  Inputs -> ResourceManagementClient -> string -> Result ResourceGroupInfo.
Variable snakeCaseAppName : string.
Variable uuidv4 : string.

Local Abbreviation check :=
  (checkProvisionSubscriptionWhenSwitchAccountEnabled envConfigFileName
     azureAccountProvider).
Local Abbreviation resolve :=
  (resolveResourceGroup envConfigFileName getResourceGroupInfo
     checkResourceGroupExistence askResourceGroupInfo snakeCaseAppName).
Local Abbreviation fill :=
  (fillInAzureConfigs envConfigFileName azureAccountProvider getResourceGroupInfo
     checkResourceGroupExistence askResourceGroupInfo snakeCaseAppName uuidv4).

Lemma fillInAzureConfigs_resolved inputs envInfo st1 sub token info type :
  check envInfo = (st1, ok sub) ->
  getAccountCredentialAsync azureAccountProvider = Some token ->
  resolve inputs envInfo st1 (mkRmClient token (Solution.str st1 "subscriptionId"))
    = ok (info, type) ->
  resourceGroupChosen (fill inputs envInfo) info type.
Proof.
  intros Hc Ht Hr. unfold fillInAzureConfigs. rewrite Hc, Ht, Hr.
  unfold resourceGroupChosen. cbn [fst snd isOk].
  split; [done|]. split.
  { rewrite !elem_of_app, !elem_of_cons. auto. }
  rewrite !Solution_field_set. repeat split; by repeat case_decide.
Qed.

Lemma fillInAzureConfigs_unresolved inputs envInfo st1 sub token e :
  check envInfo = (st1, ok sub) ->
  getAccountCredentialAsync azureAccountProvider = Some token ->
  resolve inputs envInfo st1 (mkRmClient token (Solution.str st1 "subscriptionId"))
    = err e ->
  fill inputs envInfo
  = (st1, [CheckSubscriptionStart; CheckSubscription (hasSwitchedSubscription sub);
           CheckResourceGroupStart], err e).
Proof.
  intros Hc Ht Hr. unfold fillInAzureConfigs. by rewrite Hc, Ht, Hr.
Qed.

(** ** What the subscription check leaves of the stored resource group *)

Lemma updateEnvInfoSubscription_keeps (st : ResourceStates) sub f :
  f ≠ "subscriptionId" -> f ≠ "subscriptionName" -> f ≠ "tenantId" ->
  Solution.str (updateEnvInfoSubscription st sub) f = Solution.str st f.
Proof.
  intros. unfold updateEnvInfoSubscription. by rewrite !Solution_str_set_ne.
Qed.

Lemma compareWithStateSubscription_resourceGroup (st st1 : ResourceStates) target stored r :
  compareWithStateSubscription st target stored = (st1, ok r) ->
  Solution.str st1 "resourceGroupName"
    = (if hasSwitchedSubscription r then Some ""
       else Solution.str st "resourceGroupName") /\
  Solution.str st1 "location" = Solution.str st "location".
Proof.
  unfold compareWithStateSubscription.
  destruct (_ && _); intros [= <- <-]; cbn [hasSwitchedSubscription].
  - unfold Solution.str, Solution.field.
    rewrite clearEnvInfoStateResource_solution, updateEnvInfoSubscription_solution.
    by simplify_map_eq.
  - split; by apply updateEnvInfoSubscription_keeps.
Qed.

(** The subscription check blanks the stored name of the resource group
    exactly when it reports a switch, and leaves the stored location. *)
Lemma checkProvisionSubscription_resourceGroup envInfo st1 r :
  check envInfo = (st1, ok r) ->
  Solution.str st1 "resourceGroupName"
    = (if hasSwitchedSubscription r then Some ""
       else Solution.str (state envInfo) "resourceGroupName") /\
  Solution.str st1 "location" = Solution.str (state envInfo) "location".
Proof.
  intros H. unfold checkProvisionSubscriptionWhenSwitchAccountEnabled in H.
  repeat match type of H with
         | context [if ?b then _ else _] => destruct b
         | context [match ?o with Some _ => _ | None => _ end] => destruct o
         end;
    first [ exact (compareWithStateSubscription_resourceGroup _ _ _ _ _ H)
          | injection H as <- <-; split; by apply updateEnvInfoSubscription_keeps
          | discriminate H ].
Qed.

(** C5, as amended. Once the subscription is settled and the operator is
    signed in, fillInAzureConfigs takes the resource group from the first
    of these sources that is there: the [targetResourceGroupName] of the
    inputs; the [azure.resourceGroupName] of the config file; the name
    the state of the environment held when the run began, which counts
    only when a location is stored with it and the subscription has not
    switched in this run (a switch blanks the stored name), and is
    checked for existence again; the prompt. A group named by the inputs
    or by the config file that does not exist ends the run with the user
    error ResourceGroupNotFound (for the config file, with the state as
    the subscription check left it): no later source is tried. *)
Theorem fillInAzureConfigs_resource_group_precedence
    (inputs : Inputs) (envInfo : EnvInfoV3) (st1 : ResourceStates)
    (sub : ProvisionSubscriptionCheckResult) (token : TokenCredential) :
  check envInfo = (st1, ok sub) ->
  getAccountCredentialAsync azureAccountProvider = Some token ->
  let rmClient := mkRmClient token (Solution.str st1 "subscriptionId") in
  let fromInputs := targetResourceGroupName inputs in
  let fromConfig := azure envInfo ≫= cfgResourceGroupName in
  let nameFromState := Solution.str (state envInfo) "resourceGroupName" in
  let locationFromState := Solution.str (state envInfo) "location" in
  let switched := hasSwitchedSubscription sub in
  let out := fill inputs envInfo in
  (forall rg, fromInputs = Some rg -> rg ≠ "" ->
     match getResourceGroupInfo rg rmClient with
     | ok (Some info) => resourceGroupChosen out info (Some CommandLine)
     | ok None =>
         out.2 = err (UserError "core" "ResourceGroupNotFound"
                        ("Resource group '" ++ rg
                         ++ "' does not exist, please specify an existing resource group."))
     | err e =>
         match platform inputs, targetResourceLocationName inputs with
         | VS, Some loc =>
             if truthy loc
             then resourceGroupChosen out (mkResourceGroupInfo true rg loc) None
             else out.2 = err e
         | _, _ => out.2 = err e
         end
     end) /\
  (truthyOpt fromInputs = false ->
   forall rg, fromConfig = Some rg -> rg ≠ "" ->
     match getResourceGroupInfo rg rmClient with
     | ok (Some info) => resourceGroupChosen out info (Some EnvConfig)
     | ok None =>
         out.1.1 = st1 /\
         out.2 = err (UserError "core" "ResourceGroupNotFound"
                        ("Resource group '" ++ rg
                         ++ "' does not exist, please check your '"
                         ++ envConfigFileName (inputsEnvName inputs) ++ "' file."))
     | err e => out.2 = err e
     end) /\
  (truthyOpt fromInputs = false -> truthyOpt fromConfig = false ->
   switched = false ->
   forall rg loc, nameFromState = Some rg -> rg ≠ "" ->
                  locationFromState = Some loc -> loc ≠ "" ->
     match checkResourceGroupExistence rg rmClient with
     | ok exists_ =>
         resourceGroupChosen out (mkResourceGroupInfo (negb exists_) rg loc)
           (Some EnvState)
     | err e => out.2 = err e
     end) /\
  (truthyOpt fromInputs = false -> truthyOpt fromConfig = false ->
   switched = true \/ truthyOpt nameFromState && truthyOpt locationFromState = false ->
     match askResourceGroupInfo inputs rmClient
             (snakeCaseAppName ++ "-" ++ envName envInfo ++ "-rg") with
     | ok info =>
         exists type,
           resourceGroupChosen out info (Some type) /\
           type ∈ [InteractiveCreateDefault; InteractiveCreateCustomized;
                   InteractiveUseExisting]
     | err e => out.2 = err e
     end).
Proof.
  intros Hc Ht rmClient fromInputs fromConfig nameFromState locationFromState switched out.
  pose proof (fillInAzureConfigs_resolved inputs envInfo st1 sub token) as Hok.
  pose proof (fillInAzureConfigs_unresolved inputs envInfo st1 sub token) as Herr.
  specialize (fun info type => Hok info type Hc Ht).
  specialize (fun e => Herr e Hc Ht).
  fold rmClient in Hok, Herr. fold out in Hok, Herr.
  destruct (checkProvisionSubscription_resourceGroup _ _ _ Hc) as [Hname Hlocation].
  fold switched nameFromState in Hname. fold locationFromState in Hlocation.
  repeat split.
  - intros rg Hrg Hne.
    assert (Hres : resolve inputs envInfo st1 rmClient
              = match getResourceGroupInfo rg rmClient with
                | err e =>
                    match platform inputs, truthyOpt (targetResourceLocationName inputs) with
                    | VS, true =>
                        ok (mkResourceGroupInfo true rg
                              (default "" (targetResourceLocationName inputs)), None)
                    | _, _ => err e
                    end
                | ok None =>
                    err (UserError "core" "ResourceGroupNotFound"
                           ("Resource group '" ++ rg
                            ++ "' does not exist, please specify an existing resource group."))
                | ok (Some info) => ok (info, Some CommandLine)
                end).
    { unfold resolveResourceGroup. fold fromInputs. rewrite Hrg.
      by rewrite (truthyOpt_Some _ Hne). }
    destruct (getResourceGroupInfo rg rmClient) as [[info|]|e].
    + by apply Hok.
    + by rewrite (Herr _ Hres).
    + destruct (platform inputs), (targetResourceLocationName inputs) as [loc|];
        simpl in Hres; try (by rewrite (Herr _ Hres)).
      destruct (truthy loc); [by apply Hok|by rewrite (Herr _ Hres)].
  - intros Hni rg Hrg Hne.
    assert (Hres : resolve inputs envInfo st1 rmClient
              = match getResourceGroupInfo rg rmClient with
                | err e => err e
                | ok None =>
                    err (UserError "core" "ResourceGroupNotFound"
                           ("Resource group '" ++ rg
                            ++ "' does not exist, please check your '"
                            ++ envConfigFileName (inputsEnvName inputs) ++ "' file."))
                | ok (Some info) => ok (info, Some EnvConfig)
                end).
    { unfold resolveResourceGroup. fold fromInputs fromConfig.
      by rewrite Hni, Hrg, (truthyOpt_Some _ Hne). }
    destruct (getResourceGroupInfo rg rmClient) as [[info|]|e].
    + by apply Hok.
    + by rewrite (Herr _ Hres).
    + by rewrite (Herr _ Hres).
  - intros Hni Hnc Hsw rg loc Hrg Hne Hloc Hnel.
    rewrite Hsw, Hrg in Hname. rewrite Hloc in Hlocation.
    assert (Hres : resolve inputs envInfo st1 rmClient
              = match checkResourceGroupExistence rg rmClient with
                | err e => err e
                | ok exists_ =>
                    ok (mkResourceGroupInfo (negb exists_) rg loc, Some EnvState)
                end).
    { unfold resolveResourceGroup. fold fromInputs fromConfig.
      by rewrite Hni, Hnc, Hname, Hlocation, !truthyOpt_Some. }
    destruct (checkResourceGroupExistence rg rmClient) as [b|e].
    + by apply Hok.
    + by rewrite (Herr _ Hres).
  - intros Hni Hnc Hns.
    assert (Hst1 : truthyOpt (Solution.str st1 "resourceGroupName")
                   && truthyOpt (Solution.str st1 "location") = false).
    { rewrite Hname, Hlocation. destruct Hns as [-> | Hns]; [done|].
      by destruct switched. }
    assert (Hres : resolve inputs envInfo st1 rmClient
              = match askResourceGroupInfo inputs rmClient
                        (snakeCaseAppName ++ "-" ++ envName envInfo ++ "-rg") with
                | err e => err e
                | ok info =>
                    ok (info,
                        Some (if createNewResourceGroup info then
                                if bool_decide
                                     (name info
                                      = snakeCaseAppName ++ "-" ++ envName envInfo ++ "-rg")
                                then InteractiveCreateDefault
                                else InteractiveCreateCustomized
                              else InteractiveUseExisting))
                end).
    { unfold resolveResourceGroup. fold fromInputs fromConfig.
      by rewrite Hni, Hnc, Hst1. }
    destruct (askResourceGroupInfo _ _ _) as [info|e].
    + eexists. split; [by apply Hok|].
      rewrite !elem_of_cons.
      destruct (createNewResourceGroup info); [case_bool_decide|]; auto.
    + by rewrite (Herr _ Hres).
Qed.

(** ** The suffix of the resource names *)

Lemma substring_0_length (n : nat) (s : string) :
  n <= String.length s -> String.length (String.substring 0 n s) = n.
Proof.
  revert s. induction n as [|n IH]; intros s Hn.
  - by destruct s.
  - destruct s as [|c s]; simpl in *; [lia|]. rewrite IH; [done|lia].
Qed.

Lemma updateEnvInfoSubscription_suffix (st : ResourceStates) sub :
  Solution.str (updateEnvInfoSubscription st sub) "resourceNameSuffix"
  = Solution.str st "resourceNameSuffix".
Proof. unfold updateEnvInfoSubscription. by rewrite !Solution_str_set_ne. Qed.

Lemma compareWithStateSubscription_suffix (st st1 : ResourceStates) target stored r :
  compareWithStateSubscription st target stored = (st1, ok r) ->
  Solution.str st1 "resourceNameSuffix"
  = if hasSwitchedSubscription r then Some ""
    else Solution.str st "resourceNameSuffix".
Proof.
  unfold compareWithStateSubscription.
  destruct (_ && _); intros [= <- <-]; cbn [hasSwitchedSubscription].
  - unfold Solution.str, Solution.field.
    rewrite clearEnvInfoStateResource_solution. by simplify_map_eq.
  - apply updateEnvInfoSubscription_suffix.
Qed.

(** The subscription check blanks the stored suffix exactly when it
    reports a switch. *)
Lemma checkProvisionSubscription_suffix envInfo st1 r :
  check envInfo = (st1, ok r) ->
  Solution.str st1 "resourceNameSuffix"
  = if hasSwitchedSubscription r then Some ""
    else Solution.str (state envInfo) "resourceNameSuffix".
Proof.
  intros H. unfold checkProvisionSubscriptionWhenSwitchAccountEnabled in H.
  repeat match type of H with
         | context [if ?b then _ else _] => destruct b
         | context [match ?o with Some _ => _ | None => _ end] => destruct o
         end;
    first [ exact (compareWithStateSubscription_suffix _ _ _ _ _ H)
          | injection H as <- <-; apply updateEnvInfoSubscription_suffix
          | discriminate H ].
Qed.

(** C8, as amended. A run of fillInAzureConfigs that ends well stores as
    [state.solution.resourceNameSuffix]: the suffix of the config file
    when it has one; otherwise the suffix already in the state, provided
    the subscription has not switched; otherwise (no suffix anywhere, or
    a switch of subscription, which blanks the stored one) the first six
    characters of a fresh UUID, six characters long as soon as the UUID
    has six. *)
Theorem fillInAzureConfigs_resourceNameSuffix
    (inputs : Inputs) (envInfo : EnvInfoV3) (st' : ResourceStates)
    (events : list Event) (r : FillInAzureConfigsResult) :
  fill inputs envInfo = (st', events, ok r) ->
  let fromConfig := azure envInfo ≫= cfgResourceNameSuffix in
  let fromState := Solution.str (state envInfo) "resourceNameSuffix" in
  Solution.str st' "resourceNameSuffix"
    = Some (expectedResourceNameSuffix fromConfig fromState
              (fillHasSwitchedSubscription r) uuidv4) /\
  (truthyOpt fromConfig = true ->
     Solution.str st' "resourceNameSuffix" = fromConfig) /\
  (truthyOpt fromConfig = false -> truthyOpt fromState = true ->
   fillHasSwitchedSubscription r = false ->
     Solution.str st' "resourceNameSuffix" = fromState) /\
  (truthyOpt fromConfig = false ->
   truthyOpt fromState = false \/ fillHasSwitchedSubscription r = true ->
     Solution.str st' "resourceNameSuffix" = Some (String.substring 0 6 uuidv4) /\
     (6 <= String.length uuidv4 ->
        String.length (String.substring 0 6 uuidv4) = 6)).
Proof.
  intros Hfill fromConfig fromState.
  assert (Hmain : Solution.str st' "resourceNameSuffix"
            = Some (expectedResourceNameSuffix fromConfig fromState
                      (fillHasSwitchedSubscription r) uuidv4)).
  { revert Hfill. unfold fillInAzureConfigs.
    destruct (check envInfo) as [st1 [sub|e]] eqn:Hc; [|intros [=]].
    destruct (getAccountCredentialAsync _) as [token|]; [|intros [=]].
    destruct (resolveResourceGroup _ _ _ _ _ _ _ _ _) as [[info type]|e]; [|intros [=]].
    intros [= <- _ <-]. cbn [fillHasSwitchedSubscription].
    rewrite Solution_str_set_eq, !Solution_str_set_ne by done.
    rewrite (checkProvisionSubscription_suffix _ _ _ Hc).
    fold fromConfig fromState. f_equal.
    unfold expectedResourceNameSuffix, orElse.
    destruct (truthyOpt fromConfig) eqn:Hcfg; [by destruct fromConfig|].
    destruct (hasSwitchedSubscription sub); [done|].
    cbn [negb andb]. destruct (truthyOpt fromState) eqn:Hst; [by destruct fromState|done]. }
  split; [done|]. rewrite Hmain. unfold expectedResourceNameSuffix.
  clearbody fromConfig fromState. clear Hmain.
  repeat split.
  - intros Hc. rewrite Hc. by destruct fromConfig.
  - intros -> Hs ->. rewrite Hs. by destruct fromState.
  - destruct H0 as [-> | ->]; rewrite H, ?andb_false_r; done.
  - apply substring_0_length.
Qed.
End FillInAzureConfigsFacts.

Example fillInAzureConfigs_devState :
  runFill firstSubscription (devEnv devState)
  = (<["solution" := <["needCreateResourceGroup" := JBool false]> (Solution.get devState)]>
       devState,
     [CheckSubscriptionStart; CheckSubscription false; CheckResourceGroupStart;
      CheckResourceGroup (Some EnvState)],
     ok (mkFillResult false)).
Proof. vm_compute. reflexivity. Qed.

Lemma fillInAzureConfigs_resource_group_precedence_witness :
  resourceGroupChosen (runFill firstSubscription (devEnv devState))
    (mkResourceGroupInfo false "app-dev-rg" "East US") (Some EnvState).
Proof.
  assert (Hc : checkProvisionSubscriptionWhenSwitchAccountEnabled configFileOf
                 (signedInAccount firstSubscription) (devEnv devState)
               = (devState, ok (mkCheckResult false))).
  { vm_compute. reflexivity. }
  assert (Ht : getAccountCredentialAsync (signedInAccount firstSubscription)
               = Some (mkTokenCredential (Some "dev@contoso.com"))) by reflexivity.
  pose proof (fillInAzureConfigs_resource_group_precedence configFileOf
                (signedInAccount firstSubscription) lookupGroup groupExists pickShared
                "app" sampleUuid
                plainInputs (devEnv devState) devState (mkCheckResult false)
                (mkTokenCredential (Some "dev@contoso.com")) Hc Ht) as (_ & _ & H & _).
  assert (Hname : Solution.str devState "resourceGroupName" = Some "app-dev-rg").
  { vm_compute. reflexivity. }
  assert (Hloc : Solution.str devState "location" = Some "East US").
  { vm_compute. reflexivity. }
  assert (Hn1 : "app-dev-rg" ≠ "") by discriminate.
  assert (Hn2 : "East US" ≠ "") by discriminate.
  exact (H eq_refl eq_refl eq_refl "app-dev-rg" "East US" Hname Hn1 Hloc Hn2).
Defined.

(** C5 as stated fails: with no resource group in the inputs or in the
    config file, and the name "app-dev-rg" stored in the state without a
    location, the run does not take the stored name, although that
    group exists: it prompts, and targets the group the operator picks. *)
Lemma fillInAzureConfigs_state_name_without_location :
  let envInfo := devEnv devStateNoLocation in
  let out := runFill firstSubscription envInfo in
  targetResourceGroupName plainInputs = None /\
  azure envInfo ≫= cfgResourceGroupName = None /\
  Solution.str (state envInfo) "resourceGroupName" = Some "app-dev-rg" /\
  groupExists "app-dev-rg"
    (mkRmClient (mkTokenCredential (Some "dev@contoso.com")) (Some "S1")) = ok true /\
  Solution.str out.1.1 "resourceGroupName" = Some "shared-rg" /\
  out.1.2 = [CheckSubscriptionStart; CheckSubscription false; CheckResourceGroupStart;
             CheckResourceGroup (Some InteractiveUseExisting)].
Proof. vm_compute. repeat split; reflexivity. Qed.

Lemma fillInAzureConfigs_resourceNameSuffix_witness :
  Solution.str (runFill firstSubscription (devEnv devState)).1.1 "resourceNameSuffix"
  = Solution.str devState "resourceNameSuffix".
Proof.
  assert (Hrun : runFill firstSubscription (devEnv devState)
            = ((runFill firstSubscription (devEnv devState)).1.1,
               (runFill firstSubscription (devEnv devState)).1.2,
               ok (mkFillResult false))).
  { vm_compute. reflexivity. }
  pose proof (fillInAzureConfigs_resourceNameSuffix _ _ _ _ _ _ _ _ _ _ _ _ Hrun)
    as (_ & _ & H & _).
  apply H; vm_compute; reflexivity.
Defined.

(** C8 as stated fails: "dev" holds the suffix "a1b2c3" and the config
    file none; a run under another subscription ends well and stores a
    suffix minted anew. *)
Lemma fillInAzureConfigs_mints_again_after_switch :
  let envInfo := devEnv devState in
  let out := runFill secondSubscription envInfo in
  azure envInfo ≫= cfgResourceNameSuffix = None /\
  Solution.str (state envInfo) "resourceNameSuffix" = Some "a1b2c3" /\
  out.2 = ok (mkFillResult true) /\
  Solution.str out.1.1 "resourceNameSuffix" = Some "3f2504" /\
  Solution.str out.1.1 "resourceNameSuffix"
    ≠ Solution.str (state envInfo) "resourceNameSuffix".
Proof. vm_compute. repeat split; congruence. Qed.


(** ** Migration of the project settings *)

Section ProjectSettingsFacts.
Variable isVSProject : ProjectSettings -> bool.
Variable hasAzureResourceV3 : ProjectSettings -> bool.
Variable MessageExtensionNewUIItem_id : string.
Variable ensureComponentConnections : ProjectSettings -> list Component.

Local Abbreviation upgrade :=
  (convertProjectSettingsV2ToV3 isVSProject MessageExtensionNewUIItem_id
     ensureComponentConnections).
Local Abbreviation downgrade :=
  (convertProjectSettingsV3ToV2 hasAzureResourceV3 MessageExtensionNewUIItem_id).
Local Abbreviation build :=
  (buildComponents isVSProject MessageExtensionNewUIItem_id).

Lemma withComponents_twice s cs cs' :
  withComponents (withComponents s cs) cs' = withComponents s cs'.
Proof. reflexivity. Qed.

Lemma buildComponents_withComponents s cs ss :
  ignoresComponents isVSProject -> build (withComponents s cs) ss = build s ss.
Proof. intros Hvs. unfold buildComponents. rewrite Hvs. reflexivity. Qed.

(** Settings that have components come back as they are. *)
Lemma upgrade_upgraded s c cs :
  components s = Some (c :: cs) -> upgrade s = s.
Proof.
  intros Hc. unfold convertProjectSettingsV2ToV3. rewrite Hc.
  by destruct (solutionSettings s).
Qed.

Lemma upgrade_legacy s ss :
  solutionSettings s = Some ss ->
  (components s = None \/ components s = Some []) ->
  upgrade s
  = withComponents s (ensureComponentConnections (withComponents s (build s ss))).
Proof.
  intros Hs Hc. unfold convertProjectSettingsV2ToV3. rewrite Hs.
  by destruct Hc as [-> | ->].
Qed.

(** A second upgrade finds components and returns its argument, or finds
    none and builds the same ones again. *)
Lemma upgrade_twice s :
  ignoresComponents isVSProject -> upgrade (upgrade s) = upgrade s.
Proof.
  intros Hvs.
  destruct (solutionSettings s) as [ss|] eqn:Hs.
  2: { unfold convertProjectSettingsV2ToV3. rewrite Hs. simpl. by rewrite Hs. }
  destruct (components s) as [[|c cs]|] eqn:Hc.
  2: { by rewrite !(upgrade_upgraded s c cs). }
  all: rewrite (upgrade_legacy s ss) by auto.
  all: set (pushed := withComponents s (build s ss)).
  all: destruct (ensureComponentConnections pushed) as [|c cs] eqn:He;
    [|by erewrite upgrade_upgraded].
  all: rewrite (upgrade_legacy _ ss) by auto.
  all: rewrite buildComponents_withComponents, !withComponents_twice by done.
  all: fold pushed; by rewrite He.
Qed.

(** C2. For every project settings object, and so for every one of the
    legacy shape, upgrading twice gives what upgrading once gives
    ([isVSProject] being a function of the settings that does not read
    their components); and a second upgrade of settings that have a
    non-empty components array changes nothing: it returns them, and
    leaves them as they are. *)
Theorem convertProjectSettingsV2ToV3_idempotent (settings : ProjectSettings) :
  ignoresComponents isVSProject ->
  let once :=
    convertProjectSettingsV2ToV3 isVSProject MessageExtensionNewUIItem_id
      ensureComponentConnections settings in
  convertProjectSettingsV2ToV3 isVSProject MessageExtensionNewUIItem_id
    ensureComponentConnections once = once /\
  (forall c cs, components once = Some (c :: cs) ->
     argumentAfterUpgrade MessageExtensionNewUIItem_id once = once).
Proof.
  intros Hvs once. split; [by apply upgrade_twice|].
  intros c cs Hc. unfold argumentAfterUpgrade. rewrite Hc.
  by destruct (solutionSettings once).
Qed.

Lemma downgrade_legacy s :
  (components s = None \/ components s = Some []) -> downgrade s = s.
Proof.
  intros Hc. unfold convertProjectSettingsV3ToV2. by destruct Hc as [-> | ->].
Qed.

Lemma downgrade_keeps s :
  components (downgrade s) = components s /\
  appName (downgrade s) = appName s /\
  projectId (downgrade s) = projectId s /\
  programmingLanguage (downgrade s) = programmingLanguage s.
Proof.
  unfold convertProjectSettingsV3ToV2.
  destruct (components s) as [[|c cs]|] eqn:Hc; try done.
  repeat match goal with
         | |- context [match ?o with Some _ => _ | None => _ end] => destruct o
         end; done.
Qed.

(** Every downgrade of settings with components starts the plugin list
    with the same three plugins. *)
Lemma downgrade_solutionSettings s c cs :
  components s = Some (c :: cs) ->
  exists ss, solutionSettings (downgrade s) = Some ss /\
    take 3 (activeResourcePlugins ss)
    = ["fx-resource-local-debug"; "fx-resource-appstudio"; "fx-resource-cicd"].
Proof.
  intros Hc. unfold convertProjectSettingsV3ToV2. rewrite Hc.
  repeat match goal with
         | |- context [match ?o with Some _ => _ | None => _ end] => destruct o
         end; eexists; (split; [reflexivity|]); cbn [activeResourcePlugins];
    unfold pushIf; repeat case_bool_decide;
    repeat match goal with |- context [if ?b then _ else _] => destruct b end;
    reflexivity.
Qed.

(** C3, as amended. For every project settings object x,
    upgrade(downgrade(upgrade(x))) has the components of upgrade(x), and
    its appName, projectId and programmingLanguage. When upgrade(x) has no
    component it is upgrade(x); when upgrade(x) has components it is
    downgrade(upgrade(x)), whose solutionSettings, pluginSettings and
    defaultFunctionName are the ones the downgrade built from the
    components, not those of x. *)
Theorem upgrade_downgrade_upgrade_components (x : ProjectSettings) :
  ignoresComponents isVSProject ->
  let y := upgrade (downgrade (upgrade x)) in
  components y = components (upgrade x) /\
  appName y = appName (upgrade x) /\
  projectId y = projectId (upgrade x) /\
  programmingLanguage y = programmingLanguage (upgrade x) /\
  (components (upgrade x) = None \/ components (upgrade x) = Some [] ->
     y = upgrade x) /\
  (forall c cs, components (upgrade x) = Some (c :: cs) ->
     y = downgrade (upgrade x)).
Proof.
  intros Hvs y. subst y.
  destruct (components (upgrade x)) as [[|c cs]|] eqn:Hc.
  2: { pose proof (downgrade_keeps (upgrade x)) as (H1 & H2 & H3 & H4).
       rewrite (upgrade_upgraded (downgrade (upgrade x)) c cs) by congruence.
       rewrite H1, H2, H3, H4, Hc. repeat split; try done.
       intros [?|?]; done. }
  all: rewrite (downgrade_legacy (upgrade x)) by auto.
  all: rewrite upgrade_twice by done.
  all: rewrite Hc; repeat split; done.
Qed.

(** Whatever the helpers, the round trip differs from the upgrade as
    soon as the upgrade yields a component and the legacy plugin list
    does not start with the three plugins every downgrade starts with. *)
Lemma upgrade_downgrade_upgrade_differs_for x ss c cs :
  solutionSettings x = Some ss ->
  (components x = None \/ components x = Some []) ->
  ensureComponentConnections (withComponents x (build x ss)) = c :: cs ->
  take 3 (activeResourcePlugins ss)
    ≠ ["fx-resource-local-debug"; "fx-resource-appstudio"; "fx-resource-cicd"] ->
  upgrade (downgrade (upgrade x)) ≠ upgrade x.
Proof.
  intros Hs Hc He Hne.
  rewrite (upgrade_legacy x ss Hs Hc), He.
  set (u := withComponents x (c :: cs)).
  rewrite (upgrade_upgraded (downgrade u) c cs)
    by (by rewrite (proj1 (downgrade_keeps u))).
  destruct (downgrade_solutionSettings u c cs eq_refl) as (ss' & Hss' & Htake).
  intros Heq. rewrite Heq in Hss'. cbn in Hss'. congruence.
Qed.
End ProjectSettingsFacts.

Example upgrade_tabProject :
  components (upgradeTab tabProject)
  = Some [ mkComponent "aad-app" None (Some true) None None None None None None None None;
           mkComponent "teams-tab" (Some "azure-storage") (Some true) (Some true)
             (Some "tabs") None (Some false) None None None None;
           mkComponent "azure-storage" None (Some true) None None None None None
             (Some ["teams-tab"]) None None;
           component "identity" ].
Proof. vm_compute. reflexivity. Qed.

Lemma csharpProject_ignoresComponents : ignoresComponents csharpProject.
Proof. intros s cs. reflexivity. Qed.

Lemma convertProjectSettingsV2ToV3_idempotent_witness :
  upgradeTab (upgradeTab tabProject) = upgradeTab tabProject.
Proof.
  exact (proj1 (convertProjectSettingsV2ToV3_idempotent csharpProject "MessagingExtension"
                  keepComponents tabProject csharpProject_ignoresComponents)).
Defined.

Lemma upgrade_downgrade_upgrade_components_witness :
  components (upgradeTab (downgradeTab (upgradeTab tabProject)))
  = components (upgradeTab tabProject).
Proof.
  exact (proj1 (upgrade_downgrade_upgrade_components csharpProject hasAzureComponent
                  "MessagingExtension" keepComponents tabProject
                  csharpProject_ignoresComponents)).
Defined.

(** C3 as stated fails: for a legacy tab project, the plugin list of
    upgrade(x) is the one of x, while the one of
    upgrade(downgrade(upgrade(x))) is the list the downgrade built: the
    two settings differ. *)
Lemma upgrade_downgrade_upgrade_differs :
  activeResourcePlugins <$> solutionSettings (upgradeTab tabProject)
    = Some ["fx-resource-frontend-hosting"; "fx-resource-identity";
            "fx-resource-aad-app-for-teams"; "fx-resource-local-debug";
            "fx-resource-appstudio"; "fx-resource-simple-auth"] /\
  activeResourcePlugins <$> solutionSettings
      (upgradeTab (downgradeTab (upgradeTab tabProject)))
    = Some ["fx-resource-local-debug"; "fx-resource-appstudio"; "fx-resource-cicd";
            "fx-resource-api-connector"; "fx-resource-aad-app-for-teams";
            "fx-resource-frontend-hosting"; "fx-resource-identity"] /\
  upgradeTab (downgradeTab (upgradeTab tabProject)) ≠ upgradeTab tabProject.
Proof.
  split; [vm_compute; reflexivity|]. split; [vm_compute; reflexivity|].
  eapply (upgrade_downgrade_upgrade_differs_for _ _ _ _ tabProject);
    [reflexivity | by left | vm_compute; reflexivity | vm_compute; congruence].
Qed.


(** ** The consent dialog *)

Lemma countEvents_app p (xs ys : list Event) :
  countEvents p (xs ++ ys)%list = countEvents p xs + countEvents p ys.
Proof. unfold countEvents. by rewrite List.filter_app, length_app. Qed.

Section ConsentFacts.
Local Open Scope list_scope.
Variable getLocalizedString : string -> list string -> string.
Variable SolutionSource : string.
Variable azureAccountProvider : AzureAccountProvider.

Local Abbreviation provisionText := (provisionText getLocalizedString).
Local Abbreviation learnMoreText := (learnMoreText getLocalizedString).
Local Abbreviation loop := (confirmLoop getLocalizedString SolutionSource).
Local Abbreviation outcomeOf := (verdict getLocalizedString SolutionSource).

(** [n] times "Learn more", then another answer: [n] turns that open the
    documentation and ask again, and one that decides. *)
Lemma confirmLoop_learn_more message items telemetry n answer rest events :
  provisionText ≠ learnMoreText ->
  answer ≠ Some learnMoreText ->
  exists added,
    loop message items telemetry (repeat (Some learnMoreText) n ++ answer :: rest) events
      = (Done (outcomeOf answer), events ++ added, rest) /\
    countEvents (opensUrl provisionDocUrl) added = n /\
    countEvents showsMessage added = S n.
Proof.
  intros Hne Hans. revert events. induction n as [|n IH]; intros events.
  - cbn [repeat app confirmLoop]. unfold verdict.
    rewrite (bool_decide_eq_false_2 _ Hans).
    case_bool_decide; cbn [negb]; eexists; (split; [reflexivity|]); done.
  - cbn [repeat app confirmLoop].
    rewrite (bool_decide_eq_true_2 (Some learnMoreText = Some learnMoreText)) by done.
    rewrite (bool_decide_eq_false_2 (Some learnMoreText = Some provisionText))
      by congruence.
    cbn [negb].
    edestruct IH as (added & -> & Hopen & Hshow).
    eexists. rewrite <- !app_assoc. split; [reflexivity|].
    rewrite !countEvents_app, Hopen, Hshow. split.
    + unfold countEvents. cbn. by rewrite bool_decide_eq_true_2.
    + done.
Qed.

(** C6. When askForProvisionConsentNew shows its dialog (the operator is
    signed in to Azure, and there is a notice of a switch or an Azure
    resource; the two buttons bear different texts) and the operator
    answers "Learn more" [n] times and then something else, the
    documentation is opened [n] times and the dialog is shown [n + 1]
    times, each "Learn more" leading to a new prompt; the answers up to
    the deciding one are consumed and the state is untouched. If the
    deciding answer is "Provision" the result is ok; any other answer
    (another text, or none) gives the user error named "CancelProvision",
    a name no other error built by the reconciliation bears. *)
Theorem askForProvisionConsentNew_learn_more_loop
    (envInfoName : string) (hasSwitchedM365Tenant hasSwitchedSubscription : bool)
    (m365AccountName : option string) (hasAzureResource : bool)
    (azureToken : TokenCredential) (w : World)
    (n : nat) (answer : option string) (rest : list (option string)) :
  provisionText ≠ learnMoreText ->
  getAccountCredentialAsync azureAccountProvider = Some azureToken ->
  truthy (switchedNotice getLocalizedString (wState w)
            hasSwitchedM365Tenant hasSwitchedSubscription)
    || hasAzureResource = true ->
  wResponses w = repeat (Some learnMoreText) n ++ answer :: rest ->
  answer ≠ Some learnMoreText ->
  let out :=
    askForProvisionConsentNew getLocalizedString SolutionSource azureAccountProvider
      envInfoName hasSwitchedM365Tenant hasSwitchedSubscription
      m365AccountName hasAzureResource w in
  (exists added,
     wEvents out.2 = wEvents w ++ added /\
     countEvents (opensUrl provisionDocUrl) added = n /\
     countEvents showsMessage added = S n) /\
  wResponses out.2 = rest /\
  wState out.2 = wState w /\
  (answer = Some provisionText -> out.1 = Done (ok tt)) /\
  (answer ≠ Some provisionText ->
     out.1 = Done (err (CancelProvision SolutionSource)) /\
     errKind (CancelProvision SolutionSource) = UserErrorKind /\
     errName (CancelProvision SolutionSource) = "CancelProvision" /\
     errName (CancelProvision SolutionSource) ∉ otherErrorNames).
Proof.
  intros Hne Htoken Hshown Hresp Hans out. subst out.
  unfold askForProvisionConsentNew. rewrite Htoken.
  unfold bind, getState. cbn [fst snd].
  set (notice := switchedNotice _ _ _ _) in *.
  assert (Hgate : negb (truthy notice) && negb hasAzureResource = false).
  { destruct (truthy notice), hasAzureResource; done. }
  rewrite Hgate, Hresp.
  match goal with
  | |- context [loop ?m ?i ?t _ ?e] =>
      destruct (confirmLoop_learn_more m i t n answer rest e Hne Hans)
        as (added & -> & Hopen & Hshow)
  end.
  cbn [fst snd wEvents wResponses wState].
  split; [by exists added|]. split; [done|]. split; [done|].
  unfold verdict. split.
  - intros ->. by rewrite bool_decide_eq_true_2.
  - intros Hnp. rewrite (bool_decide_eq_false_2 _ Hnp).
    repeat split; try done.
    unfold otherErrorNames. cbn.
    rewrite !not_elem_of_cons. repeat split; try done. apply not_elem_of_nil.
Qed.
End ConsentFacts.

Lemma askForProvisionConsentNew_learn_more_loop_witness :
  let out :=
    askForProvisionConsentNew localized "Solution" (signedInAccount firstSubscription)
      "dev" true false (Some "dev@contoso.com") true
      (devWorld [Some (learnMoreText localized); Some (provisionText localized)]) in
  out.1 = Done (ok tt) /\
  (exists added,
     wEvents out.2 = ([] ++ added)%list /\
     countEvents (opensUrl provisionDocUrl) added = 1 /\
     countEvents showsMessage added = 2).
Proof.
  assert (Hne : provisionText localized ≠ learnMoreText localized) by discriminate.
  assert (Hans : Some (provisionText localized) ≠ Some (learnMoreText localized))
    by discriminate.
  pose proof (askForProvisionConsentNew_learn_more_loop localized "Solution"
                (signedInAccount firstSubscription) "dev" true false
                (Some "dev@contoso.com") true (mkTokenCredential (Some "dev@contoso.com"))
                (devWorld [Some (learnMoreText localized); Some (provisionText localized)])
                1 (Some (provisionText localized)) []
                Hne eq_refl eq_refl eq_refl Hans) as (H1 & _ & _ & H2 & _).
  split; [exact (H2 eq_refl) | exact H1].
Defined.


(** ** Reconciling the accounts: a changed tenant *)

Section TenantSwitchFacts.
Local Open Scope list_scope.
Variable getDefaultString : string -> string.
Variable getLocalizedString : string -> list string -> string.
Variable SolutionSource : string.
Variable InternelError : string.
Variable TeamsAppTenantIdNotRight : string.
Variable ARM_TEMPLATE_OUTPUT : string.
Variable doesAllowSwitchAccount : bool.
Variable m365TokenProvider : M365TokenProvider.
Variable ctx : Context.
Variable appStudioPlugin : ResourcePlugin.
Variable aadPlugin : ResourcePlugin.
Variable ensurePermissionRequest : Result unit.
Variable resetEnvInfoWhenSwitchM365 : ResourceStates -> ResourceStates.
Variable createNewResourceGroup : ResourceStates -> Result unit.
Variable handleConfigFilesWhenSwitchAccount :
  ResourceStates -> bool -> bool -> bool -> Result unit.
Variable hasBotServiceCreated : ResourceStates -> bool.
Variable deployArmTemplates : ResourceStates -> Result ResourceStates.
Variable getResourceGroupInPortal : ResourceStates -> option string.
Variable envConfigFileName : string -> string.
Variable azureAccountProvider : AzureAccountProvider.
Variable getResourceGroupInfo :
  string -> ResourceManagementClient -> Result (option ResourceGroupInfo).
Variable checkResourceGroupExistence :
  string -> ResourceManagementClient -> Result bool.
Variable askResourceGroupInfo :
  Inputs -> ResourceManagementClient -> string -> Result ResourceGroupInfo.
Variable snakeCaseAppName : string.
Variable uuidv4 : string.

Local Abbreviation fill :=
  (runFillInAzureConfigs envConfigFileName azureAccountProvider getResourceGroupInfo
     checkResourceGroupExistence askResourceGroupInfo snakeCaseAppName uuidv4).

(** Whatever it goes on to do, fillInAzureConfigs starts by reporting the
    check of the subscription: the event marks that it was reached. *)
Lemma runFillInAzureConfigs_leaves_event inputs envInfo w :
  exists rest,
    wEvents (fill inputs envInfo w).2 = wEvents w ++ CheckSubscriptionStart :: rest.
Proof.
  unfold runFillInAzureConfigs, fillInAzureConfigs.
  destruct (checkProvisionSubscriptionWhenSwitchAccountEnabled _ _ _) as [st1 [sub|e]];
    [|by eexists].
  destruct (getAccountCredentialAsync _); [|by eexists].
  destruct (resolveResourceGroup _ _ _ _ _ _ _ _ _) as [[info type]|e];
    cbn [snd wEvents]; rewrite <- ?app_assoc; by eexists.
Qed.

(** C4. When provisionResourceImpl reaches the comparison of the tenants
    (the inputs carry a project path, the M365 token is obtained and its
    claims carry a non-empty tenant id), the state stores a non-empty
    tenant id for the app registration that differs from the one of the
    token, and switching accounts is disabled, the run ends at once with
    the user error named by SolutionError.TeamsAppTenantIdNotRight, whose
    message is the localized "error.M365AccountNotMatch" for the
    environment. fillInAzureConfigs is not reached: it always reports the
    check of the subscription, and the run reports nothing at all; no
    answer of the operator is consumed, and the state is only given its
    "solution" entry if it had none. *)
Theorem provisionResourceImpl_tenant_switch_refused
    (inputs : Inputs) (envInfo : EnvInfoV3) (w : World)
    (path token tenantInToken storedTenant : string)
    (json app : gmap string Json) :
  projectPath inputs = Some path ->
  getAccessToken m365TokenProvider = ok token ->
  getJsonObject m365TokenProvider = ok json ->
  json !! "tid" = Some (JStr tenantInToken) ->
  tenantInToken ≠ "" ->
  wState w !! V1PluginNames.appStudio = Some app ->
  app !! "tenantId" = Some (JStr storedTenant) ->
  storedTenant ≠ "" ->
  tenantInToken ≠ storedTenant ->
  doesAllowSwitchAccount = false ->
  let out :=
    provisionResourceImpl getDefaultString getLocalizedString SolutionSource
      InternelError TeamsAppTenantIdNotRight ARM_TEMPLATE_OUTPUT
      doesAllowSwitchAccount m365TokenProvider ctx appStudioPlugin aadPlugin
      ensurePermissionRequest resetEnvInfoWhenSwitchM365 createNewResourceGroup
      handleConfigFilesWhenSwitchAccount hasBotServiceCreated deployArmTemplates
      getResourceGroupInPortal envConfigFileName azureAccountProvider
      getResourceGroupInfo checkResourceGroupExistence askResourceGroupInfo
      snakeCaseAppName uuidv4 inputs envInfo w in
  out.1 = Done (err (UserError "Solution" TeamsAppTenantIdNotRight
                       (getLocalizedString "error.M365AccountNotMatch"
                          [envName envInfo]))) /\
  wEvents out.2 = wEvents w /\
  (CheckSubscriptionStart ∉ drop (length (wEvents w)) (wEvents out.2)) /\
  (forall w0, exists rest,
     wEvents (fill inputs envInfo w0).2 = wEvents w0 ++ CheckSubscriptionStart :: rest) /\
  wResponses out.2 = wResponses w /\
  wState out.2 = ensureEntry Solution.GLOBAL_CONFIG (wState w).
Proof.
  intros Hpath Htoken Hjson Htid Htid_ne Happ Happ_tenant Hstored_ne Hdiff Hswitch out.
  assert (Hout : out = (Done (err (UserError "Solution" TeamsAppTenantIdNotRight
                                    (getLocalizedString "error.M365AccountNotMatch"
                                       [envName envInfo]))),
                        mkWorld (ensureEntry Solution.GLOBAL_CONFIG (wState w))
                          (wEvents w) (wResponses w))).
  { subst out. unfold provisionResourceImpl, reconcileAccounts. rewrite Hpath, Htoken.
    unfold bindOk, bind, ret, getState, modifyState. cbn [wState wEvents wResponses].
    unfold Localize.getM365TenantId. rewrite Htoken, Hjson, Htid, (truthy_ne _ Htid_ne).
    cbn [tenantIdInToken].
    rewrite (ensureEntry_present _ _ _ Happ), Happ. cbn [default]. unfold id.
    rewrite Happ_tenant.
    cbn [asString truthyOpt]. rewrite (truthy_ne _ Hstored_ne), (truthy_ne _ Htid_ne).
    rewrite bool_decide_eq_false_2 by congruence. rewrite Hswitch. cbn [andb negb].
    reflexivity. }
  rewrite Hout. cbn [fst snd wEvents wResponses wState].
  repeat split; try done.
  - rewrite drop_all. apply not_elem_of_nil.
  - apply runFillInAzureConfigs_leaves_event.
Qed.
End TenantSwitchFacts.

(** The pipeline on the development environment: the bot provisions and
    then fails to configure. *)
Example runProvision_devWorld :
  (runProvision false "T1" (devWorld [])).1 = Done (err botFailure) /\
  wEvents (runProvision false "T1" (devWorld [])).2
  = [SetProvisionSucceeded false; PluginProvision "fx-resource-appstudio";
     PluginProvision "fx-resource-bot"; PluginConfigure "fx-resource-bot"].
Proof. vm_compute. split; reflexivity. Qed.

Lemma provisionResourceImpl_tenant_switch_refused_witness :
  (runProvision false "T2" (devWorld [])).1
    = Done (err (UserError "Solution" "TeamsAppTenantIdNotRight"
                   (localized "error.M365AccountNotMatch" ["dev"]))) /\
  wEvents (runProvision false "T2" (devWorld [])).2 = [].
Proof.
  assert (Hne1 : "T2" ≠ "") by discriminate.
  assert (Hne2 : "T1" ≠ "") by discriminate.
  assert (Hne3 : "T2" ≠ "T1") by discriminate.
  assert (Happ : wState (devWorld []) !! V1PluginNames.appStudio
                 = Some {[ "tenantId" := JStr "T1"; "teamsAppId" := JStr "app" ]})
    by (vm_compute; reflexivity).
  assert (Htenant : ({[ "tenantId" := JStr "T1"; "teamsAppId" := JStr "app" ]}
                       : gmap string Json) !! "tenantId" = Some (JStr "T1"))
    by (vm_compute; reflexivity).
  pose proof (provisionResourceImpl_tenant_switch_refused id localized "Solution"
                "InternelError" "TeamsAppTenantIdNotRight" "armTemplateOutput" false
                (m365Account "T2") botProject appStudio aad
                (ok tt) (fun st => st) (fun _ => ok tt) (fun _ _ _ _ => ok tt)
                (fun _ => false) (fun st => ok st) (fun _ => None)
                configFileOf (signedInAccount firstSubscription) lookupGroup groupExists
                pickShared "app" sampleUuid
                plainInputs (devEnv devState) (devWorld [])
                "./" "token" "T2" "T1"
                {[ "tid" := JStr "T2"; "upn" := JStr "dev@contoso.com" ]}
                {[ "tenantId" := JStr "T1"; "teamsAppId" := JStr "app" ]}
                eq_refl eq_refl eq_refl eq_refl Hne1 Happ Htenant Hne2 Hne3 eq_refl)
    as (H1 & H2 & _).
  split; [exact H1 | exact H2].
Defined.


(** ** The flag of a finished provision *)

Section AddsOnly.
Local Open Scope list_scope.
Context (accept : Event -> bool).

Lemma addsOnly_ret {A} (a : A) : addsOnly accept (ret a).
Proof. intros w. exists []. by rewrite app_nil_r. Qed.

Lemma addsOnly_throw {A} what : addsOnly accept (@throw A what).
Proof. intros w. exists []. by rewrite app_nil_r. Qed.

Lemma addsOnly_getState : addsOnly accept getState.
Proof. intros w. exists []. by rewrite app_nil_r. Qed.

Lemma addsOnly_modifyState f : addsOnly accept (modifyState f).
Proof. intros w. exists []. cbn. by rewrite app_nil_r. Qed.

Lemma addsOnly_emit e : accept e = true -> addsOnly accept (emit e).
Proof. intros He w. exists [e]. cbn. by rewrite He. Qed.

Lemma addsOnly_bind {A B} (m : M A) (k : A -> M B) :
  addsOnly accept m -> (forall a, addsOnly accept (k a)) -> addsOnly accept (bind m k).
Proof.
  intros Hm Hk w. unfold bind. destruct (Hm w) as (added & Hev & Hok).
  destruct (m w) as [[a|what|] w1]; cbn [snd] in *.
  - destruct (Hk a w1) as (added' & Hev' & Hok').
    exists (added ++ added'). rewrite Hev', Hev, app_assoc. split; [done|].
    by rewrite forallb_app, Hok, Hok'.
  - by exists added.
  - by exists added.
Qed.

Lemma addsOnly_bindOk {A B} (m : M (Result A)) (k : A -> M (Result B)) :
  addsOnly accept m -> (forall a, addsOnly accept (k a)) -> addsOnly accept (bindOk m k).
Proof.
  intros Hm Hk. apply addsOnly_bind; [done|].
  intros [a|e]; [apply Hk|apply addsOnly_ret].
Qed.

Lemma addsOnly_when b m : addsOnly accept m -> addsOnly accept (when b m).
Proof. destruct b; [done|]. intros _. apply addsOnly_ret. Qed.
End AddsOnly.

Ltac adds_only :=
  repeat match goal with
         | |- forall _, _ => intros ?
         | |- addsOnly _ (ret _) => apply addsOnly_ret
         | |- addsOnly _ (throw _) => apply addsOnly_throw
         | |- addsOnly _ getState => apply addsOnly_getState
         | |- addsOnly _ (modifyState _) => apply addsOnly_modifyState
         | |- addsOnly _ (emit _) => apply addsOnly_emit; reflexivity
         | |- addsOnly _ (when _ _) => apply addsOnly_when
         | |- addsOnly _ (bindOk _ _) => apply addsOnly_bindOk
         | |- addsOnly _ (bind _ _) => apply addsOnly_bind
         | |- addsOnly _ (if ?b then _ else _) => destruct b
         | |- addsOnly _ (match ?o with Some _ => _ | None => _ end) => destruct o
         | |- addsOnly _ (match ?o with ok _ => _ | err _ => _ end) => destruct o
         end.

Section FlagFacts.
Local Open Scope list_scope.

Lemma steady_ret {A} (a : A) : steady (ret a).
Proof. intros w H. split; [done|]. exists []. by rewrite app_nil_r. Qed.

Lemma steady_getState : steady getState.
Proof. intros w H. split; [done|]. exists []. by rewrite app_nil_r. Qed.

Lemma steady_emit e : quietEvent e = true -> steady (emit e).
Proof. intros He w H. split; [done|]. exists [e]. cbn. by rewrite He. Qed.

Lemma steady_modifyState f :
  (forall st, provisionSucceeded (f st) = provisionSucceeded st) ->
  steady (modifyState f).
Proof.
  intros Hf w H. cbn. rewrite Hf. split; [done|]. exists []. by rewrite app_nil_r.
Qed.

Lemma steady_bind {A B} (m : M A) (k : A -> M B) :
  steady m -> (forall a, steady (k a)) -> steady (bind m k).
Proof.
  intros Hm Hk w H. unfold bind. destruct (Hm w H) as (Hflag & added & Hev & Hq).
  destruct (m w) as [[a|what|] w1]; cbn [snd] in *.
  - destruct (Hk a w1 Hflag) as (Hflag' & added' & Hev' & Hq').
    split; [done|]. exists (added ++ added').
    rewrite Hev', Hev, app_assoc. split; [done|]. by rewrite forallb_app, Hq, Hq'.
  - split; [done|]. by exists added.
  - split; [done|]. by exists added.
Qed.

Lemma raisesFlagAtEnd_fail (m : M (Result unit)) :
  steady m -> (forall w, (m w).1 ≠ Done (ok tt)) -> raisesFlagAtEnd m.
Proof.
  intros Hm Hne w H. destruct (Hm w H) as (Hflag & added & Hev & Hq).
  exists added. split; [done|]. right. by repeat split.
Qed.

Lemma raisesFlagAtEnd_ret_err e : raisesFlagAtEnd (ret (err e)).
Proof. apply raisesFlagAtEnd_fail; [apply steady_ret|done]. Qed.

Lemma raisesFlagAtEnd_throw what : raisesFlagAtEnd (throw what).
Proof.
  apply raisesFlagAtEnd_fail; [|by intros w; cbn].
  intros w H. split; [done|]. exists []. by rewrite app_nil_r.
Qed.

Lemma raisesFlagAtEnd_bind {A} (m : M A) (k : A -> M (Result unit)) :
  steady m -> (forall a, raisesFlagAtEnd (k a)) -> raisesFlagAtEnd (bind m k).
Proof.
  intros Hm Hk w H. unfold bind. destruct (Hm w H) as (Hflag & added & Hev & Hq).
  destruct (m w) as [[a|what|] w1]; cbn [fst snd] in *.
  - destruct (Hk a w1 Hflag) as (mid & Hmid & Hcases).
    exists (added ++ mid). rewrite forallb_app, Hq, Hmid. split; [done|].
    rewrite <- ?app_assoc. rewrite Hev, <- ?app_assoc in Hcases. done.
  - exists added. split; [done|]. right. by repeat split.
  - exists added. split; [done|]. right. by repeat split.
Qed.

Lemma raisesFlagAtEnd_bindOk {A} (m : M (Result A)) (k : A -> M (Result unit)) :
  steady m -> (forall a, raisesFlagAtEnd (k a)) -> raisesFlagAtEnd (bindOk m k).
Proof.
  intros Hm Hk. apply raisesFlagAtEnd_bind; [done|].
  intros [a|e]; [apply Hk|apply raisesFlagAtEnd_ret_err].
Qed.

Lemma raisesFlagAtEnd_start (rest : M (Result unit)) w :
  raisesFlagAtEnd rest ->
  let m := modifyState (Solution.set "provisionSucceeded" (JBool false)) >>
           emit (SetProvisionSucceeded false) >> rest in
  exists mid,
    forallb quietEvent mid = true /\
    (((m w).1 = Done (ok tt) /\
      wEvents (m w).2
        = wEvents w ++ SetProvisionSucceeded false :: mid ++ [SetProvisionSucceeded true] /\
      provisionSucceeded (wState (m w).2) = Some (JBool true))
     \/
     ((m w).1 ≠ Done (ok tt) /\
      wEvents (m w).2 = wEvents w ++ SetProvisionSucceeded false :: mid /\
      provisionSucceeded (wState (m w).2) = Some (JBool false))).
Proof.
  intros Hrest m.
  set (w1 := mkWorld (Solution.set "provisionSucceeded" (JBool false) (wState w))
               (wEvents w ++ [SetProvisionSucceeded false]) (wResponses w)).
  assert (Hm : m w = rest w1) by reflexivity.
  destruct (Hrest w1) as (mid & Hmid & Hcases).
  { unfold provisionSucceeded, Solution.field. cbn [w1 wState].
    rewrite Solution_get_set. by simplify_map_eq. }
  exists mid. split; [done|]. rewrite Hm. cbn [w1 wEvents] in Hcases.
  rewrite <- !app_assoc in Hcases. exact Hcases.
Qed.

Lemma bind_getState {A} (k : ResourceStates -> M A) w :
  bind getState k w = k (wState w) w.
Proof. reflexivity. Qed.

Lemma bind_modifyState {A} f (k : unit -> M A) w :
  bind (modifyState f) k w = k tt (mkWorld (f (wState w)) (wEvents w) (wResponses w)).
Proof. reflexivity. Qed.

Lemma runThunks_steady phase thunks :
  (forall name, quietEvent (phase name) = true) ->
  Forall (fun t => keepsFlag t.2) thunks ->
  steady (runThunks phase thunks).
Proof.
  intros Hphase. induction 1 as [|[name thunk] thunks Hkeeps _ IH]; cbn [runThunks].
  { apply steady_ret. }
  apply steady_bind; [by apply steady_emit|intros _].
  intros w Hflag. rewrite !bind_getState.
  specialize (Hkeeps (wState w)). cbn [snd] in Hkeeps.
  destruct (thunk (wState w)) as [st' r]. cbn [fst] in Hkeeps.
  rewrite !bind_modifyState.
  apply (steady_bind _ _ IH (fun rs => steady_ret (r :: rs))
           (mkWorld st' (wEvents w) (wResponses w))).
  cbn [wState]. congruence.
Qed.

Lemma executeConcurrently_steady phase thunks :
  (forall name, quietEvent (phase name) = true) ->
  Forall (fun t => keepsFlag t.2) thunks ->
  steady (executeConcurrently phase thunks).
Proof.
  intros. apply steady_bind; [by apply runThunks_steady|]. intros; apply steady_ret.
Qed.

Lemma confirmLoop_events gls source message items telemetry responses events :
  exists added,
    (confirmLoop gls source message items telemetry responses events).1.2
      = events ++ added /\
    forallb isPreludeEvent added = true.
Proof.
  revert events. induction responses as [|confirm rest IH]; intros events.
  { exists []. by rewrite app_nil_r. }
  cbn [confirmLoop].
  repeat match goal with
         | |- context [if ?b then _ else _] => destruct b eqn:?
         end;
    try (edestruct IH as (added & -> & Hok); eexists; rewrite <- !app_assoc;
         split; [reflexivity|]; cbn; exact Hok);
    (eexists; split; [reflexivity | reflexivity]).
Qed.


(** ** A phase, thunk by thunk *)

Lemma bind_emit {A} e (k : unit -> M A) w :
  bind (emit e) k w = k tt (mkWorld (wState w) (wEvents w ++ [e]) (wResponses w)).
Proof. reflexivity. Qed.

Lemma bind_ret_world {A B} (m : M A) (f : A -> B) w :
  (bind m (fun a => ret (f a)) w).2 = (m w).2.
Proof. unfold bind. by destruct (m w) as [[a|what|] w']. Qed.

Lemma runThunks_cons phase name thunk rest w :
  runThunks phase ((name, thunk) :: rest) w
  = bind (runThunks phase rest) (fun rs => ret ((thunk (wState w)).2 :: rs))
      (mkWorld (thunk (wState w)).1 (wEvents w ++ [phase name]) (wResponses w)).
Proof.
  cbn [runThunks]. rewrite bind_emit, bind_getState. cbn [wState].
  by destruct (thunk (wState w)) as [st' r].
Qed.

(** No thunk throws or waits: a phase always gives the list of its results. *)
Lemma runThunks_done phase thunks w :
  exists results, (runThunks phase thunks w).1 = Done results.
Proof.
  revert w. induction thunks as [|[name thunk] rest IH]; intros w.
  { by exists []. }
  rewrite runThunks_cons. unfold bind.
  destruct (IH (mkWorld (thunk (wState w)).1 (wEvents w ++ [phase name]) (wResponses w)))
    as [rs Hrs].
  destruct (runThunks phase rest _) as [[rs'|what|] w']; cbn [fst] in Hrs; try done.
  by eexists.
Qed.

Lemma runThunks_app_world phase pre post w :
  (runThunks phase (pre ++ post) w).2
  = (runThunks phase post (runThunks phase pre w).2).2.
Proof.
  revert w. induction pre as [|[name thunk] pre IH]; intros w; [done|].
  rewrite <- app_comm_cons, !runThunks_cons, !bind_ret_world. apply IH.
Qed.

(** The thunk that comes after [pre] is applied to the state [pre] left. *)
Lemma runThunks_snoc_world phase pre name thunk w :
  let before := (runThunks phase pre w).2 in
  (runThunks phase (pre ++ [(name, thunk)]) w).2
  = mkWorld (thunk (wState before)).1 (wEvents before ++ [phase name])
      (wResponses before).
Proof.
  intros before. rewrite runThunks_app_world. fold before.
  by rewrite runThunks_cons, bind_ret_world.
Qed.

Lemma bind_executeConcurrently {A} phase thunks (k : ExecutionResult -> M A) w :
  bind (executeConcurrently phase thunks) k w
  = match runThunks phase thunks w with
    | (Done results, w') => k (aggregate results) w'
    | (Throws what, w') => (Throws what, w')
    | (Waits, w') => (Waits, w')
    end.
Proof.
  unfold executeConcurrently, bind. by destruct (runThunks _ _ _) as [[rs|what|] w'].
Qed.

Lemma firstError_someFailed results :
  someFailed results -> exists e, firstError results = Some e /\ err e ∈ results.
Proof.
  unfold someFailed, firstError.
  induction 1 as [[[]|e] rest Herr|[[]|e] rest _ IH]; cbn in *; try done.
  - exists e. split; [done|]. apply elem_of_cons. by left.
  - destruct IH as (e & He & Hin). exists e. split; [done|].
    apply elem_of_cons. by right.
  - exists e. split; [done|]. apply elem_of_cons. by left.
Qed.

Lemma firstError_allSucceeded results :
  allSucceeded results <-> firstError results = None.
Proof.
  unfold allSucceeded, firstError. split.
  - induction 1 as [|[[]|e] rest Hok _ IH]; cbn in *; done.
  - induction results as [|[[]|e] rest IH]; cbn; intros H.
    + constructor.
    + constructor; [done|]. by apply IH.
    + done.
Qed.

Lemma aggregate_firstError results :
  match firstError results with
  | Some e => aggregate results = failure e \/ aggregate results = partialSuccess e
  | None => aggregate results = success
  end.
Proof.
  unfold aggregate. destruct (firstError results); [|done].
  destruct (forallb _ _); auto.
Qed.

End FlagFacts.

Section ProvisionFlagFacts.
Local Open Scope list_scope.
Variable getDefaultString : string -> string.
Variable getLocalizedString : string -> list string -> string.
Variable SolutionSource : string.
Variable InternelError : string.
Variable TeamsAppTenantIdNotRight : string.
Variable ARM_TEMPLATE_OUTPUT : string.
Variable doesAllowSwitchAccount : bool.
Variable m365TokenProvider : M365TokenProvider.
Variable ctx : Context.
Variable appStudioPlugin : ResourcePlugin.
Variable aadPlugin : ResourcePlugin.
Variable ensurePermissionRequest : Result unit.
Variable resetEnvInfoWhenSwitchM365 : ResourceStates -> ResourceStates.
Variable createNewResourceGroup : ResourceStates -> Result unit.
Variable handleConfigFilesWhenSwitchAccount :
  ResourceStates -> bool -> bool -> bool -> Result unit.
Variable hasBotServiceCreated : ResourceStates -> bool.
Variable deployArmTemplates : ResourceStates -> Result ResourceStates.
Variable getResourceGroupInPortal : ResourceStates -> option string.
Variable envConfigFileName : string -> string.
Variable azureAccountProvider : AzureAccountProvider.
Variable getResourceGroupInfo :
  string -> ResourceManagementClient -> Result (option ResourceGroupInfo).
Variable checkResourceGroupExistence :
  string -> ResourceManagementClient -> Result bool.
Variable askResourceGroupInfo :
  Inputs -> ResourceManagementClient -> string -> Result ResourceGroupInfo.
Variable snakeCaseAppName : string.
Variable uuidv4 : string.

Local Abbreviation provision :=
  (provisionResourceImpl getDefaultString getLocalizedString SolutionSource
     InternelError TeamsAppTenantIdNotRight ARM_TEMPLATE_OUTPUT
     doesAllowSwitchAccount m365TokenProvider ctx appStudioPlugin aadPlugin
     ensurePermissionRequest resetEnvInfoWhenSwitchM365 createNewResourceGroup
     handleConfigFilesWhenSwitchAccount hasBotServiceCreated deployArmTemplates
     getResourceGroupInPortal envConfigFileName azureAccountProvider
     getResourceGroupInfo checkResourceGroupExistence askResourceGroupInfo
     snakeCaseAppName uuidv4).
Local Abbreviation reconcile :=
  (reconcileAccounts getDefaultString getLocalizedString SolutionSource
     InternelError TeamsAppTenantIdNotRight
     doesAllowSwitchAccount m365TokenProvider ctx
     ensurePermissionRequest resetEnvInfoWhenSwitchM365 createNewResourceGroup
     handleConfigFilesWhenSwitchAccount hasBotServiceCreated
     envConfigFileName azureAccountProvider
     getResourceGroupInfo checkResourceGroupExistence askResourceGroupInfo
     snakeCaseAppName uuidv4).
Local Abbreviation phases :=
  (runPhases getLocalizedString ARM_TEMPLATE_OUTPUT ctx appStudioPlugin aadPlugin
     deployArmTemplates getResourceGroupInPortal).
Local Abbreviation fill :=
  (runFillInAzureConfigs envConfigFileName azureAccountProvider getResourceGroupInfo
     checkResourceGroupExistence askResourceGroupInfo snakeCaseAppName uuidv4).
Local Abbreviation ask :=
  (askForProvisionConsentNew getLocalizedString SolutionSource azureAccountProvider).

Lemma askForProvisionConsentNew_addsOnly name m365 sub account azureRes :
  addsOnly isPreludeEvent (ask name m365 sub account azureRes).
Proof.
  unfold askForProvisionConsentNew.
  destruct (getAccountCredentialAsync _); [|apply addsOnly_throw].
  apply addsOnly_bind; [apply addsOnly_getState|intros st].
  destruct (_ && _); [apply addsOnly_ret|].
  intros w.
  match goal with
  | |- context [confirmLoop ?g ?s ?m ?i ?t ?r ?e] =>
      destruct (confirmLoop_events g s m i t r e) as (added & Hev & Hok);
      destruct (confirmLoop g s m i t r e) as [[o ev] rs]
  end.
  exists added. cbn in *. by subst.
Qed.

Lemma runFillInAzureConfigs_addsOnly inputs envInfo :
  addsOnly isPreludeEvent (fill inputs envInfo).
Proof.
  intros w. unfold runFillInAzureConfigs, fillInAzureConfigs.
  destruct (checkProvisionSubscriptionWhenSwitchAccountEnabled _ _ _) as [st1 [sub|e]];
    [|by eexists].
  destruct (getAccountCredentialAsync _); [|by eexists].
  destruct (resolveResourceGroup _ _ _ _ _ _ _ _ _) as [[info type]|e];
    by eexists.
Qed.

Lemma reconcileAccounts_addsOnly inputs envInfo :
  addsOnly isPreludeEvent (reconcile inputs envInfo).
Proof.
  unfold reconcileAccounts.
  destruct (projectPath inputs); [|apply addsOnly_ret].
  repeat first
    [ apply askForProvisionConsentNew_addsOnly
    | apply runFillInAzureConfigs_addsOnly
    | progress adds_only ].
Qed.

Lemma thunksOf_provision_keepsFlag plugins :
  Forall pluginKeepsFlag plugins ->
  Forall (fun t => keepsFlag t.2) (thunksOf provisionResource true plugins).
Proof.
  induction 1 as [|p plugins (Hp & _ & _) _ IH]; [constructor|].
  unfold thunksOf. cbn [omap list_omap]. fold (thunksOf provisionResource true plugins).
  destruct (provisionResource p) as [run|] eqn:Hrun; [|done].
  constructor; [|done]. intros st.
  etrans; [apply (Hp run eq_refl)|apply Solution_field_ensureEntry].
Qed.

Lemma thunksOf_configure_keepsFlag plugins :
  Forall pluginKeepsFlag plugins ->
  Forall (fun t => keepsFlag t.2) (thunksOf configureResource false plugins).
Proof.
  induction 1 as [|p plugins (_ & Hp & _) _ IH]; [constructor|].
  unfold thunksOf. cbn [omap list_omap]. fold (thunksOf configureResource false plugins).
  destruct (configureResource p) as [run|] eqn:Hrun; [|done].
  constructor; [|done]. intros st. cbn [snd]. by apply Hp.
Qed.

Lemma foldl_ensureEntry_flag (plugins : list ResourcePlugin) st :
  provisionSucceeded (foldl (fun st p => ensureEntry (pluginName p) st) st plugins)
  = provisionSucceeded st.
Proof.
  revert st. induction plugins as [|p plugins IH]; intros st; [done|].
  cbn [foldl]. rewrite IH. apply Solution_field_ensureEntry.
Qed.

Local Abbreviation plugins := (pluginsOfRun ctx appStudioPlugin).
Local Abbreviation provisionOf := (provisionPhase ctx appStudioPlugin).
Local Abbreviation deploy := (deployment ctx deployArmTemplates).
Local Abbreviation register := (aadUserTask ctx appStudioPlugin aadPlugin).
Local Abbreviation configure := (configurePhase ctx appStudioPlugin).

Lemma deployment_done inputs w : exists r, (deploy inputs w).1 = Done r.
Proof.
  unfold deployment. destruct (_ && _); [|by eexists].
  rewrite bind_emit, bind_getState. destruct (deployArmTemplates _); by eexists.
Qed.

Lemma aadUserTask_done w : exists r, (register w).1 = Done r.
Proof.
  unfold aadUserTask. destruct (executeUserTask aadPlugin) as [task|]; [|by eexists].
  destruct (existsb _ _); [|by eexists].
  rewrite bind_emit, bind_getState. destruct (task _). by eexists.
Qed.

(** The phases of a run are the phases above, one after the other, each
    begun in the world the one before left, and the run stops at the
    first that fails. *)
Lemma runPhases_by_phase inputs w :
  let provisioned := provisionOf (flagCleared w) in
  let deployed := deploy inputs provisioned.2 in
  let registered := register deployed.2 in
  let configured := configure registered.2 in
  exists results,
    provisioned.1 = Done results /\
    match firstError results with
    | Some e => phases inputs w = (Done (err e), provisioned.2)
    | None =>
        match wState provisioned.2 !! V1PluginNames.appStudio with
        | None => exists what, phases inputs w = (Throws what, provisioned.2)
        | Some _ =>
            match deployed.1 with
            | Done (err e) => phases inputs w = (Done (err e), deployed.2)
            | Done (ok _) =>
                match registered.1 with
                | Done (err e) => phases inputs w = (Done (err e), registered.2)
                | Done (ok _) =>
                    exists results',
                      configured.1 = Done results' /\
                      match firstError results' with
                      | Some e => phases inputs w = (Done (err e), configured.2)
                      | None =>
                          (phases inputs w).1 = Done (ok tt) /\
                          wState (phases inputs w).2
                          = Solution.set "provisionSucceeded" (JBool true)
                              (<[Solution.GLOBAL_CONFIG :=
                                   delete ARM_TEMPLATE_OUTPUT
                                     (Solution.get (wState configured.2))]>
                                 (wState configured.2))
                      end
                | _ => False
                end
            | _ => False
            end
        end
    end.
Proof.
  intros provisioned deployed registered configured.
  destruct (runThunks_done PluginProvision (thunksOf provisionResource true plugins)
              (flagCleared w)) as [results Hres].
  exists results. split; [exact Hres|].
  remember (phases inputs w) as out eqn:Hout.
  unfold runPhases in Hout.
  rewrite bind_modifyState, bind_emit, bind_getState in Hout.
  cbn [wState wEvents wResponses] in Hout.
  fold (flagCleared w) in Hout.
  set (ps := if isExistingTabApp ctx && _ then _ else _) in Hout.
  change ps with plugins in Hout. clear ps.
  rewrite bind_executeConcurrently in Hout.
  change (runThunks PluginProvision (thunksOf provisionResource true plugins)
            (flagCleared w)) with provisioned in Hout, Hres.
  pose proof (aggregate_firstError results) as Hagg.
  destruct provisioned as [[rs|what|] wP]; cbn [fst snd] in *; try done.
  injection Hres as ->.
  destruct (firstError results) as [e|].
  { destruct Hagg as [Hagg | Hagg]; rewrite Hagg in Hout; exact Hout. }
  rewrite Hagg, bind_getState in Hout.
  destruct (wState wP !! V1PluginNames.appStudio) as [app|]; [|by eexists].
  unfold bindOk at 1 in Hout. unfold bind at 1 in Hout.
  change (if isAzureProject ctx && negb (isForUT inputs) && hasAzureResource ctx
          then _ else _) with (deploy inputs) in Hout.
  change (deploy inputs wP) with deployed in Hout.
  destruct (deployment_done inputs wP) as [r Hr].
  change (deploy inputs wP) with deployed in Hr.
  destruct deployed as [[[[]|e]|what|] wD]; cbn [fst snd] in *; try done.
  unfold bindOk at 1 in Hout. unfold bind at 1 in Hout.
  match type of Hout with
  | context [match ?m wD with _ => _ end] => change m with register in Hout
  end.
  change (register wD) with registered in Hout.
  destruct (aadUserTask_done wD) as [r' Hr'].
  change (register wD) with registered in Hr'.
  destruct registered as [[[[]|e]|what|] wR]; cbn [fst snd] in *; try done.
  rewrite bind_modifyState, bind_executeConcurrently in Hout.
  match type of Hout with
  | context [runThunks PluginConfigure ?thunks ?w'] =>
      destruct (runThunks_done PluginConfigure thunks w') as [results' Hres'];
      change (runThunks PluginConfigure thunks w') with configured in Hout, Hres'
  end.
  exists results'. split; [exact Hres'|].
  pose proof (aggregate_firstError results') as Hagg'.
  destruct configured as [[rs|what|] wC]; cbn [fst snd] in *; try done.
  injection Hres' as ->.
  destruct (firstError results') as [e|].
  { destruct Hagg' as [Hagg' | Hagg']; rewrite Hagg' in Hout; exact Hout. }
  rewrite Hagg' in Hout.
  rewrite bind_modifyState, bind_emit, bind_modifyState, bind_emit in Hout.
  by subst out.
Qed.

Hypothesis plugins_keep_flag :
  Forall pluginKeepsFlag (appStudioPlugin :: aadPlugin :: getSelectedPlugins ctx).
Hypothesis arm_keeps_flag : armKeepsFlag deployArmTemplates.

Lemma runPhases_flag inputs w :
  exists mid,
    forallb quietEvent mid = true /\
    (((phases inputs w).1 = Done (ok tt) /\
      wEvents (phases inputs w).2
        = wEvents w ++ SetProvisionSucceeded false :: mid ++ [SetProvisionSucceeded true] /\
      provisionSucceeded (wState (phases inputs w).2) = Some (JBool true))
     \/
     ((phases inputs w).1 ≠ Done (ok tt) /\
      wEvents (phases inputs w).2 = wEvents w ++ SetProvisionSucceeded false :: mid /\
      provisionSucceeded (wState (phases inputs w).2) = Some (JBool false))).
Proof.
  apply Forall_cons in plugins_keep_flag as [Happ [Haad Hsel]%Forall_cons].
  unfold runPhases.
  set (plugins := if _ && _ then _ else _).
  assert (Hplugins : Forall pluginKeepsFlag plugins).
  { subst plugins. destruct (_ && _); [|done]. apply Forall_app. split; [done|].
    by constructor. }
  clearbody plugins.
  apply raisesFlagAtEnd_start.
  apply raisesFlagAtEnd_bind; [apply steady_getState|intros solutionInputs].
  apply raisesFlagAtEnd_bind.
  { apply executeConcurrently_steady; [done|by apply thunksOf_provision_keepsFlag]. }
  intros [|e|e]; try apply raisesFlagAtEnd_ret_err.
  apply raisesFlagAtEnd_bind; [apply steady_getState|intros st].
  destruct (st !! V1PluginNames.appStudio); [|apply raisesFlagAtEnd_throw].
  apply raisesFlagAtEnd_bindOk.
  { destruct (_ && _); [|apply steady_ret].
    apply steady_bind; [by apply steady_emit|intros _].
    intros w' Hflag. rewrite !bind_getState.
    destruct (deployArmTemplates (wState w')) as [update|e] eqn:Harm.
    - rewrite !bind_modifyState. cbn [ret snd wState wEvents].
      split; [by rewrite (arm_keeps_flag _ _ Harm)|].
      exists []. by rewrite app_nil_r.
    - by apply steady_ret. }
  intros _. apply raisesFlagAtEnd_bindOk.
  { destruct (executeUserTask aadPlugin) as [task|] eqn:Htask; [|apply steady_ret].
    destruct (existsb _ _); [|apply steady_ret].
    apply steady_bind; [by apply steady_emit|intros _].
    intros w' Hflag. rewrite !bind_getState.
    destruct Haad as (_ & _ & Htask').
    specialize (Htask' task Htask (wState w')).
    destruct (task (wState w')) as [st' r]. cbn [fst] in Htask'.
    rewrite !bind_modifyState. cbn [ret snd wState wEvents].
    split; [congruence|]. exists []. by rewrite app_nil_r. }
  intros _. apply raisesFlagAtEnd_bind.
  { apply steady_modifyState. intros st'. apply foldl_ensureEntry_flag. }
  intros _. apply raisesFlagAtEnd_bind.
  { apply executeConcurrently_steady; [done|by apply thunksOf_configure_keepsFlag]. }
  intros [|e|e]; try apply raisesFlagAtEnd_ret_err.
  intros w' Hflag.
  match goal with
  | |- context [emit ?e >> modifyState _ >> _] => exists [e]
  end.
  split.
  { cbn. by repeat match goal with |- context [match ?x with _ => _ end] => destruct x end. }
  left. cbv [bind emit ret modifyState]. cbn [fst snd wState wEvents wResponses].
  rewrite <- app_assoc. repeat split.
  unfold provisionSucceeded, Solution.field. rewrite Solution_get_set.
  by simplify_map_eq.
Qed.

Lemma forallb_elem_of (accept : Event -> bool) (events : list Event) e :
  forallb accept events = true -> e ∈ events -> accept e = true.
Proof.
  intros Hall Hin. rewrite forallb_forall in Hall. by apply Hall, list_elem_of_In.
Qed.

Lemma cleared_before (pre mid tail before : list Event) plugin after :
  forallb isPreludeEvent pre = true ->
  pre ++ SetProvisionSucceeded false :: mid ++ tail
    = before ++ PluginProvision plugin :: after ->
  SetProvisionSucceeded false ∈ before.
Proof.
  intros Hpre Heq.
  apply app_eq_app in Heq as (l & [[-> Heq] | [-> Heq]]).
  - destruct l as [|x l]; [done|]. injection Heq as <- _.
    apply (forallb_elem_of _ _ (PluginProvision plugin)) in Hpre; [done|].
    rewrite elem_of_app, elem_of_cons. auto.
  - destruct l as [|x l]; [done|]. injection Heq as -> _.
    rewrite elem_of_app, elem_of_cons. auto.
Qed.

Lemma pluginsOfRun_keep_flag : Forall pluginKeepsFlag plugins.
Proof.
  apply Forall_cons in plugins_keep_flag as [Happ [Haad Hsel]%Forall_cons].
  unfold pluginsOfRun. destruct (_ && _); [|done].
  apply Forall_app. split; [done|]. by constructor.
Qed.

Lemma provisionPhase_steady : steady provisionOf.
Proof.
  apply runThunks_steady; [done|].
  apply thunksOf_provision_keepsFlag, pluginsOfRun_keep_flag.
Qed.

Lemma deployment_steady inputs : steady (deploy inputs).
Proof.
  unfold deployment. destruct (_ && _); [|apply steady_ret].
  apply steady_bind; [by apply steady_emit|intros _].
  intros w' Hflag. rewrite !bind_getState.
  destruct (deployArmTemplates (wState w')) as [update|e] eqn:Harm.
  - rewrite !bind_modifyState. cbn [ret snd wState wEvents].
    split; [by rewrite (arm_keeps_flag _ _ Harm)|].
    exists []. by rewrite app_nil_r.
  - by apply steady_ret.
Qed.

Lemma aadUserTask_steady : steady register.
Proof.
  apply Forall_cons in plugins_keep_flag as [_ [Haad _]%Forall_cons].
  unfold aadUserTask.
  destruct (executeUserTask aadPlugin) as [task|] eqn:Htask; [|apply steady_ret].
  destruct (existsb _ _); [|apply steady_ret].
  apply steady_bind; [by apply steady_emit|intros _].
  intros w' Hflag. rewrite !bind_getState.
  destruct Haad as (_ & _ & Htask').
  specialize (Htask' task Htask (wState w')).
  destruct (task (wState w')) as [st' r]. cbn [fst] in Htask'.
  rewrite !bind_modifyState. cbn [ret snd wState wEvents].
  split; [congruence|]. exists []. by rewrite app_nil_r.
Qed.

Lemma configurePhase_steady : steady configure.
Proof.
  apply steady_bind.
  { apply steady_modifyState. intros st'. apply foldl_ensureEntry_flag. }
  intros _. apply runThunks_steady; [done|].
  apply thunksOf_configure_keepsFlag, pluginsOfRun_keep_flag.
Qed.

Lemma flagCleared_flag w : provisionSucceeded (wState (flagCleared w)) = Some (JBool false).
Proof.
  unfold provisionSucceeded, Solution.field, flagCleared. cbn [wState].
  rewrite Solution_get_set. by simplify_map_eq.
Qed.

Lemma thunksOf_app phase prepare (xs ys : list ResourcePlugin) :
  thunksOf phase prepare (xs ++ ys)
  = thunksOf phase prepare xs ++ thunksOf phase prepare ys.
Proof. apply omap_app. Qed.

(** Every plugin begins its provision phase on a state in which the flag
    is false: the state the plugins before it left, with the entry of
    the plugin made sure of. *)
Lemma provisionPhase_given w pre p post run :
  plugins = pre ++ p :: post ->
  provisionResource p = Some run ->
  let before :=
    (runThunks PluginProvision (thunksOf provisionResource true pre) (flagCleared w)).2 in
  let given := ensureEntry (pluginName p) (wState before) in
  provisionSucceeded given = Some (JBool false) /\
  (runThunks PluginProvision (thunksOf provisionResource true (pre ++ [p]))
     (flagCleared w)).2
  = mkWorld (run given).1 (wEvents before ++ [PluginProvision (pluginName p)])
      (wResponses before).
Proof.
  intros Hplugins Hrun before given. split.
  - unfold given. unfold provisionSucceeded. rewrite Solution_field_ensureEntry.
    assert (Hpre : Forall pluginKeepsFlag pre).
    { pose proof pluginsOfRun_keep_flag as Hall. rewrite Hplugins in Hall.
      by apply Forall_app in Hall as [? _]. }
    apply (runThunks_steady PluginProvision _ (fun _ => eq_refl)
             (thunksOf_provision_keepsFlag _ Hpre) (flagCleared w)).
    apply flagCleared_flag.
  - rewrite thunksOf_app. unfold thunksOf at 2. cbn [omap list_omap]. rewrite Hrun.
    by rewrite runThunks_snoc_world.
Qed.

(** A run that reached the phases, read phase by phase: the phase that
    fails ends the run with its error, in the world it left, the flag
    being false; the run ends well only when the configure phase of
    every plugin did, and then the flag is true. *)
Lemma provisionResourceImpl_phase_failures inputs envInfo w w1 :
  reconcile inputs envInfo w = (Done (ok tt), w1) ->
  let out := provision inputs envInfo w in
  let flagFalse (w' : World) := provisionSucceeded (wState w') = Some (JBool false) in
  let provisioned := provisionOf (flagCleared w1) in
  let deployed := deploy inputs provisioned.2 in
  let registered := register deployed.2 in
  let configured := configure registered.2 in
  exists results,
    provisioned.1 = Done results /\
    (someFailed results ->
       exists e, err e ∈ results /\ out = (Done (err e), provisioned.2) /\ flagFalse out.2) /\
    (allSucceeded results ->
     (wState provisioned.2 !! V1PluginNames.appStudio = None ->
        (exists what, out.1 = Throws what) /\ flagFalse out.2) /\
     (is_Some (wState provisioned.2 !! V1PluginNames.appStudio) ->
      (forall e, deployed.1 = Done (err e) ->
         out = (Done (err e), deployed.2) /\ flagFalse out.2) /\
      (deployed.1 = Done (ok tt) ->
       (forall e, registered.1 = Done (err e) ->
          out = (Done (err e), registered.2) /\ flagFalse out.2) /\
       (registered.1 = Done (ok tt) ->
        exists results',
          configured.1 = Done results' /\
          (someFailed results' ->
             exists e,
               err e ∈ results' /\ out = (Done (err e), configured.2) /\ flagFalse out.2) /\
          (allSucceeded results' ->
             out.1 = Done (ok tt) /\
             provisionSucceeded (wState out.2) = Some (JBool true)))))).
Proof.
  intros Hrec out flagFalse provisioned deployed registered configured.
  assert (Hout : out = phases inputs w1).
  { unfold out, provisionResourceImpl, bindOk, bind. by rewrite Hrec. }
  assert (HfP : flagFalse provisioned.2).
  { apply provisionPhase_steady, flagCleared_flag. }
  assert (HfD : flagFalse deployed.2) by by apply deployment_steady.
  assert (HfR : flagFalse registered.2) by by apply aadUserTask_steady.
  assert (HfC : flagFalse configured.2) by by apply configurePhase_steady.
  destruct (runPhases_by_phase inputs w1) as (results & Hres & Hrun).
  fold provisioned deployed registered configured in Hres, Hrun.
  rewrite <- Hout in Hrun. clearbody out provisioned deployed registered configured.
  exists results. split; [done|]. split.
  { intros (e & He & Hin)%firstError_someFailed. rewrite He in Hrun.
    exists e. rewrite Hrun. by repeat split. }
  intros Hnone%firstError_allSucceeded. rewrite Hnone in Hrun. split.
  { intros Happ. rewrite Happ in Hrun. destruct Hrun as [what ->].
    split; [by eexists|exact HfP]. }
  intros [app Happ]. rewrite Happ in Hrun. split.
  { intros e He. rewrite He in Hrun. rewrite Hrun. by split. }
  intros Hd. rewrite Hd in Hrun. split.
  { intros e He. rewrite He in Hrun. rewrite Hrun. by split. }
  intros Hr. rewrite Hr in Hrun. destruct Hrun as (results' & Hres' & Hrun).
  exists results'. split; [done|]. split.
  { intros (e & He & Hin)%firstError_someFailed. rewrite He in Hrun.
    exists e. rewrite Hrun. by repeat split. }
  intros Hnone'%firstError_allSucceeded. rewrite Hnone' in Hrun.
  destruct Hrun as [Hok Hst]. split; [done|]. rewrite Hst.
  unfold provisionSucceeded, Solution.field. rewrite Solution_get_set.
  by simplify_map_eq.
Qed.

(** The shape of a run: what the accounts' reconciliation left, then,
    unless the run ended there, the phases. *)
Lemma provisionResourceImpl_shape inputs envInfo w :
  let out := provision inputs envInfo w in
  exists pre,
    forallb isPreludeEvent pre = true /\
    ((out.1 ≠ Done (ok tt) /\ wEvents out.2 = wEvents w ++ pre)
     \/
     exists mid,
       forallb quietEvent mid = true /\
       ((out.1 = Done (ok tt) /\
         wEvents out.2
           = wEvents w ++ pre ++ SetProvisionSucceeded false :: mid
               ++ [SetProvisionSucceeded true] /\
         provisionSucceeded (wState out.2) = Some (JBool true))
        \/
        (out.1 ≠ Done (ok tt) /\
         wEvents out.2 = wEvents w ++ pre ++ SetProvisionSucceeded false :: mid /\
         provisionSucceeded (wState out.2) = Some (JBool false)))).
Proof.
  intros out. subst out. unfold provisionResourceImpl, bindOk, bind.
  destruct (reconcileAccounts_addsOnly inputs envInfo w) as (pre & Hev & Hpre).
  destruct (reconcile inputs envInfo w) as [[[[]|e]|what|] w1]; cbn [snd] in Hev;
    exists pre; (split; [done|]).
  2-4: left; by split.
  right. destruct (runPhases_flag inputs w1) as (mid & Hmid & Hcases).
  exists mid. split; [done|]. rewrite Hev, <- !app_assoc in Hcases. exact Hcases.
Qed.

(** The flag along the events of a run: every provision phase comes
    after the flag was set to false; the flag is set to true only on a
    run that ends ok, and every run that ends ok has set it; a run that
    set it to false and does not end ok leaves it false. *)
Lemma provisionResourceImpl_flag_events
    (inputs : Inputs) (envInfo : EnvInfoV3) (w : World) :
  let out :=
    provisionResourceImpl getDefaultString getLocalizedString SolutionSource
      InternelError TeamsAppTenantIdNotRight ARM_TEMPLATE_OUTPUT
      doesAllowSwitchAccount m365TokenProvider ctx appStudioPlugin aadPlugin
      ensurePermissionRequest resetEnvInfoWhenSwitchM365 createNewResourceGroup
      handleConfigFilesWhenSwitchAccount hasBotServiceCreated deployArmTemplates
      getResourceGroupInPortal envConfigFileName azureAccountProvider
      getResourceGroupInfo checkResourceGroupExistence askResourceGroupInfo
      snakeCaseAppName uuidv4 inputs envInfo w in
  let added := drop (length (wEvents w)) (wEvents out.2) in
  (forall before plugin after,
     added = before ++ PluginProvision plugin :: after ->
     SetProvisionSucceeded false ∈ before) /\
  (SetProvisionSucceeded true ∈ added ->
     out.1 = Done (ok tt) /\
     provisionSucceeded (wState out.2) = Some (JBool true)) /\
  (out.1 = Done (ok tt) ->
     SetProvisionSucceeded true ∈ added /\
     provisionSucceeded (wState out.2) = Some (JBool true)) /\
  (SetProvisionSucceeded false ∈ added ->
   out.1 ≠ Done (ok tt) ->
     provisionSucceeded (wState out.2) = Some (JBool false) /\
     SetProvisionSucceeded true ∉ added).
Proof.
  intros out added.
  destruct (provisionResourceImpl_shape inputs envInfo w) as (pre & Hpre & Hshape).
  fold out in Hshape.
  assert (Hno : forall e, e ∈ pre -> isPreludeEvent e = true)
    by (intros e; by apply forallb_elem_of).
  destruct Hshape as [[Hout Hev] | (mid & Hmid & [(Hout & Hev & Hflag) | (Hout & Hev & Hflag)])];
    subst added; rewrite Hev, drop_app_length.
  - split; [|split; [|split]].
    + intros before plugin after ->.
      specialize (Hno (PluginProvision plugin)). rewrite elem_of_app, elem_of_cons in Hno.
      by specialize (Hno ltac:(auto)).
    + by intros ?%Hno.
    + done.
    + by intros ?%Hno.
  - split; [|split; [|split]].
    + intros before plugin after Heq.
      by apply (cleared_before pre mid [SetProvisionSucceeded true] before plugin after).
    + done.
    + intros _. split; [|done].
      rewrite !elem_of_app, !elem_of_cons, elem_of_app, elem_of_cons. auto 10.
    + by intros _ ?.
  - split; [|split; [|split]].
    + intros before plugin after Heq. rewrite <- (app_nil_r mid) in Heq.
      by apply (cleared_before pre mid [] before plugin after).
    + rewrite elem_of_app, elem_of_cons.
      intros [?%Hno | [? | Hin]]; try done.
      by apply (forallb_elem_of _ _ _ Hmid) in Hin.
    + done.
    + intros _ _. split; [done|]. rewrite elem_of_app, elem_of_cons.
      intros [?%Hno | [? | Hin]]; try done.
      by apply (forallb_elem_of _ _ _ Hmid) in Hin.
Qed.
End ProvisionFlagFacts.

Lemma setField_keepsFlag key f v :
  key ≠ Solution.GLOBAL_CONFIG ->
  keepsFlag (fun st => (setField key f v st, ok tt)).
Proof.
  intros Hne st. unfold provisionSucceeded, Solution.field, Solution.get, setField.
  cbn [fst]. by rewrite lookup_insert_ne.
Qed.

Lemma botProject_keeps_flag :
  Forall pluginKeepsFlag (appStudio :: aad :: getSelectedPlugins botProject).
Proof.
  repeat constructor; intros run [= <-]; try done; by apply setField_keepsFlag.
Qed.



(** ** Loading the environment the user asked for *)

Section UseUserSetEnvFacts.
Variable Project : Type.
Variable checkEnvExist : Project -> string -> string -> Result bool.
Variable createLocalEnv : Project -> string -> Project.
Variable getLocalEnvName : string.
Variable ProjectEnvNotExistError : string -> FxError.

(** C9. When the environment asked for does not exist in the project: if
    it is the local environment, useUserSetEnv creates it, and, the
    environment manager then finding it, answers ok with its name, the
    project being the one createLocalEnv left; for any other name the
    project is untouched and the answer is ProjectEnvNotExistError of
    that name. *)
Theorem useUserSetEnv_missing_env (project : Project) (projectPath env : string) :
  checkEnvExist project projectPath env = ok false ->
  let out :=
    useUserSetEnv Project checkEnvExist createLocalEnv getLocalEnvName
      ProjectEnvNotExistError project projectPath env in
  (env = getLocalEnvName ->
     out.1 = createLocalEnv project projectPath /\
     (checkEnvExist (createLocalEnv project projectPath) projectPath env = ok true ->
        out.2 = ok env)) /\
  (env ≠ getLocalEnvName ->
     out = (project, err (ProjectEnvNotExistError env))).
Proof.
  intros Hmissing out. subst out. unfold useUserSetEnv. rewrite Hmissing.
  cbn [negb]. split.
  - intros Hlocal. rewrite (bool_decide_eq_true_2 _ Hlocal). split.
    + destruct (checkEnvExist (createLocalEnv project projectPath) projectPath env)
        as [[]|]; reflexivity.
    + by intros ->.
  - intros Hother. by rewrite (bool_decide_eq_false_2 _ Hother).
Qed.
End UseUserSetEnvFacts.

Example useUserSetEnv_existing :
  useUserSetEnv (list string) envExistsIn addLocalEnv "local" envNotExist ["dev"] "./" "dev"
  = (["dev"], ok "dev").
Proof. reflexivity. Qed.

Lemma useUserSetEnv_missing_env_witness :
  (useUserSetEnv (list string) envExistsIn addLocalEnv "local" envNotExist
     ["dev"] "./" "local").1 = ["local"; "dev"] /\
  (useUserSetEnv (list string) envExistsIn addLocalEnv "local" envNotExist
     ["dev"] "./" "local").2 = ok "local" /\
  useUserSetEnv (list string) envExistsIn addLocalEnv "local" envNotExist
    ["dev"] "./" "staging" = (["dev"], err (envNotExist "staging")).
Proof.
  pose proof (useUserSetEnv_missing_env (list string) envExistsIn addLocalEnv "local"
                envNotExist ["dev"] "./" "local" eq_refl) as [Hlocal _].
  destruct (Hlocal eq_refl) as [Hproject Hname].
  split; [exact Hproject|]. split; [exact (Hname eq_refl)|].
  assert (Hne : "staging" ≠ "local") by discriminate.
  exact (proj2 (useUserSetEnv_missing_env (list string) envExistsIn addLocalEnv "local"
                  envNotExist ["dev"] "./" "staging" eq_refl) Hne).
Defined.


(** * Further properties of the code *)

(** ** Migration: names and states, there and back *)

(** X1. pluginName2ComponentName and ComponentName2pluginName undo each
    other on the names of EnvStateMigrationComponentNames: a plugin name
    of the table comes back from its component name, a component name of
    the table from its plugin name; a name the table does not know on
    either side is left as it is by both. *)
Theorem pluginName2ComponentName_round_trip (name : string) :
  (name ∈ EnvStateMigrationComponentNames.*1 ->
     (name, pluginName2ComponentName name) ∈ EnvStateMigrationComponentNames /\
     ComponentName2pluginName (pluginName2ComponentName name) = name) /\
  (name ∈ EnvStateMigrationComponentNames.*2 ->
     (ComponentName2pluginName name, name) ∈ EnvStateMigrationComponentNames /\
     pluginName2ComponentName (ComponentName2pluginName name) = name) /\
  (name ∉ EnvStateMigrationComponentNames.*1 -> pluginName2ComponentName name = name) /\
  (name ∉ EnvStateMigrationComponentNames.*2 -> ComponentName2pluginName name = name).
Proof.
  split; [|split; [|split]].
  - intros [[p c] [-> Hpc]]%list_elem_of_fmap. cbn [fst].
    pose proof (EnvStateMigrationComponentNames_truthy _ _ Hpc) as [Hp Hc].
    unfold pluginName2ComponentName.
    rewrite (proj2 (plugin2component_lookup p c) Hpc), Hc.
    unfold ComponentName2pluginName.
    by rewrite (proj2 (component2plugin_lookup p c) Hpc), Hp.
  - intros [[p c] [-> Hpc]]%list_elem_of_fmap. cbn [snd].
    pose proof (EnvStateMigrationComponentNames_truthy _ _ Hpc) as [Hp Hc].
    unfold ComponentName2pluginName.
    rewrite (proj2 (component2plugin_lookup p c) Hpc), Hp.
    unfold pluginName2ComponentName.
    by rewrite (proj2 (plugin2component_lookup p c) Hpc), Hc.
  - intros Hno. unfold pluginName2ComponentName.
    destruct (plugin2component !! name) as [c|] eqn:Hc; [|done].
    exfalso. apply Hno, list_elem_of_fmap. exists (name, c).
    by rewrite <- plugin2component_lookup.
  - intros Hno. unfold ComponentName2pluginName.
    destruct (component2plugin !! name) as [p|] eqn:Hp; [|done].
    exfalso. apply Hno, list_elem_of_fmap. exists (p, name).
    by rewrite <- component2plugin_lookup.
Qed.

Section EnvStateRoundTrip.
Context {V : Type}.
Implicit Types st : gmap string V.

(** X2. Converting an environment state to the other generation and back
    gives the state restricted to the names the table knows on the side
    it started from: convertEnvStateV3ToV2 after convertEnvStateV2ToV3
    keeps exactly the entries under the ten plugin names, and
    convertEnvStateV2ToV3 after convertEnvStateV3ToV2 exactly those under
    the ten component names. A state with no other entry comes back
    unchanged. *)
Theorem convertEnvState_round_trip st :
  convertEnvStateV3ToV2 (convertEnvStateV2ToV3 st)
    = filter (fun kv => kv.1 ∈ EnvStateMigrationComponentNames.*1) st /\
  convertEnvStateV2ToV3 (convertEnvStateV3ToV2 st)
    = filter (fun kv => kv.1 ∈ EnvStateMigrationComponentNames.*2) st /\
  ((forall k, is_Some (st !! k) -> k ∈ EnvStateMigrationComponentNames.*1) ->
     convertEnvStateV3ToV2 (convertEnvStateV2ToV3 st) = st) /\
  ((forall k, is_Some (st !! k) -> k ∈ EnvStateMigrationComponentNames.*2) ->
     convertEnvStateV2ToV3 (convertEnvStateV3ToV2 st) = st).
Proof.
  assert (H1 : convertEnvStateV3ToV2 (convertEnvStateV2ToV3 st)
               = filter (fun kv => kv.1 ∈ EnvStateMigrationComponentNames.*1) st).
  { apply map_eq; intros p.
    rewrite convertEnvStateV3ToV2_lookup, map_lookup_filter.
    destruct (plugin2component !! p) as [c|] eqn:Hc; cbn [mbind option_bind].
    - rewrite convertEnvStateV2ToV3_lookup.
      rewrite (proj1 (plugin_component_inverse p c) Hc). cbn [mbind option_bind].
      apply plugin2component_lookup in Hc.
      destruct (st !! p) as [v|]; [|done]. cbn [mbind option_bind].
      case_guard as Hin; [done|]. exfalso. apply Hin.
      apply list_elem_of_fmap. by exists (p, c).
    - destruct (st !! p) as [v|]; [|done]. cbn [mbind option_bind].
      case_guard as Hin; [|done]. exfalso.
      apply list_elem_of_fmap in Hin as [[p' c] [Heq Hpc]]. cbn [fst snd] in Heq. subst p'.
      apply plugin2component_lookup in Hpc. congruence. }
  assert (H2 : convertEnvStateV2ToV3 (convertEnvStateV3ToV2 st)
               = filter (fun kv => kv.1 ∈ EnvStateMigrationComponentNames.*2) st).
  { apply map_eq; intros c.
    rewrite convertEnvStateV2ToV3_lookup, map_lookup_filter.
    destruct (component2plugin !! c) as [p|] eqn:Hp; cbn [mbind option_bind].
    - rewrite convertEnvStateV3ToV2_lookup.
      rewrite (proj2 (plugin_component_inverse p c) Hp). cbn [mbind option_bind].
      apply component2plugin_lookup in Hp.
      destruct (st !! c) as [v|]; [|done]. cbn [mbind option_bind].
      case_guard as Hin; [done|]. exfalso. apply Hin.
      apply list_elem_of_fmap. by exists (p, c).
    - destruct (st !! c) as [v|]; [|done]. cbn [mbind option_bind].
      case_guard as Hin; [|done]. exfalso.
      apply list_elem_of_fmap in Hin as [[p c'] [Heq Hpc]]. cbn [fst snd] in Heq. subst c'.
      apply component2plugin_lookup in Hpc. congruence. }
  split; [done|]. split; [done|]. split.
  - intros Hall. rewrite H1. apply map_eq; intros k. rewrite map_lookup_filter.
    destruct (st !! k) as [v|] eqn:Hk; [|done]. cbn [mbind option_bind].
    case_guard as Hin; [done|]. exfalso. apply Hin, Hall. cbn [fst]. by rewrite Hk.
  - intros Hall. rewrite H2. apply map_eq; intros k. rewrite map_lookup_filter.
    destruct (st !! k) as [v|] eqn:Hk; [|done]. cbn [mbind option_bind].
    case_guard as Hin; [done|]. exfalso. apply Hin, Hall. cbn [fst]. by rewrite Hk.
Qed.
End EnvStateRoundTrip.

Section EnvStateTwice.
Context {V : Type}.
Implicit Types st : gmap string V.

Lemma plugin_names_are_no_component_names p c :
  (p, c) ∈ EnvStateMigrationComponentNames ->
  (component2plugin !! p = if bool_decide (p = "solution") then Some "solution" else None) /\
  (plugin2component !! c = if bool_decide (c = "solution") then Some "solution" else None) /\
  (p = "solution" <-> c = "solution").
Proof.
  unfold EnvStateMigrationComponentNames.
  rewrite !elem_of_cons, elem_of_nil.
  intros H; decompose [or] H; simplify_eq; try done;
    (split; [vm_compute; reflexivity|]); (split; [vm_compute; reflexivity|]);
    split; intros [=].
  all: done.
Qed.

(** X3. The conversions are not to be applied twice: "solution" is the
    only name that is both a plugin name and a component name of the
    table, so converting an already converted state, in either
    direction, drops every entry but the one under "solution". *)
Theorem convertEnvState_twice st :
  convertEnvStateV2ToV3 (convertEnvStateV2ToV3 st)
    = filter (fun kv => kv.1 = "solution") st /\
  convertEnvStateV3ToV2 (convertEnvStateV3ToV2 st)
    = filter (fun kv => kv.1 = "solution") st.
Proof.
  split; apply map_eq; intros k; rewrite map_lookup_filter.
  - rewrite convertEnvStateV2ToV3_lookup.
    destruct (component2plugin !! k) as [p|] eqn:Hp; cbn [mbind option_bind].
    + rewrite convertEnvStateV2ToV3_lookup.
      apply component2plugin_lookup in Hp.
      destruct (plugin_names_are_no_component_names _ _ Hp) as (Hpp & _ & Hiff).
      rewrite Hpp. case_bool_decide as Hsol.
      * rewrite (proj1 Hiff Hsol). cbn [mbind option_bind].
        destruct (st !! "solution"); [|done].
        cbn [mbind option_bind]. by case_guard.
      * cbn [mbind option_bind]. destruct (st !! k) as [v|]; [|done].
        cbn [mbind option_bind]. case_guard as Hk; [|done].
        exfalso. apply Hsol, (proj2 Hiff), Hk.
    + destruct (st !! k) as [v|]; [|done]. cbn [mbind option_bind].
      case_guard as Hk; [|done]. cbn [fst] in Hk. subst k. by vm_compute in Hp.
  - rewrite convertEnvStateV3ToV2_lookup.
    destruct (plugin2component !! k) as [c|] eqn:Hc; cbn [mbind option_bind].
    + rewrite convertEnvStateV3ToV2_lookup.
      apply plugin2component_lookup in Hc.
      destruct (plugin_names_are_no_component_names _ _ Hc) as (_ & Hcc & Hiff).
      rewrite Hcc. case_bool_decide as Hsol.
      * rewrite (proj2 Hiff Hsol). cbn [mbind option_bind].
        destruct (st !! "solution"); [|done].
        cbn [mbind option_bind]. by case_guard.
      * cbn [mbind option_bind]. destruct (st !! k) as [v|]; [|done].
        cbn [mbind option_bind]. case_guard as Hk; [|done].
        exfalso. apply Hsol, (proj1 Hiff), Hk.
    + destruct (st !! k) as [v|]; [|done]. cbn [mbind option_bind].
      case_guard as Hk; [|done]. cbn [fst] in Hk. subst k. by vm_compute in Hc.
Qed.
End EnvStateTwice.


(** ** Migration of the project settings: the way back *)

Section DowngradeFacts.
Variable isVSProject : ProjectSettings -> bool.
Variable hasAzureResourceV3 : ProjectSettings -> bool.
Variable MessageExtensionNewUIItem_id : string.
Variable ensureComponentConnections : ProjectSettings -> list Component.

(** X4. For settings that have components, and a hasAzureResourceV3 that
    reads nothing but the components: convertProjectSettingsV3ToV2 keeps
    the components and always sets solutionSettings, downgrading twice
    is downgrading once, and convertProjectSettingsV2ToV3 returns a
    downgraded object as it is: V3 settings sent to V2 and back are the
    downgraded settings, with the components they had. *)
Theorem convertProjectSettingsV3ToV2_idempotent (s : ProjectSettings) c cs :
  (forall a b, components a = components b ->
     hasAzureResourceV3 a = hasAzureResourceV3 b) ->
  components s = Some (c :: cs) ->
  let down := convertProjectSettingsV3ToV2 hasAzureResourceV3 MessageExtensionNewUIItem_id in
  let up :=
    convertProjectSettingsV2ToV3 isVSProject MessageExtensionNewUIItem_id
      ensureComponentConnections in
  down (down s) = down s /\
  up (down s) = down s /\
  components (up (down s)) = components s /\
  is_Some (solutionSettings (down s)).
Proof.
  intros Hdep Hc down up.
  pose proof (downgrade_keeps hasAzureResourceV3 MessageExtensionNewUIItem_id s)
    as (Hcomp & _).
  fold down in Hcomp.
  assert (Hup : up (down s) = down s).
  { apply (upgrade_upgraded _ _ _ _ c cs). by rewrite Hcomp. }
  split; [|split; [done|split; [by rewrite Hup|]]].
  - assert (Hazure : hasAzureResourceV3 (down s) = hasAzureResourceV3 s)
      by (by apply Hdep).
    subst down. cbv beta. unfold convertProjectSettingsV3ToV2 at 1.
    rewrite Hcomp, Hc, Hazure.
    unfold convertProjectSettingsV3ToV2. rewrite Hc.
    destruct (hasAzureResourceV3 s);
      repeat match goal with
             | |- context [match ?o with Some _ => _ | None => _ end] => destruct o
             end; reflexivity.
  - destruct (downgrade_solutionSettings hasAzureResourceV3 MessageExtensionNewUIItem_id
                s c cs Hc) as (ss & Hss & _).
    fold down in Hss. by rewrite Hss.
Qed.
End DowngradeFacts.

Lemma convertProjectSettingsV3ToV2_idempotent_witness :
  downgradeTab (downgradeTab (upgradeTab tabProject)) = downgradeTab (upgradeTab tabProject) /\
  upgradeTab (downgradeTab (upgradeTab tabProject)) = downgradeTab (upgradeTab tabProject).
Proof.
  assert (Hdep : forall a b, components a = components b ->
                   hasAzureComponent a = hasAzureComponent b).
  { intros a b Hab. unfold hasAzureComponent. by rewrite Hab. }
  assert (Hc : components (upgradeTab tabProject)
               = Some (mkComponent "aad-app" None (Some true) None None None None None
                         None None None
                       :: [mkComponent "teams-tab" (Some "azure-storage") (Some true)
                             (Some true) (Some "tabs") None (Some false) None None None None;
                           mkComponent "azure-storage" None (Some true) None None None None
                             None (Some ["teams-tab"]) None None;
                           component "identity"])).
  { vm_compute. reflexivity. }
  pose proof (convertProjectSettingsV3ToV2_idempotent csharpProject hasAzureComponent
                "MessagingExtension" keepComponents (upgradeTab tabProject) _ _ Hdep Hc)
    as (H1 & H2 & _).
  split; [exact H1 | exact H2].
Defined.


(** ** The M365 tenant of the token *)

(** X5. getM365TenantId answers ok exactly when the token is obtained,
    its claims are read and their "tid" is a non-empty string: the
    answer then carries that tid, never an empty one, and the "upn" when
    it is a string. Otherwise the error is the one of getAccessToken, or
    the system error "NoAppStudioToken" (claims not read) or
    "NoTeamsAppTenantId" (tid missing, empty or not a string), both of
    source "core". *)
Theorem getM365TenantId_result (getDefaultString : string -> string)
    (m365TokenProvider : M365TokenProvider) :
  match Localize.getM365TenantId getDefaultString m365TokenProvider with
  | ok res =>
      isOk (getAccessToken m365TokenProvider) = true /\
      tenantIdInToken res ≠ "" /\
      exists json,
        getJsonObject m365TokenProvider = ok json /\
        json !! "tid" = Some (JStr (tenantIdInToken res)) /\
        tenantUserName res = asString (json !! "upn")
  | err e =>
      getAccessToken m365TokenProvider = err e \/
      (isOk (getAccessToken m365TokenProvider) = true /\
       errKind e = SystemErrorKind /\ errSource e = "core" /\
       ((errName e = "NoAppStudioToken" /\ isErr (getJsonObject m365TokenProvider) = true)
        \/
        (errName e = "NoTeamsAppTenantId" /\
         exists json,
           getJsonObject m365TokenProvider = ok json /\
           forall tid, json !! "tid" = Some (JStr tid) -> tid = "")))
  end.
Proof.
  unfold Localize.getM365TenantId.
  destruct (getAccessToken m365TokenProvider) as [token|e]; [|by left].
  destruct (getJsonObject m365TokenProvider) as [json|e'].
  2: { right. do 3 (split; [done|]). by left. }
  assert (Hno : (forall tid, json !! "tid" = Some (JStr tid) -> tid = "") ->
            ok token = err (mkFxError SystemErrorKind "core" "NoTeamsAppTenantId"
                              (getDefaultString "error.NoTeamsAppTenantId")) \/
            (isOk (ok token) = true /\ SystemErrorKind = SystemErrorKind /\
             "core" = "core" /\
             (("NoTeamsAppTenantId" = "NoAppStudioToken" /\ isErr (ok json) = true) \/
              ("NoTeamsAppTenantId" = "NoTeamsAppTenantId" /\
               exists json0, ok json = ok json0 /\
                 forall tid, json0 !! "tid" = Some (JStr tid) -> tid = "")))).
  { intros H. right. do 3 (split; [done|]). right. split; [done|]. by exists json. }
  destruct (json !! "tid") as [[|b|n|tid|items|fields]|] eqn:Htid;
    try (apply Hno; by intros tid').
  destruct (truthy tid) eqn:Ht.
  - split; [done|]. split; [by destruct tid|]. by exists json.
  - apply Hno. intros tid' [= <-]. by destruct tid.
Qed.

(** ** The subscription of a run *)

Lemma findSubscription_Some (subscriptions : list SubscriptionInfo) id sub :
  findSubscription subscriptions id = Some sub ->
  sub ∈ subscriptions /\ Some (subscriptionId sub) = id.
Proof.
  unfold findSubscription. intros [Hin Hid]%List.find_some.
  split; [by apply list_elem_of_In|]. by apply bool_decide_eq_true in Hid.
Qed.

Lemma findSubscription_None (subscriptions : list SubscriptionInfo) id :
  findSubscription subscriptions (Some id) = None <->
  Forall (fun sub => subscriptionId sub ≠ id) subscriptions.
Proof.
  unfold findSubscription. induction subscriptions as [|s l IH]; cbn [List.find].
  { split; [constructor|done]. }
  case_bool_decide as Hs.
  - split; [done|]. intros [Hne _]%Forall_cons. congruence.
  - rewrite IH, Forall_cons. split; [|tauto]. intros ?. split; [congruence|done].
Qed.

Section SubscriptionFacts.
Variable envConfigFileName : string -> string.
Variable azureAccountProvider : AzureAccountProvider.

Local Abbreviation check :=
  (checkProvisionSubscriptionWhenSwitchAccountEnabled envConfigFileName
     azureAccountProvider).

(** What the check leaves when it ends well, in terms of the
    subscription it settled on. *)
Lemma checkProvisionSubscription_settled envInfo st1 r :
  check envInfo = (st1, ok r) ->
  let st := state envInfo in
  let inConfig := azure envInfo ≫= cfgSubscriptionId in
  let inState := Solution.str st "subscriptionId" in
  exists sub,
    (sub ∈ listSubscriptions azureAccountProvider \/
     getSelectedSubscription azureAccountProvider = Some sub) /\
    (truthyOpt inConfig = true ->
       Some (subscriptionId sub) = inConfig /\
       sub ∈ listSubscriptions azureAccountProvider) /\
    (truthyOpt inConfig = false ->
     forall selected, getSelectedSubscription azureAccountProvider = Some selected ->
       sub = selected) /\
    hasSwitchedSubscription r
      = truthyOpt inState && negb (bool_decide (Some (subscriptionId sub) = inState)) /\
    st1 = if hasSwitchedSubscription r
          then clearEnvInfoStateResource (updateEnvInfoSubscription st sub)
          else updateEnvInfoSubscription st sub.
Proof.
  intros H st inConfig inState.
  unfold checkProvisionSubscriptionWhenSwitchAccountEnabled in H.
  fold st inConfig inState in H.
  destruct (truthyOpt inState) eqn:Hst; destruct (truthyOpt inConfig) eqn:Hcfg;
    cbn [negb andb] in H.
  - destruct (findSubscription _ inConfig) as [sub|] eqn:Hfind; [|done].
    apply findSubscription_Some in Hfind as [Hin Hid].
    exists sub. unfold compareWithStateSubscription in H. rewrite Hst in H.
    split; [by left|]. split; [done|]. split; [done|].
    destruct (negb _) eqn:Hd; cbn [andb] in H; injection H as <- <-; done.
  - destruct (getSelectedSubscription azureAccountProvider) as [sel|] eqn:Hsel.
    + exists sel. unfold compareWithStateSubscription in H. rewrite Hst in H.
      split; [by right|]. split; [done|]. split; [by intros _ ? [= <-]|].
      destruct (negb _) eqn:Hd; cbn [andb] in H; injection H as <- <-; done.
    + destruct (findSubscription _ inState) as [sub|] eqn:Hfind; [|done].
      apply findSubscription_Some in Hfind as [Hin Hid].
      exists sub. injection H as <- <-. cbn [hasSwitchedSubscription].
      split; [by left|]. split; [done|]. split; [done|].
      by rewrite bool_decide_eq_true_2.
  - destruct (findSubscription _ inConfig) as [sub|] eqn:Hfind; [|done].
    apply findSubscription_Some in Hfind as [Hin Hid].
    exists sub. unfold compareWithStateSubscription in H. rewrite Hst in H.
    cbn [andb] in H. injection H as <- <-.
    split; [by left|]. by repeat split.
  - destruct (getSelectedSubscription azureAccountProvider) as [sel|] eqn:Hsel; [|done].
    exists sel. injection H as <- <-.
    split; [by right|]. split; [done|]. split; [by intros _ ? [= <-]|]. done.
Qed.

Lemma compareWithStateSubscription_ok (st : ResourceStates) target stored :
  isErr (compareWithStateSubscription st target stored).2 = false.
Proof. unfold compareWithStateSubscription. by destruct (_ && _). Qed.

Lemma checkProvisionSubscription_error envInfo st1 e :
  check envInfo = (st1, err e) ->
  st1 = state envInfo /\
  errKind e = UserErrorKind /\ errSource e = "core" /\
  errName e = "SubscriptionNotFound".
Proof.
  unfold checkProvisionSubscriptionWhenSwitchAccountEnabled, compareWithStateSubscription.
  repeat case_match; intros [= <- <-]; done.
Qed.

(** X6. checkProvisionSubscriptionWhenSwitchAccountEnabled fails exactly
    when the account has no subscription to offer for the environment:
    the config file names a subscription that is not listed, or it names
    none, no subscription is selected in the account and the one stored
    in the state (if any) is not listed. The error is then the user
    error "SubscriptionNotFound" of source "core", and the state is left
    as it was. *)
Theorem checkProvisionSubscription_fails envInfo :
  let st := state envInfo in
  let inConfig := azure envInfo ≫= cfgSubscriptionId in
  let inState := Solution.str st "subscriptionId" in
  let noneListed id :=
    Forall (fun sub => subscriptionId sub ≠ id) (listSubscriptions azureAccountProvider) in
  (isErr (check envInfo).2 = true <->
     (exists id, inConfig = Some id /\ id ≠ "" /\ noneListed id) \/
     (truthyOpt inConfig = false /\
      getSelectedSubscription azureAccountProvider = None /\
      forall id, inState = Some id -> id ≠ "" -> noneListed id)) /\
  (forall e, (check envInfo).2 = err e ->
     (check envInfo).1 = st /\
     errKind e = UserErrorKind /\ errSource e = "core" /\
     errName e = "SubscriptionNotFound").
Proof.
  intros st inConfig inState noneListed. split.
  2: { intros e He. destruct (check envInfo) as [st1 r] eqn:Hc. cbn [snd] in He.
       subst r. cbn [fst]. by apply checkProvisionSubscription_error in Hc. }
  assert (Hlisted : forall id sub,
            findSubscription (listSubscriptions azureAccountProvider) (Some id) = Some sub ->
            noneListed id -> False).
  { intros id sub [Hin [= Hid]]%findSubscription_Some Hnone.
    unfold noneListed in Hnone. rewrite Forall_forall in Hnone. by apply (Hnone sub). }
  unfold checkProvisionSubscriptionWhenSwitchAccountEnabled.
  fold st inConfig inState.
  destruct (truthyOpt inConfig) eqn:Hcfg.
  - rewrite andb_false_r.
    destruct inConfig as [idc|]; [|done].
    assert (Hidc : idc ≠ "") by (by destruct idc).
    destruct (findSubscription _ (Some idc)) as [sub|] eqn:Hfind.
    + rewrite compareWithStateSubscription_ok. split; [done|].
      intros [(id & [= <-] & _ & Hnone)|(? & _)]; [|done]. exfalso. by eapply Hlisted.
    + split; [|done]. intros _. left. exists idc.
      repeat split; try done. by apply findSubscription_None.
  - assert (Hnocfg : ~ exists id, inConfig = Some id /\ id ≠ "" /\ noneListed id).
    { intros (id & Heq & Hne & _). rewrite Heq in Hcfg. by destruct id. }
    destruct (truthyOpt inState) eqn:Hst; cbn [negb andb].
    + destruct inState as [ids|]; [|done].
      assert (Hids : ids ≠ "") by (by destruct ids).
      destruct (getSelectedSubscription azureAccountProvider) as [sel|] eqn:Hsel.
      * rewrite compareWithStateSubscription_ok. split; [done|].
        intros [?|(_ & ? & _)]; done.
      * destruct (findSubscription _ (Some ids)) as [sub|] eqn:Hfind.
        -- split; [done|]. intros [?|(_ & _ & Hnone)]; [done|].
           exfalso. eapply Hlisted; [done|]. by apply Hnone.
        -- split; [|done]. intros _. right. repeat split; try done.
           intros id [= <-] _. by apply findSubscription_None.
    + destruct (getSelectedSubscription azureAccountProvider) as [sel|] eqn:Hsel.
      * split; [done|]. intros [?|(_ & ? & _)]; done.
      * split; [|done]. intros _. right. repeat split; try done.
        intros id Heq Hne. rewrite Heq in Hst. by destruct id.
Qed.

(** X7. When the check ends well, the subscription written to
    [state.solution] (id, name and tenant) is one the account has: the
    one the config file names, which must be listed, before any other;
    else the one selected in the account; else the listed one that the
    state already named. *)
Theorem checkProvisionSubscription_chooses envInfo st1 r :
  check envInfo = (st1, ok r) ->
  let inConfig := azure envInfo ≫= cfgSubscriptionId in
  exists sub,
    Solution.field st1 "subscriptionId" = Some (JStr (subscriptionId sub)) /\
    Solution.field st1 "subscriptionName" = Some (JStr (subscriptionName sub)) /\
    Solution.field st1 "tenantId" = Some (JStr (tenantId sub)) /\
    (sub ∈ listSubscriptions azureAccountProvider \/
     getSelectedSubscription azureAccountProvider = Some sub) /\
    (truthyOpt inConfig = true ->
       Some (subscriptionId sub) = inConfig /\
       sub ∈ listSubscriptions azureAccountProvider) /\
    (truthyOpt inConfig = false ->
     forall selected, getSelectedSubscription azureAccountProvider = Some selected ->
       sub = selected) /\
    (truthyOpt inConfig = false ->
     getSelectedSubscription azureAccountProvider = None ->
       Some (subscriptionId sub) = Solution.str (state envInfo) "subscriptionId").
Proof.
  intros H inConfig.
  destruct (checkProvisionSubscription_settled envInfo st1 r H)
    as (sub & Hhas & Hcfg & Hsel & Hsw & Hst1).
  exists sub.
  assert (Hsol : exists rest,
            Solution.get st1
            = rest (<["tenantId" := JStr (tenantId sub)]>
                      (<["subscriptionName" := JStr (subscriptionName sub)]>
                         (<["subscriptionId" := JStr (subscriptionId sub)]>
                            (Solution.get (state envInfo))))) /\
            (forall m, rest m !! "subscriptionId" = m !! "subscriptionId") /\
            (forall m, rest m !! "subscriptionName" = m !! "subscriptionName") /\
            (forall m, rest m !! "tenantId" = m !! "tenantId")).
  { rewrite Hst1. destruct (hasSwitchedSubscription r).
    - exists (fun m => <["resourceNameSuffix" := JStr ""]>
                         (<["resourceGroupName" := JStr ""]> m)).
      rewrite clearEnvInfoStateResource_solution, updateEnvInfoSubscription_solution.
      split; [done|]. repeat split; intros m; by rewrite !lookup_insert_ne.
    - exists id. by rewrite updateEnvInfoSubscription_solution. }
  destruct Hsol as (rest & Hsol & Hr1 & Hr2 & Hr3).
  unfold Solution.field. rewrite Hsol, Hr1, Hr2, Hr3.
  split; [by simplify_map_eq|]. split; [by simplify_map_eq|].
  split; [by simplify_map_eq|]. split; [done|]. split; [done|]. split; [done|].
  intros Hc Hnone.
  assert (Hid : Solution.str st1 "subscriptionId" = Some (subscriptionId sub)).
  { unfold Solution.str, Solution.field. rewrite Hsol, Hr1. by simplify_map_eq. }
  rewrite <- Hid. clear -H Hc Hnone. revert H.
  unfold checkProvisionSubscriptionWhenSwitchAccountEnabled.
  fold inConfig. rewrite Hc, Hnone.
  destruct (negb _ && negb false); [done|].
  destruct (findSubscription _ _) as [sub'|] eqn:Hfind; [|done].
  intros [= <- _]. apply findSubscription_Some in Hfind as [_ <-].
  unfold updateEnvInfoSubscription.
  by rewrite 2!Solution_str_set_ne, Solution_str_set_eq by done.
Qed.

(** X8. A check that ends well reports a switch of subscription exactly
    when the state held a non-empty subscription id that is not the one
    it holds afterwards. When no switch is reported, nothing but the
    three subscription fields of [state.solution] has changed. *)
Theorem checkProvisionSubscription_reports_switch envInfo st1 r :
  check envInfo = (st1, ok r) ->
  let st := state envInfo in
  let before := Solution.str st "subscriptionId" in
  hasSwitchedSubscription r
    = truthyOpt before
      && negb (bool_decide (Solution.str st1 "subscriptionId" = before)) /\
  (hasSwitchedSubscription r = false ->
     (forall key, key ≠ "solution" -> st1 !! key = st !! key) /\
     (forall f, f ∉ ["subscriptionId"; "subscriptionName"; "tenantId"] ->
        Solution.field st1 f = Solution.field st f)).
Proof.
  intros H st before.
  destruct (checkProvisionSubscription_settled envInfo st1 r H)
    as (sub & _ & _ & _ & Hsw & Hst1).
  fold st before in Hsw, Hst1.
  assert (Hid : Solution.str st1 "subscriptionId" = Some (subscriptionId sub)).
  { rewrite Hst1. unfold Solution.str, Solution.field.
    destruct (hasSwitchedSubscription r).
    - rewrite clearEnvInfoStateResource_solution, updateEnvInfoSubscription_solution.
      by simplify_map_eq.
    - rewrite updateEnvInfoSubscription_solution. by simplify_map_eq. }
  split; [by rewrite Hid|].
  intros Hno. rewrite Hno in Hst1. subst st1. split.
  - intros key Hkey. by apply updateEnvInfoSubscription_lookup_ne.
  - intros f Hf. rewrite !not_elem_of_cons in Hf. destruct Hf as (?&?&?&_).
    unfold Solution.field. rewrite updateEnvInfoSubscription_solution.
    by rewrite !lookup_insert_ne.
Qed.
End SubscriptionFacts.

Lemma checkProvisionSubscription_chooses_witness :
  exists sub,
    Solution.field
      (checkProvisionSubscriptionWhenSwitchAccountEnabled configFileOf
         (signedInAccount secondSubscription) (devEnv devState)).1 "subscriptionId"
      = Some (JStr (subscriptionId sub)) /\
    getSelectedSubscription (signedInAccount secondSubscription) = Some sub.
Proof.
  destruct (checkProvisionSubscriptionWhenSwitchAccountEnabled configFileOf
              (signedInAccount secondSubscription) (devEnv devState))
    as [st1 r] eqn:Hc.
  assert (Hr : r = ok (mkCheckResult true)).
  { apply (f_equal snd) in Hc. vm_compute in Hc. congruence. }
  subst r.
  destruct (checkProvisionSubscription_chooses configFileOf
              (signedInAccount secondSubscription) (devEnv devState) _ _ Hc)
    as (sub & Hid & _ & _ & _ & _ & Hsel & _).
  exists sub. split; [exact Hid|].
  rewrite (Hsel eq_refl secondSubscription eq_refl). reflexivity.
Defined.

Lemma checkProvisionSubscription_reports_switch_witness :
  (checkProvisionSubscriptionWhenSwitchAccountEnabled configFileOf
     (signedInAccount firstSubscription) (devEnv devState)).1 !! V1PluginNames.appStudio
  = devState !! V1PluginNames.appStudio.
Proof.
  destruct (checkProvisionSubscriptionWhenSwitchAccountEnabled configFileOf
              (signedInAccount firstSubscription) (devEnv devState))
    as [st1 r] eqn:Hc.
  assert (Hr : r = ok (mkCheckResult false)).
  { apply (f_equal snd) in Hc. vm_compute in Hc. congruence. }
  subst r.
  apply (proj1 (proj2 (checkProvisionSubscription_reports_switch configFileOf
                         (signedInAccount firstSubscription) (devEnv devState) _ _ Hc)
                  eq_refl)).
  discriminate.
Defined.

(** ** The purge, once more *)

Lemma clearEnvInfoStateResource_lookup_solution (st : ResourceStates) :
  clearEnvInfoStateResource st !! "solution"
  = Some (<["resourceNameSuffix" := JStr ""]>
            (<["resourceGroupName" := JStr ""]> (Solution.get st))).
Proof.
  pose proof (clearEnvInfoStateResource_solution st) as Hget.
  unfold Solution.get at 1 in Hget.
  destruct (clearEnvInfoStateResource st !! Solution.GLOBAL_CONFIG) as [entry|] eqn:He.
  { cbn [default] in Hget. unfold id in Hget. change "solution" with Solution.GLOBAL_CONFIG.
    by rewrite He, Hget. }
  exfalso. revert He. unfold clearEnvInfoStateResource. cbv zeta.
  rewrite foldl_clearKey_lookup.
  set (st2 := Solution.set "resourceNameSuffix" (JStr "")
                (Solution.set "resourceGroupName" (JStr "") st)).
  assert (Hst2 : is_Some (st2 !! Solution.GLOBAL_CONFIG)).
  { unfold st2, Solution.set at 1. rewrite lookup_insert_eq. eauto. }
  destruct Hst2 as [entry ->].
  assert (Hp : purgedEntry Solution.GLOBAL_CONFIG (Some entry) = Some entry).
  { unfold purgedEntry.
    rewrite !bool_decide_eq_false_2; [done| |];
      intros H; vm_compute in H;
      repeat (apply elem_of_cons in H as [?|H]; [done|]); by apply elem_of_nil in H. }
  rewrite Hp. by case_bool_decide.
Qed.

(** X9. clearEnvInfoStateResource is idempotent: purging a purged state
    changes nothing more. *)
Theorem clearEnvInfoStateResource_idempotent (st : ResourceStates) :
  clearEnvInfoStateResource (clearEnvInfoStateResource st)
  = clearEnvInfoStateResource st.
Proof.
  apply map_eq; intros key.
  destruct (decide (key = "solution")) as [->|Hne].
  - rewrite !clearEnvInfoStateResource_lookup_solution.
    rewrite clearEnvInfoStateResource_solution. f_equal.
    apply map_eq; intros f.
    destruct (decide (f = "resourceNameSuffix")) as [->|]; [by simplify_map_eq|].
    destruct (decide (f = "resourceGroupName")) as [->|]; [by simplify_map_eq|].
    by rewrite !lookup_insert_ne.
  - rewrite !clearEnvInfoStateResource_lookup by done. apply purgedEntry_idemp.
Qed.

(** ** fillInAzureConfigs: what a run leaves *)

Section FillFacts.
Variable envConfigFileName : string -> string.
Variable azureAccountProvider : AzureAccountProvider.
Variable getResourceGroupInfo :
  string -> ResourceManagementClient -> Result (option ResourceGroupInfo).
Variable checkResourceGroupExistence :
  string -> ResourceManagementClient -> Result bool.
Variable askResourceGroupInfo :
  Inputs -> ResourceManagementClient -> string -> Result ResourceGroupInfo.
Variable snakeCaseAppName : string.
Variable uuidv4 : string.

(** X10. A run of fillInAzureConfigs that fails leaves the state as the
    subscription check left it: untouched when the check itself failed,
    and otherwise with the subscription already written (and the purge
    already done, on a switch), whatever stopped the run afterwards; it
    never reports a resource group. When the check passes and the
    operator is not signed in to Azure, the run ends with the user error
    "NotLoginToAzure" right after reporting the check. *)
Theorem fillInAzureConfigs_failure (inputs : Inputs) (envInfo : EnvInfoV3) :
  let check :=
    checkProvisionSubscriptionWhenSwitchAccountEnabled envConfigFileName
      azureAccountProvider envInfo in
  let out :=
    fillInAzureConfigs envConfigFileName azureAccountProvider getResourceGroupInfo
      checkResourceGroupExistence askResourceGroupInfo snakeCaseAppName uuidv4
      inputs envInfo in
  (forall e, out.2 = err e ->
     out.1.1 = check.1 /\
     (forall type, CheckResourceGroup type ∉ out.1.2) /\
     (forall e', check.2 = err e' ->
        e = e' /\ out.1.1 = state envInfo /\ out.1.2 = [CheckSubscriptionStart])) /\
  (forall sub, check.2 = ok sub ->
     getAccountCredentialAsync azureAccountProvider = None ->
     out.2 = err (UserError "core" "NotLoginToAzure"
                    "Login to Azure using the Azure Account extension") /\
     out.1.2 = [CheckSubscriptionStart;
                CheckSubscription (hasSwitchedSubscription sub)]).
Proof.
  intros check out. subst out. unfold fillInAzureConfigs. fold check.
  destruct check as [st1 [sub|e0]] eqn:Hcheck; cbn [fst snd].
  2: { split; [|done]. intros e [= <-]. split; [done|]. split.
       - intros type. rewrite elem_of_cons, elem_of_nil. by intros [?|?].
       - intros e' [= <-]. split; [done|]. split; [|done].
         subst check. by apply checkProvisionSubscription_error in Hcheck as [-> _]. }
  destruct (getAccountCredentialAsync azureAccountProvider) as [token|];
    cbn [fst snd].
  2: { split; [|by intros ? [= <-]]. intros e [= <-]. split; [done|]. split; [|done].
       intros type. rewrite !elem_of_cons, elem_of_nil. by intros [?|[?|?]]. }
  split; [|done].
  destruct (resolveResourceGroup _ _ _ _ _ _ _ _ _) as [[info type]|e0]; cbn [fst snd].
  { done. }
  intros e [= <-]. split; [done|]. split; [|done].
  intros type. rewrite !elem_of_app, !elem_of_cons, elem_of_nil.
  by intros [[?|[?|?]]|[?|?]].
Qed.

(** X11. A run of fillInAzureConfigs that ends well has reported its
    four steps in order (the check of the subscription, its outcome, the
    check of the resource group, its outcome), answers the switch the
    subscription check found, and has written nothing but four fields of
    [state.solution] beyond what that check wrote: needCreateResourceGroup,
    resourceGroupName, location and resourceNameSuffix, all four set. *)
Theorem fillInAzureConfigs_success (inputs : Inputs) (envInfo : EnvInfoV3)
    (r : FillInAzureConfigsResult) :
  let check :=
    checkProvisionSubscriptionWhenSwitchAccountEnabled envConfigFileName
      azureAccountProvider envInfo in
  let out :=
    fillInAzureConfigs envConfigFileName azureAccountProvider getResourceGroupInfo
      checkResourceGroupExistence askResourceGroupInfo snakeCaseAppName uuidv4
      inputs envInfo in
  out.2 = ok r ->
  check.2 = ok (mkCheckResult (fillHasSwitchedSubscription r)) /\
  (exists type,
     out.1.2 = [CheckSubscriptionStart;
                CheckSubscription (fillHasSwitchedSubscription r);
                CheckResourceGroupStart; CheckResourceGroup type]) /\
  (forall key, key ≠ "solution" -> out.1.1 !! key = check.1 !! key) /\
  (forall f, f ∉ ["needCreateResourceGroup"; "resourceGroupName"; "location";
                  "resourceNameSuffix"] ->
     Solution.field out.1.1 f = Solution.field check.1 f) /\
  (exists (create : bool) (rg loc suffix : string),
     Solution.field out.1.1 "needCreateResourceGroup" = Some (JBool create) /\
     Solution.field out.1.1 "resourceGroupName" = Some (JStr rg) /\
     Solution.field out.1.1 "location" = Some (JStr loc) /\
     Solution.field out.1.1 "resourceNameSuffix" = Some (JStr suffix)).
Proof.
  intros check out. subst out. unfold fillInAzureConfigs. fold check.
  destruct check as [st1 [[switched]|e0]]; [|done].
  destruct (getAccountCredentialAsync azureAccountProvider) as [token|]; [|done].
  destruct (resolveResourceGroup _ _ _ _ _ _ _ _ _) as [[info type]|e0]; [|done].
  cbn [fst snd hasSwitchedSubscription]. intros [= <-]. cbn [fillHasSwitchedSubscription].
  split; [done|]. split; [by exists type|]. split; [|split].
  - intros key Hkey. by rewrite !Solution_set_lookup_ne.
  - intros f Hf. rewrite !not_elem_of_cons in Hf. destruct Hf as (?&?&?&?&_).
    rewrite !Solution_field_set. by repeat case_decide.
  - eexists _, _, _, _. rewrite !Solution_field_set.
    repeat split; by repeat case_decide.
Qed.
End FillFacts.

Lemma fillInAzureConfigs_success_witness :
  (runFill firstSubscription (devEnv devState)).1.1 !! V1PluginNames.appStudio
  = (checkProvisionSubscriptionWhenSwitchAccountEnabled configFileOf
       (signedInAccount firstSubscription) (devEnv devState)).1 !! V1PluginNames.appStudio.
Proof.
  assert (Hok : (runFill firstSubscription (devEnv devState)).2 = ok (mkFillResult false)).
  { vm_compute. reflexivity. }
  apply (proj1 (proj2 (proj2 (fillInAzureConfigs_success configFileOf
                                (signedInAccount firstSubscription) lookupGroup
                                groupExists pickShared "app" sampleUuid plainInputs
                                (devEnv devState) _ Hok)))).
  discriminate.
Defined.


(** ** The older consent dialogs *)

Section OlderConsentFacts.
Local Open Scope list_scope.
Variable getLocalizedString : string -> list string -> string.
Variable azureAccountProvider : AzureAccountProvider.

(** X12. askForDeployConsent, for an operator signed in to Azure, shows
    one warning with the single button "Deploy" and takes one answer:
    "Deploy" gives ok, anything else (another text, or the dialog
    dismissed) the user error "UserCancel" of source "core". It opens no
    page and leaves the state alone. *)
Theorem askForDeployConsent_decides (envInfoName : string) (token : TokenCredential)
    (w : World) (answer : option string) (rest : list (option string)) :
  getAccountCredentialAsync azureAccountProvider = Some token ->
  wResponses w = answer :: rest ->
  let out :=
    Consent.askForDeployConsent getLocalizedString azureAccountProvider envInfoName w in
  out.1 = Done (if bool_decide (answer = Some "Deploy") then ok tt
                else err (UserError "core" "UserCancel" "UserCancel")) /\
  wResponses out.2 = rest /\
  wState out.2 = wState w /\
  exists msg, wEvents out.2 = wEvents w ++ [ShowMessage "warn" msg true ["Deploy"]].
Proof.
  intros Htoken Hresp out. subst out.
  unfold Consent.askForDeployConsent. rewrite Htoken.
  unfold bind, getState, Consent.showMessage. cbn [fst snd]. rewrite Hresp.
  case_bool_decide; cbn [ret fst snd wResponses wState wEvents];
    repeat split; eauto.
Qed.

(** X13. askForProvisionConsent, for an operator signed in to Azure,
    asks once: "Provision" gives ok and opens nothing; any other answer
    gives the user error "CancelProvision" of source "core", and the
    answer "Pricing calculator" opens the pricing page first but cancels
    all the same, without asking again. *)
Theorem askForProvisionConsent_decides (envInfoName : string) (token : TokenCredential)
    (w : World) (answer : option string) (rest : list (option string)) :
  getAccountCredentialAsync azureAccountProvider = Some token ->
  wResponses w = answer :: rest ->
  let out :=
    Consent.askForProvisionConsent getLocalizedString azureAccountProvider envInfoName w in
  (answer = Some "Provision" <-> out.1 = Done (ok tt)) /\
  (answer ≠ Some "Provision" ->
     out.1 = Done (err (UserError "core" "CancelProvision" "CancelProvision"))) /\
  wResponses out.2 = rest /\
  wState out.2 = wState w /\
  exists msg,
    wEvents out.2
    = wEvents w ++ ShowMessage "warn" msg true ["Provision"]
        :: (if bool_decide (answer = Some "Pricing calculator")
            then [OpenUrl Consent.pricingCalculatorUrl] else []).
Proof.
  intros Htoken Hresp out. subst out.
  unfold Consent.askForProvisionConsent. rewrite Htoken.
  unfold bind, getState, Consent.showMessage. cbn [fst snd]. rewrite Hresp.
  destruct (decide (answer = Some "Provision")) as [->|Hne].
  - rewrite bool_decide_eq_true_2 by done. cbn [negb ret fst snd wResponses wState wEvents].
    rewrite bool_decide_eq_false_2 by done.
    repeat split; try done. eauto.
  - rewrite (bool_decide_eq_false_2 _ Hne). cbn [negb].
    case_bool_decide; cbn [when emit ret fst snd wResponses wState wEvents];
      (split; [split; [done|intros [=]]|]); repeat split; try done.
    + eexists. by rewrite <- app_assoc.
    + eauto.
Qed.
End OlderConsentFacts.

Lemma askForDeployConsent_decides_witness :
  (Consent.askForDeployConsent localized (signedInAccount firstSubscription) "dev"
     (devWorld [Some "Deploy"])).1 = Done (ok tt) /\
  (Consent.askForDeployConsent localized (signedInAccount firstSubscription) "dev"
     (devWorld [None])).1 = Done (err (UserError "core" "UserCancel" "UserCancel")).
Proof.
  split.
  - exact (proj1 (askForDeployConsent_decides localized (signedInAccount firstSubscription)
                    "dev" _ (devWorld [Some "Deploy"]) (Some "Deploy") [] eq_refl eq_refl)).
  - exact (proj1 (askForDeployConsent_decides localized (signedInAccount firstSubscription)
                    "dev" _ (devWorld [None]) None [] eq_refl eq_refl)).
Defined.

Lemma askForProvisionConsent_decides_witness :
  (Consent.askForProvisionConsent localized (signedInAccount firstSubscription) "dev"
     (devWorld [Some "Pricing calculator"; Some "Provision"])).1
  = Done (err (UserError "core" "CancelProvision" "CancelProvision")).
Proof.
  assert (Hne : Some "Pricing calculator" ≠ Some "Provision") by discriminate.
  exact (proj1 (proj2 (askForProvisionConsent_decides localized
                         (signedInAccount firstSubscription) "dev" _
                         (devWorld [Some "Pricing calculator"; Some "Provision"])
                         (Some "Pricing calculator") [Some "Provision"] eq_refl eq_refl))
           Hne).
Defined.

(** X14. None of the three consent dialogs can be built for an operator
    who is not signed in to Azure: askForProvisionConsentNew,
    askForDeployConsent and askForProvisionConsent read the user name of
    the credential first and throw when there is none, before anything
    is shown or asked. With a credential, askForProvisionConsentNew has
    nothing to confirm when no account was switched and the project has
    no Azure resource: it answers ok without showing a dialog. *)
Theorem consent_dialogs_without_credential
    (getLocalizedString : string -> list string -> string) (SolutionSource : string)
    (azureAccountProvider : AzureAccountProvider) (envInfoName : string)
    (m365AccountName : option string) (w : World) :
  (getAccountCredentialAsync azureAccountProvider = None ->
     (forall hasSwitchedM365Tenant hasSwitchedSubscription hasAzureResource,
        exists what,
          askForProvisionConsentNew getLocalizedString SolutionSource azureAccountProvider
            envInfoName hasSwitchedM365Tenant hasSwitchedSubscription m365AccountName
            hasAzureResource w = (Throws what, w)) /\
     (exists what,
        Consent.askForDeployConsent getLocalizedString azureAccountProvider envInfoName w
        = (Throws what, w)) /\
     (exists what,
        Consent.askForProvisionConsent getLocalizedString azureAccountProvider
          envInfoName w = (Throws what, w))) /\
  (forall token, getAccountCredentialAsync azureAccountProvider = Some token ->
     askForProvisionConsentNew getLocalizedString SolutionSource azureAccountProvider
       envInfoName false false m365AccountName false w = (Done (ok tt), w)).
Proof.
  split.
  - intros Hnone.
    unfold askForProvisionConsentNew, Consent.askForDeployConsent,
      Consent.askForProvisionConsent.
    rewrite Hnone. unfold throw. repeat split; intros; eauto.
  - intros token Htoken. unfold askForProvisionConsentNew. by rewrite Htoken.
Qed.


(** ** provisionResourceImpl: the runs that end before the plugins *)

Section EarlyExitFacts.
Local Open Scope list_scope.
Variable getDefaultString : string -> string.
Variable getLocalizedString : string -> list string -> string.
Variable SolutionSource : string.
Variable InternelError : string.
Variable TeamsAppTenantIdNotRight : string.
Variable ARM_TEMPLATE_OUTPUT : string.
Variable doesAllowSwitchAccount : bool.
Variable m365TokenProvider : M365TokenProvider.
Variable ctx : Context.
Variable appStudioPlugin : ResourcePlugin.
Variable aadPlugin : ResourcePlugin.
Variable ensurePermissionRequest : Result unit.
Variable resetEnvInfoWhenSwitchM365 : ResourceStates -> ResourceStates.
Variable createNewResourceGroup : ResourceStates -> Result unit.
Variable handleConfigFilesWhenSwitchAccount :
  ResourceStates -> bool -> bool -> bool -> Result unit.
Variable hasBotServiceCreated : ResourceStates -> bool.
Variable deployArmTemplates : ResourceStates -> Result ResourceStates.
Variable getResourceGroupInPortal : ResourceStates -> option string.
Variable envConfigFileName : string -> string.
Variable azureAccountProvider : AzureAccountProvider.
Variable getResourceGroupInfo :
  string -> ResourceManagementClient -> Result (option ResourceGroupInfo).
Variable checkResourceGroupExistence :
  string -> ResourceManagementClient -> Result bool.
Variable askResourceGroupInfo :
  Inputs -> ResourceManagementClient -> string -> Result ResourceGroupInfo.
Variable snakeCaseAppName : string.
Variable uuidv4 : string.

Local Abbreviation run :=
  (provisionResourceImpl getDefaultString getLocalizedString SolutionSource
     InternelError TeamsAppTenantIdNotRight ARM_TEMPLATE_OUTPUT
     doesAllowSwitchAccount m365TokenProvider ctx appStudioPlugin aadPlugin
     ensurePermissionRequest resetEnvInfoWhenSwitchM365 createNewResourceGroup
     handleConfigFilesWhenSwitchAccount hasBotServiceCreated deployArmTemplates
     getResourceGroupInPortal envConfigFileName azureAccountProvider
     getResourceGroupInfo checkResourceGroupExistence askResourceGroupInfo
     snakeCaseAppName uuidv4).

(** X15. provisionResourceImpl gives up before it touches anything when
    the inputs carry no project path (system error
    SolutionError.InternelError, "projectPath is undefined") or when the
    M365 token is refused (the error of getAccessToken): state, events
    and answers are as they were. When the tenant of the token cannot be
    read, the error of getM365TenantId comes back with nothing reported
    and nothing asked; the state has at most gained empty entries for
    the app registration and for "solution" (the token itself having
    been obtained). *)
Theorem provisionResourceImpl_early_exit
    (inputs : Inputs) (envInfo : EnvInfoV3) (w : World) :
  let out :=
    provisionResourceImpl getDefaultString getLocalizedString SolutionSource
      InternelError TeamsAppTenantIdNotRight ARM_TEMPLATE_OUTPUT
      doesAllowSwitchAccount m365TokenProvider ctx appStudioPlugin aadPlugin
      ensurePermissionRequest resetEnvInfoWhenSwitchM365 createNewResourceGroup
      handleConfigFilesWhenSwitchAccount hasBotServiceCreated deployArmTemplates
      getResourceGroupInPortal envConfigFileName azureAccountProvider
      getResourceGroupInfo checkResourceGroupExistence askResourceGroupInfo
      snakeCaseAppName uuidv4 inputs envInfo w in
  (projectPath inputs = None ->
     out = (Done (err (SystemError SolutionSource InternelError
                         "projectPath is undefined")), w)) /\
  (forall path e,
     projectPath inputs = Some path ->
     getAccessToken m365TokenProvider = err e ->
     out = (Done (err e), w)) /\
  (forall path token e,
     projectPath inputs = Some path ->
     getAccessToken m365TokenProvider = ok token ->
     Localize.getM365TenantId getDefaultString m365TokenProvider = err e ->
     out.1 = Done (err e) /\
     wEvents out.2 = wEvents w /\
     wResponses out.2 = wResponses w /\
     wState out.2
     = ensureEntry Solution.GLOBAL_CONFIG (ensureEntry V1PluginNames.appStudio (wState w))).
Proof.
  intros out. subst out. unfold provisionResourceImpl, reconcileAccounts.
  split; [|split].
  - intros ->. reflexivity.
  - intros path e -> ->. reflexivity.
  - intros path token e -> -> Htenant.
    unfold bindOk, bind, ret, getState, modifyState. cbn [fst snd wState wEvents wResponses].
    rewrite Htenant. done.
Qed.

(** X16. When the tenant of the token differs from the one the state
    holds and switching accounts is allowed, a project without Azure
    resources has its state reset (resetEnvInfoWhenSwitchM365) and
    pointed at the new tenant before the operator is asked anything. An
    operator who then declines gets "CancelProvision" with the state
    left that way; and when nobody is signed in to Azure the dialog
    cannot even be built: the call throws, the state left the same way. *)
Theorem provisionResourceImpl_switch_then_stop
    (inputs : Inputs) (envInfo : EnvInfoV3) (w : World)
    (path token tenantInToken storedTenant : string)
    (json app : gmap string Json) :
  projectPath inputs = Some path ->
  getAccessToken m365TokenProvider = ok token ->
  getJsonObject m365TokenProvider = ok json ->
  json !! "tid" = Some (JStr tenantInToken) ->
  tenantInToken ≠ "" ->
  wState w !! V1PluginNames.appStudio = Some app ->
  app !! "tenantId" = Some (JStr storedTenant) ->
  storedTenant ≠ "" ->
  tenantInToken ≠ storedTenant ->
  doesAllowSwitchAccount = true ->
  isAzureProject ctx && hasAzureResource ctx = false ->
  getLocalizedString "core.provision.switchedM365AccountNotice" [] ≠ "" ->
  let out :=
    provisionResourceImpl getDefaultString getLocalizedString SolutionSource
      InternelError TeamsAppTenantIdNotRight ARM_TEMPLATE_OUTPUT
      doesAllowSwitchAccount m365TokenProvider ctx appStudioPlugin aadPlugin
      ensurePermissionRequest resetEnvInfoWhenSwitchM365 createNewResourceGroup
      handleConfigFilesWhenSwitchAccount hasBotServiceCreated deployArmTemplates
      getResourceGroupInPortal envConfigFileName azureAccountProvider
      getResourceGroupInfo checkResourceGroupExistence askResourceGroupInfo
      snakeCaseAppName uuidv4 inputs envInfo w in
  let switched :=
    Solution.set "teamsAppTenantId" (JStr tenantInToken)
      (setField V1PluginNames.appStudio "tenantId" (JStr tenantInToken)
         (ensureEntry V1PluginNames.appStudio
            (resetEnvInfoWhenSwitchM365
               (ensureEntry Solution.GLOBAL_CONFIG (wState w))))) in
  (getAccountCredentialAsync azureAccountProvider = None ->
     (exists what, out.1 = Throws what) /\
     wState out.2 = switched /\ wEvents out.2 = wEvents w) /\
  (forall credential answer rest,
     getAccountCredentialAsync azureAccountProvider = Some credential ->
     wResponses w = answer :: rest ->
     answer ≠ Some (provisionText getLocalizedString) ->
     answer ≠ Some (learnMoreText getLocalizedString) ->
     out.1 = Done (err (UserError SolutionSource "CancelProvision" "CancelProvision")) /\
     wState out.2 = switched /\
     wResponses out.2 = rest /\
     exists message items confirmRes,
       wEvents out.2
       = wEvents w ++ [ShowMessage "warn" message true items;
                       ConfirmProvision confirmRes]).
Proof.
  intros Hpath Htoken Hjson Htid Htid_ne Happ Happ_tenant Hstored_ne Hdiff Hswitch
    Hazure Hnotice out switched.
  remember out as result eqn:Hout. subst out.
  unfold provisionResourceImpl, reconcileAccounts in Hout. rewrite Hpath, Htoken in Hout.
  unfold bindOk, bind, ret, getState, modifyState in Hout.
  cbn [fst snd wState wEvents wResponses] in Hout.
  unfold Localize.getM365TenantId in Hout.
  rewrite Htoken, Hjson, Htid, (truthy_ne _ Htid_ne) in Hout.
  cbn [tenantIdInToken tenantUserName] in Hout.
  rewrite (ensureEntry_present _ _ _ Happ), Happ in Hout. cbn [default] in Hout.
  unfold id in Hout. rewrite Happ_tenant in Hout.
  cbn [asString truthyOpt] in Hout.
  rewrite (truthy_ne _ Hstored_ne), (truthy_ne _ Htid_ne) in Hout.
  rewrite bool_decide_eq_false_2 in Hout by congruence.
  rewrite Hswitch, Hazure in Hout.
  cbn [andb negb when fst snd wState wEvents wResponses] in Hout.
  fold switched in Hout.
  unfold askForProvisionConsentNew in Hout.
  split.
  - intros Hnone. rewrite Hnone in Hout. unfold throw in Hout. subst result.
    cbn [fst snd wState wEvents]. eauto.
  - intros credential answer rest Hcred Hresp Hnp Hnl.
    rewrite Hcred in Hout. unfold bind, getState in Hout.
    cbn [fst snd wState wEvents wResponses] in Hout.
    unfold switchedNotice in Hout. cbn [andb negb orb] in Hout.
    rewrite (truthy_ne _ Hnotice) in Hout.
    cbn [andb negb] in Hout. rewrite Hresp in Hout.
    cbn [confirmLoop wState wEvents wResponses] in Hout.
    rewrite (bool_decide_eq_false_2 _ Hnp), (bool_decide_eq_false_2 _ Hnl) in Hout.
    cbn [negb fst snd wState wEvents wResponses] in Hout. subst result.
    cbn [fst snd wState wEvents wResponses].
    repeat split; try done. eauto.
Qed.
End EarlyExitFacts.

Lemma provisionResourceImpl_switch_then_stop_witness :
  (runProvision true "T2" (devWorld [None])).1
    = Done (err (UserError "Solution" "CancelProvision" "CancelProvision")) /\
  wResponses (runProvision true "T2" (devWorld [None])).2 = [] /\
  Solution.field (wState (runProvision true "T2" (devWorld [None])).2) "teamsAppTenantId"
    = Some (JStr "T2").
Proof.
  assert (Hne1 : "T2" ≠ "") by discriminate.
  assert (Hne2 : "T1" ≠ "") by discriminate.
  assert (Hne3 : "T2" ≠ "T1") by discriminate.
  assert (Hnotice : localized "core.provision.switchedM365AccountNotice" [] ≠ "")
    by discriminate.
  assert (Happ : wState (devWorld [None]) !! V1PluginNames.appStudio
                 = Some {[ "tenantId" := JStr "T1"; "teamsAppId" := JStr "app" ]})
    by (vm_compute; reflexivity).
  assert (Htenant : ({[ "tenantId" := JStr "T1"; "teamsAppId" := JStr "app" ]}
                       : gmap string Json) !! "tenantId" = Some (JStr "T1"))
    by (vm_compute; reflexivity).
  pose proof (provisionResourceImpl_switch_then_stop id localized "Solution"
                "InternelError" "TeamsAppTenantIdNotRight" "armTemplateOutput" true
                (m365Account "T2") botProject appStudio aad
                (ok tt) (fun st => st) (fun _ => ok tt) (fun _ _ _ _ => ok tt)
                (fun _ => false) (fun st => ok st) (fun _ => None)
                configFileOf (signedInAccount firstSubscription) lookupGroup groupExists
                pickShared "app" sampleUuid
                plainInputs (devEnv devState) (devWorld [None])
                "./" "token" "T2" "T1"
                {[ "tid" := JStr "T2"; "upn" := JStr "dev@contoso.com" ]}
                {[ "tenantId" := JStr "T1"; "teamsAppId" := JStr "app" ]}
                eq_refl eq_refl eq_refl eq_refl Hne1 Happ Htenant Hne2 Hne3 eq_refl
                eq_refl Hnotice)
    as [_ H].
  assert (Hnp : (None : option string) ≠ Some (provisionText localized)) by discriminate.
  assert (Hnl : (None : option string) ≠ Some (learnMoreText localized)) by discriminate.
  destruct (H (mkTokenCredential (Some "dev@contoso.com")) None [] eq_refl eq_refl Hnp Hnl)
    as (H1 & H2 & H3 & _).
  split; [exact H1|]. split; [exact H3|].
  unfold runProvision. rewrite H2. vm_compute. reflexivity.
Defined.


(** ** The environment a command targets *)

Lemma string_length_append (s t : string) :
  String.length (s ++ t) = String.length s + String.length t.
Proof. induction s as [|c s IH]; [done|]. simpl. by f_equal. Qed.

Lemma substring_0_all (t : string) : String.substring 0 (String.length t) t = t.
Proof. induction t as [|c t IH]; [done|]. simpl. by f_equal. Qed.

Lemma substring_after_prefix (s t : string) :
  String.substring (String.length s) (String.length t) (s ++ t) = t.
Proof. induction s as [|c s IH]; [apply substring_0_all|]. exact IH. Qed.

Lemma substring_prefix (s t : string) :
  String.substring 0 (String.length s) (s ++ t) = s.
Proof.
  induction s as [|c s IH]; [by destruct t|]. simpl. by f_equal.
Qed.

(** The mark starts with a blank. *)
Lemma lastUsedMark_needs_blank (s : string) (p : nat) :
  String.substring p (String.length lastUsedMark) s = lastUsedMark ->
  String.get p s = Some blank.
Proof.
  intros H.
  pose proof (String.substring_correct1 s p (String.length lastUsedMark) 0) as Hget.
  rewrite H in Hget. specialize (Hget ltac:(cbn; lia)).
  cbn [Nat.add] in Hget. by rewrite <- Hget.
Qed.

Lemma endsWith_lastUsedMark_blank (s : string) :
  endsWith s lastUsedMark = true -> exists p, String.get p s = Some blank.
Proof.
  unfold endsWith. intros [_ H%bool_decide_eq_true]%andb_true_iff.
  eexists. by apply lastUsedMark_needs_blank.
Qed.

Lemma sliceBeforeMark_unmarked (name : string) :
  (forall p, String.get p name ≠ Some blank) -> sliceBeforeMark name = name.
Proof.
  intros Hname. unfold sliceBeforeMark.
  destruct (endsWith name lastUsedMark) eqn:He; [|done].
  apply endsWith_lastUsedMark_blank in He as [p Hp]. by destruct (Hname p).
Qed.

Lemma sliceBeforeMark_marked (name : string) :
  (forall p, String.get p name ≠ Some blank) ->
  sliceBeforeMark (name ++ lastUsedMark) = name.
Proof.
  intros Hname. unfold sliceBeforeMark.
  assert (Hat : String.substring (String.length name) (String.length lastUsedMark)
                  (name ++ lastUsedMark) = lastUsedMark)
    by apply substring_after_prefix.
  assert (He : endsWith (name ++ lastUsedMark) lastUsedMark = true).
  { unfold endsWith. rewrite string_length_append. apply andb_true_iff. split.
    - apply Nat.leb_le. lia.
    - apply bool_decide_eq_true.
      by replace (String.length name + String.length lastUsedMark
                  - String.length lastUsedMark) with (String.length name) by lia. }
  rewrite He.
  destruct (String.index 0 lastUsedMark (name ++ lastUsedMark)) as [i|] eqn:Hi.
  2: { exfalso.
       by apply (String.index_correct3 0 (String.length name) _ _ Hi); [|lia|]. }
  assert (i = String.length name) as ->.
  { destruct (Nat.lt_trichotomy i (String.length name)) as [Hlt|[Heq|Hgt]]; [|done|].
    - exfalso. apply String.index_correct1 in Hi.
      apply lastUsedMark_needs_blank in Hi.
      rewrite <- String.append_correct1 in Hi by done. by destruct (Hname i).
    - exfalso.
      by apply (String.index_correct2 _ _ _ _ Hi (String.length name)); [lia| |]. }
  apply substring_prefix.
Qed.

Lemma indexOf_Some (xs : list string) (x : string) (i : nat) :
  indexOf xs x = Some i ->
  xs = (take i xs ++ x :: drop (i + 1) xs)%list /\ x ∉ take i xs.
Proof.
  revert i. induction xs as [|y xs IH]; intros i; [done|]. cbn [indexOf].
  case_bool_decide as Hy.
  - intros [= <-]. subst y. cbn. rewrite drop_0. split; [done|]. apply not_elem_of_nil.
  - destruct (indexOf xs x) as [j|] eqn:Hj; [|done]. intros [= <-].
    destruct (IH j eq_refl) as [Hxs Hno]. cbn [take drop Nat.add].
    split; [cbn; by rewrite <- Hxs|].
    rewrite not_elem_of_cons. split; [congruence|done].
Qed.

Lemma indexOf_None (xs : list string) (x : string) :
  indexOf xs x = None <-> x ∉ xs.
Proof.
  induction xs as [|y xs IH]; cbn [indexOf].
  { split; [intros _; apply not_elem_of_nil|done]. }
  case_bool_decide as Hy.
  - split; [done|]. intros Hno. exfalso. apply Hno. subst. left.
  - rewrite not_elem_of_cons, <- IH. destruct (indexOf xs x); cbn; [|by intuition].
    split; [done|]. by intros [_ ?].
Qed.

(** X18. reOrderEnvironments moves the environment used last to the
    front of the list and marks it: when [lastUsed] names an environment
    of the list, the result is that name with " (last used)" appended,
    followed by the other environments in their order (only the first
    occurrence of the name is taken out). Without a last used
    environment, or with one that the list does not have, the list comes
    back as it is. The length never changes. *)
Theorem reOrderEnvironments_spec (environments : list string) (lastUsed : option string) :
  (forall used, lastUsed = Some used -> used ≠ "" -> used ∈ environments ->
     exists before after,
       environments = (before ++ used :: after)%list /\
       (used ∉ before) /\
       reOrderEnvironments environments lastUsed
       = (used ++ lastUsedMark) :: (before ++ after)%list) /\
  (lastUsed = None \/ lastUsed = Some "" \/
   (exists used, lastUsed = Some used /\ used ∉ environments) ->
     reOrderEnvironments environments lastUsed = environments) /\
  length (reOrderEnvironments environments lastUsed) = length environments.
Proof.
  split; [|split].
  - intros used -> Hne Hin. unfold reOrderEnvironments.
    rewrite (truthyOpt_Some _ Hne). cbn [negb default]. unfold id.
    destruct (indexOf environments used) as [i|] eqn:Hi.
    + apply indexOf_Some in Hi as [Hxs Hno].
      exists (take i environments), (drop (i + 1) environments).
      split; [exact Hxs|]. split; [exact Hno|]. reflexivity.
    + by apply indexOf_None in Hi.
  - unfold reOrderEnvironments. intros [->|[->|(used & -> & Hno)]]; try done.
    destruct (negb _); [done|]. cbn [default]. unfold id.
    by rewrite (proj2 (indexOf_None _ _) Hno).
  - unfold reOrderEnvironments. destruct (negb _); [done|].
    destruct (indexOf _ _) as [i|] eqn:Hi; [|done].
    apply indexOf_Some in Hi as [Hxs _].
    apply (f_equal length) in Hxs. rewrite length_app in Hxs. cbn [length] in Hxs.
    cbn [app length]. rewrite length_app. lia.
Qed.

Section TargetEnvironmentFacts.
Variable QTreeNode : Type.
Variable UserCancelError : FxError.
Variable getQuestionsForTargetEnv : option string -> Result (option QTreeNode).
Variable traverse : QTreeNode -> option string -> option string * Result unit.

(** X19. Whichever option of the list reOrderEnvironments builds the
    operator picks, askTargetEnvironment answers with the name of an
    environment of the project: the option itself, or, for the option
    marked " (last used)", the name the mark was added to. (Environment
    names are not empty and hold no blank.) When the question tree leaves
    no answer, the result is UserCancelError. *)
Theorem askTargetEnvironment_answers_environment
    (environments : list string) (lastUsed lastUsedEnv before : option string)
    (node : option QTreeNode) (answer : option string) :
  Forall environmentName environments ->
  getQuestionsForTargetEnv lastUsedEnv = ok node ->
  match node with
  | Some node => traverse node before
  | None => (before, ok tt)
  end = (answer, ok tt) ->
  let out :=
    askTargetEnvironment QTreeNode UserCancelError getQuestionsForTargetEnv traverse
      lastUsedEnv before in
  out.1 = answer /\
  (truthyOpt answer = false -> out.2 = err UserCancelError) /\
  (forall option, answer = Some option ->
     option ∈ reOrderEnvironments environments lastUsed ->
     exists env,
       env ∈ environments /\ out.2 = ok env /\
       (option = env \/ (lastUsed = Some env /\ option = env ++ lastUsedMark))).
Proof.
  intros Hnames Hq Htraverse out. subst out. unfold askTargetEnvironment.
  rewrite Hq, Htraverse. cbn [fst snd].
  split; [by destruct (negb _)|]. split; [by intros ->|].
  intros option -> Hin.
  rewrite Forall_forall in Hnames.
  assert (Hcases : option ∈ environments \/
            exists used, lastUsed = Some used /\ used ∈ environments /\
                         option = used ++ lastUsedMark).
  { revert Hin. unfold reOrderEnvironments.
    destruct (negb (truthyOpt lastUsed)) eqn:Hlast; [by left|].
    destruct lastUsed as [used|]; [|done]. cbn [default]. unfold id.
    destruct (indexOf environments used) as [i|] eqn:Hi; [|by left].
    apply indexOf_Some in Hi as [Hxs _].
    assert (Hsub : forall x, x = used \/ x ∈ take i environments
                             \/ x ∈ drop (i + 1) environments -> x ∈ environments).
    { intros x Hx. rewrite Hxs, elem_of_app, elem_of_cons. tauto. }
    rewrite elem_of_app, list_elem_of_singleton, elem_of_app.
    intros [->|Hin].
    - right. exists used. repeat split. apply Hsub. by left.
    - left. apply Hsub. by right. }
  destruct Hcases as [Hin'|(used & -> & Hused & ->)].
  - destruct (Hnames option Hin') as [Hne Hblank].
    exists option. rewrite (truthyOpt_Some _ Hne). cbn [negb default snd]. unfold id.
    rewrite (sliceBeforeMark_unmarked _ Hblank). auto.
  - destruct (Hnames used Hused) as [Hne Hblank].
    exists used.
    assert (Ht : truthyOpt (Some (used ++ lastUsedMark)) = true)
      by (by destruct used).
    rewrite Ht. cbn [negb default snd]. unfold id.
    rewrite (sliceBeforeMark_marked _ Hblank). auto.
Qed.
End TargetEnvironmentFacts.

Lemma sampleEnvironments_names : Forall environmentName sampleEnvironments.
Proof.
  repeat constructor; try done; intros p;
    do 8 (destruct p as [|p]; [by cbn|]); by cbn.
Qed.

Lemma askTargetEnvironment_answers_environment_witness :
  (askTargetEnvironment (list string) cancelled (questionsFor sampleEnvironments)
     takeFirstOption (Some "staging") None).2 = ok "staging".
Proof.
  destruct (askTargetEnvironment_answers_environment (list string) cancelled
              (questionsFor sampleEnvironments) takeFirstOption
              sampleEnvironments (Some "staging") (Some "staging") None
              (Some (reOrderEnvironments sampleEnvironments (Some "staging")))
              (Some "staging (last used)")
              sampleEnvironments_names eq_refl eq_refl) as (_ & _ & H).
  destruct (H "staging (last used)" eq_refl ltac:(left)) as (env & _ & Hout & Hcase).
  rewrite Hout. f_equal.
  destruct Hcase as [Heq|[[= <-] _]]; [|reflexivity].
  exfalso. rewrite <- Heq in Hout. vm_compute in Hout. discriminate Hout.
Defined.

(** ** useUserSetEnv and getTargetEnvName *)

Section UserSetEnvFacts.
Variable Project : Type.
Variable checkEnvExist : Project -> string -> string -> Result bool.
Variable createLocalEnv : Project -> string -> Project.
Variable getLocalEnvName : string.
Variable getDefaultEnvName : string.
Variable ProjectEnvNotExistError : string -> FxError.

(** X20. When useUserSetEnv answers ok, the name is the one asked for
    and the environment exists in the project as the call leaves it (by
    the last check made). The project is changed only by creating the
    local environment, and only when that is the one asked for and the
    first check did not find it. An error is ProjectEnvNotExistError of
    the name, or the error of a check. *)
Theorem useUserSetEnv_ok_exists (project : Project) (projectPath env : string) :
  let out :=
    useUserSetEnv Project checkEnvExist createLocalEnv getLocalEnvName
      ProjectEnvNotExistError project projectPath env in
  (forall name, out.2 = ok name ->
     name = env /\ checkEnvExist out.1 projectPath env = ok true) /\
  (forall e, out.2 = err e ->
     e = ProjectEnvNotExistError env \/
     checkEnvExist project projectPath env = err e \/
     checkEnvExist out.1 projectPath env = err e) /\
  (out.1 = project \/
   (env = getLocalEnvName /\
    checkEnvExist project projectPath env = ok false /\
    out.1 = createLocalEnv project projectPath)).
Proof.
  intros out. subst out. unfold useUserSetEnv.
  destruct (checkEnvExist project projectPath env) as [[|]|e0] eqn:H1; cbn [negb fst snd].
  - split; [by intros ? [= <-]|]. split; [done|]. by left.
  - case_bool_decide as Hlocal; cbn [fst snd].
    2: { split; [done|]. split; [intros e [= <-]; by left|]. by left. }
    destruct (checkEnvExist (createLocalEnv project projectPath) projectPath env)
      as [[|]|e1] eqn:H2; cbn [negb fst snd].
    + split; [by intros ? [= <-]|]. split; [done|]. by right.
    + split; [done|]. split; [intros e [= <-]; by left|]. by right.
    + split; [done|]. split; [intros e [= <-]; by right; right|]. by right.
  - split; [done|]. split; [intros e [= <-]; by right; left|]. by left.
Qed.

Section WithQuestions.
Variable QTreeNode : Type.
Variable UserCancelError : FxError.
Variable getQuestionsForTargetEnv : option string -> Result (option QTreeNode).
Variable traverse : QTreeNode -> option string -> option string * Result unit.

(** X21. getTargetEnvName: with [skip] or [inputs.ignoreEnvInfo] set it
    answers the default environment name and touches nothing. Otherwise
    an environment named by the inputs is taken as useUserSetEnv says,
    and is not remembered as the last used one; only a name picked by
    the operator is. Every error it returns is also left in
    [ctx.result], and a run that ends well leaves [ctx.result] alone. *)
Theorem getTargetEnvName_effects (skip ignoreEnvInfo : bool)
    (inputsEnv : option string) (projectPath : string)
    (s : Session Project) :
  let out :=
    getTargetEnvName QTreeNode UserCancelError getQuestionsForTargetEnv traverse
      Project checkEnvExist createLocalEnv getLocalEnvName getDefaultEnvName
      ProjectEnvNotExistError skip ignoreEnvInfo inputsEnv projectPath s in
  (skip || ignoreEnvInfo = true -> out = (s, ok getDefaultEnvName)) /\
  (forall e, out.2 = err e -> ctxResult _ out.1 = Some e) /\
  (forall name, out.2 = ok name -> ctxResult _ out.1 = ctxResult _ s) /\
  (skip || ignoreEnvInfo = false ->
   forall name, out.2 = ok name ->
     if truthyOpt inputsEnv
     then inputsEnv = Some name /\
          lastUsedEnv _ out.1 = lastUsedEnv _ s /\
          checkEnvExist (project _ out.1) projectPath name = ok true
     else lastUsedEnv _ out.1 = Some name /\ project _ out.1 = project _ s).
Proof.
  intros out. subst out. unfold getTargetEnvName.
  destruct skip, ignoreEnvInfo; cbn [negb andb orb]; try done.
  destruct (truthyOpt inputsEnv) eqn:Henv.
  - destruct inputsEnv as [env|]; [|done]. cbn [default]. unfold id.
    pose proof (useUserSetEnv_ok_exists (project _ s) projectPath env) as (Hok & _ & _).
    cbv zeta in Hok.
    destruct (useUserSetEnv _ _ _ _ _ _ _ _) as [project' [name|e]]; cbn [fst snd] in *.
    + split; [done|]. split; [done|]. split; [done|].
      intros _ ? [= <-]. destruct (Hok name eq_refl) as [-> Hexists]. done.
    + split; [done|]. split; [by intros ? [= <-]|]. done.
  - destruct (askTargetEnvironment _ _ _ _ _ _) as [answer [name|e]]; cbn [fst snd].
    + split; [done|]. split; [done|]. split; [done|]. by intros _ ? [= <-].
    + split; [done|]. split; [by intros ? [= <-]|]. done.
Qed.
End WithQuestions.
End UserSetEnvFacts.

(** ** Settings kept in the old env config *)

Section LegacySettingsFacts.
Variable GLOBAL_CONFIG : string.
Variable PROGRAMMING_LANGUAGE : string.
Variable FUNC : string.
Variable DEFAULT_FUNC_NAME : string.

Lemma alter_delete_lookup (config : gmap string (gmap string Json)) entry field :
  alter (delete field) entry config !! entry ≫= (.!! field) = None.
Proof.
  rewrite lookup_alter_eq. destruct (config !! entry) as [fields|]; [|done].
  cbn. apply lookup_delete_eq.
Qed.

Lemma alter_undefined_lookup (json : gmap string (gmap string (option Json))) entry field :
  (alter (<[field := None]>) entry json !! entry ≫= (.!! field)) ≫= id = None.
Proof.
  rewrite lookup_alter_eq. destruct (json !! entry) as [fields|]; [|done].
  cbn. by rewrite lookup_insert_eq.
Qed.

Lemma isSome_get (json : gmap string (gmap string (option Json))) :
  isSome (json !! "get") = true <-> is_Some (json !! "get").
Proof.
  destruct (json !! "get") as [x|]; cbn; split; done.
Qed.

(** X22. upgradeProgrammingLanguage and upgradeDefaultFunctionName move
    a truthy value from the old config to the project settings and leave
    nothing to move: the field of the settings becomes that value, the
    config no longer holds it (in a Map it is deleted, in a Json set to
    undefined), and a second call changes nothing. With no truthy value
    in the config, config and settings stay as they are. A Map is read
    at the "solution" entry for the language and at the entry of the
    function plugin for the function name; a Json at [.solution] for
    both. The calls throw only for a Json that has an entry named
    "get". *)
Theorem upgradeProgrammingLanguage_moves_once
    (solutionConfig : SolutionConfigOrJson) (setting : option Json) :
  let throws :=
    exists json, solutionConfig = AsJson json /\ is_Some (json !! "get") in
  let holds (solutionConfig : SolutionConfigOrJson) (entry field jsonField : string)
      : option Json :=
    match solutionConfig with
    | AsMap config => config !! entry ≫= (.!! field)
    | AsJson json => (json !! "solution" ≫= (.!! jsonField)) ≫= id
    end in
  let moved (entry field jsonField : string)
      (result : SolutionConfigOrJson * option Json) :=
    let value := holds solutionConfig entry field jsonField in
    (truthyValue value = true ->
       result.2 = value /\ holds result.1 entry field jsonField = None) /\
    (truthyValue value = false -> result = (solutionConfig, setting)) in
  ((upgradeProgrammingLanguage GLOBAL_CONFIG PROGRAMMING_LANGUAGE solutionConfig setting
      = None <-> throws) /\
   (forall result,
      upgradeProgrammingLanguage GLOBAL_CONFIG PROGRAMMING_LANGUAGE solutionConfig setting
        = Some result ->
      upgradeProgrammingLanguage GLOBAL_CONFIG PROGRAMMING_LANGUAGE result.1 result.2
        = Some result /\
      moved GLOBAL_CONFIG PROGRAMMING_LANGUAGE "programmingLanguage" result)) /\
  ((upgradeDefaultFunctionName FUNC DEFAULT_FUNC_NAME solutionConfig setting
      = None <-> throws) /\
   (forall result,
      upgradeDefaultFunctionName FUNC DEFAULT_FUNC_NAME solutionConfig setting
        = Some result ->
      upgradeDefaultFunctionName FUNC DEFAULT_FUNC_NAME result.1 result.2
        = Some result /\
      moved FUNC DEFAULT_FUNC_NAME "defaultFunctionName" result)).
Proof.
  intros throws holds moved. subst throws holds moved. cbv beta zeta.
  unfold upgradeProgrammingLanguage, upgradeDefaultFunctionName.
  destruct solutionConfig as [config|json].
  - split; (split; [split; [case_match; intros [=]|by intros (? & ? & _)]|]).
    + destruct (truthyValue (config !! GLOBAL_CONFIG ≫= _)) eqn:Ht;
        intros result [= <-]; cbn [fst snd].
      * rewrite alter_delete_lookup. cbn [truthyValue]. done.
      * rewrite Ht. done.
    + destruct (truthyValue (config !! FUNC ≫= _)) eqn:Ht;
        intros result [= <-]; cbn [fst snd].
      * rewrite alter_delete_lookup. cbn [truthyValue]. done.
      * rewrite Ht. done.
  - destruct (isSome (json !! "get")) eqn:Hg.
    { split; (split; [|done]); (split; [|done]); intros _; exists json;
        (split; [done|]); by apply isSome_get. }
    assert (Hno : ~ exists json0, AsJson json = AsJson json0 /\ is_Some (json0 !! "get")).
    { intros (? & [= <-] & ?%isSome_get). congruence. }
    split; (split; [split; [case_match; intros [=]|by intros ?%Hno]|]).
    + destruct (truthyValue ((json !! "solution" ≫= _) ≫= id)) eqn:Ht;
        intros result [= <-]; cbn [fst snd].
      * rewrite lookup_alter_ne by done. rewrite Hg.
        rewrite alter_undefined_lookup. cbn [truthyValue]. done.
      * rewrite Hg, Ht. done.
    + destruct (truthyValue ((json !! "solution" ≫= _) ≫= id)) eqn:Ht;
        intros result [= <-]; cbn [fst snd].
      * rewrite lookup_alter_ne by done. rewrite Hg.
        rewrite alter_undefined_lookup. cbn [truthyValue]. done.
      * rewrite Hg, Ht. done.
Qed.
End LegacySettingsFacts.
